(** * gonexmo: the SMS and number-management resources, embedded in Rocq

    The Go package [nexmo] (the file [sms.go] and the file of the number
    operations) is embedded shallowly.  Go strings are byte sequences, so
    they are Rocq [string]s
    (lists of 8-bit [ascii]) and [len] is [String.length]; [[]byte] is
    [list byte]; Go's [int] and the integer types derived from it are [Z];
    [url.Values] and [http.Header] are [gmap string (list string)].
    The effects of an operation (log lines, the HTTP exchange, closing the
    response body, the mutation of the message handed to [Send], a run-time
    panic) are threaded through a small monad. *)

From Stdlib Require Import ZArith String Ascii Strings.Byte DecimalString SpecFloat.
From stdpp Require Import gmap strings list sorting.

Local Open Scope string_scope.
Local Open Scope Z_scope.

(** ** Go built-ins and [strconv] *)

Module strconv.

(** [strconv.Itoa]: decimal digits, a leading [-] for negatives. *)
Definition Itoa (i : Z) : string := NilZero.string_of_int (Z.to_int i).

Definition is_digit (c : ascii) : bool :=
  let n := N_of_ascii c in ((48 <=? n) && (n <=? 57))%N.

(** The value of a run of decimal digits; [None] on any other byte. *)
Fixpoint digits_val (acc : Z) (s : string) : option Z :=
  match s with
  | EmptyString => Some acc
  | String c rest =>
      if is_digit c
      then digits_val (10 * acc + (Z.of_N (N_of_ascii c) - 48)) rest
      else None
  end.

(** [strconv.ParseInt(s, 10, 64)]: an optional sign, then at least one
    digit and only digits, and the value must fit in 64 bits. *)
Definition ParseInt (s : string) : option Z :=
  let '(neg, ds) :=
    match s with
    | String "-" r => (true, r)
    | String "+" r => (false, r)
    | _ => (false, s)
    end in
  match ds with
  | EmptyString => None
  | _ =>
      match digits_val 0 ds with
      | None => None
      | Some n =>
          if neg
          then (if n <=? 2 ^ 63 then Some (- n) else None)
          else (if n <? 2 ^ 63 then Some n else None)
      end
  end.

End strconv.

(** [len] on a string counts its bytes. *)
Definition len (s : string) : Z := Z.of_nat (String.length s).

(** [len] on a slice. *)
Definition len_bytes (b : list byte) : Z := Z.of_nat (List.length b).

(** The conversion [string(b)] of a byte slice. *)
Definition string_of_bytes (b : list byte) : string := string_of_list_byte b.

(** [s != ""] *)
Definition nonempty (s : string) : bool := negb (String.eqb s "").

(** ** [net/url] *)

Module url.

(** [url.Error]: every error that [http.Client.Do] returns has this
    type. *)
Record Error : Type := mkError {
  Op : string;
  ErrURL : string;
  Err : string
}.

(** [url.Values] is [map[string][]string]. *)
Abbreviation Values := (gmap string (list string)).

(** [Values.Add]: [v[key] = append(v[key], value)]. *)
Definition Add (key value : string) (v : Values) : Values :=
  <[ key := (default [] (v !! key) ++ [value])%list ]> v.

Definition upperhex (n : N) : ascii :=
  match n with
  | 0%N => "0" | 1%N => "1" | 2%N => "2" | 3%N => "3"
  | 4%N => "4" | 5%N => "5" | 6%N => "6" | 7%N => "7"
  | 8%N => "8" | 9%N => "9" | 10%N => "A" | 11%N => "B"
  | 12%N => "C" | 13%N => "D" | 14%N => "E" | _ => "F"
  end%char.

Definition is_alnum (c : ascii) : bool :=
  let n := N_of_ascii c in
  ((48 <=? n) && (n <=? 57) || (65 <=? n) && (n <=? 90)
   || (97 <=? n) && (n <=? 122))%N.

(** [shouldEscape(c, encodeQueryComponent)]: only the unreserved
    characters are left alone. *)
Definition shouldEscape (c : ascii) : bool :=
  if is_alnum c then false
  else match c with
       | "-" | "_" | "." | "~" => false
       | _ => true
       end%char.

(** [url.QueryEscape]: a space becomes [+], every other escaped byte
    becomes [%XX]. *)
Fixpoint QueryEscape (s : string) : string :=
  match s with
  | EmptyString => EmptyString
  | String c rest =>
      if shouldEscape c then
        if Ascii.eqb c " " then String "+" (QueryEscape rest)
        else
          let n := N_of_ascii c in
          String "%" (String (upperhex (n / 16)) (String (upperhex (n mod 16))
            (QueryEscape rest)))
      else String c (QueryEscape rest)
  end.

(** The pairs [k=v] of one key, in the order of its values. *)
Definition encode_key (v : Values) (k : string) : list string :=
  (fun x => QueryEscape k ++ "=" ++ QueryEscape x)%string <$> default [] (v !! k).

Fixpoint join (sep : string) (l : list string) : string :=
  match l with
  | [] => ""
  | [x] => x
  | x :: rest => x ++ sep ++ join sep rest
  end%string.

(** [Values.Encode]: keys sorted bytewise, pairs joined by [&]. *)
Definition Encode (v : Values) : string :=
  let keys := merge_sort String.le (map_to_list v).*1 in
  join "&" (concat (encode_key v <$> keys)).

End url.

(** ** Errors *)

(** The error values that reach a caller: [errors.New] values, told apart
    by their text only (the errors of [fmt.Errorf] are such values too),
    the [*url.Error] of the HTTP client, and the two error types of
    [encoding/json], [*SyntaxError] and [*UnmarshalTypeError]. *)
Inductive json_error : Type :=
  | SyntaxError
  | UnmarshalTypeError (value : string) (gotype : string).

Inductive error : Type :=
  | errorString (s : string)
  | urlError (e : url.Error)
  | jsonError (e : json_error).

Module errors.
Definition New (s : string) : error := errorString s.
End errors.


(** ** The SMS message *)

(** SMS message types. *)
Definition Text : string := "text".
Definition Binary : string := "binary".
Definition WAPPush : string := "wappush".
Definition Unicode : string := "unicode".
Definition VCal : string := "vcal".
Definition VCard : string := "vcard".

(** [type MessageClass int], with its four named values. *)
Definition MessageClass := Z.
Definition Flash : MessageClass := 0.
Definition Standard : MessageClass := 1.
Definition SIMData : MessageClass := 2.
Definition Forward : MessageClass := 3.

Definition messageClassMap : gmap Z string :=
  <[Flash := "flash"]> (<[Standard := "standard"]>
    (<[SIMData := "SIM data"]> (<[Forward := "forward"]> ∅))).

(** [MessageClass.String]: a missing key reads as the empty string. *)
Definition MessageClass_String (m : MessageClass) : string :=
  default "" (messageClassMap !! m).

Module SMSMessage.

(** [type SMSMessage struct]; the field [Type] is spelled [Type_]. *)
Record t : Type := mk {
  apiKey : string;
  apiSecret : string;
  From : string;
  To : string;
  Type_ : string;
  Text : string;
  StatusReportRequired : Z;
  ClientReference : string;
  NetworkCode : string;
  VCard : string;
  VCal : string;
  TTL : Z;
  Class : MessageClass;
  Body : list byte;
  UDH : list byte;
  Title : string;
  URL : string;
  Validity : Z
}.

Definition set_credentials (key secret : string) (m : t) : t :=
  mk key secret (From m) (To m) (Type_ m) (Text m)
     (StatusReportRequired m) (ClientReference m) (NetworkCode m)
     (VCard m) (VCal m) (TTL m) (Class m) (Body m) (UDH m)
     (Title m) (URL m) (Validity m).

End SMSMessage.

(** [if cond { vals.Add(key, value) }] *)
Definition add_if (cond : bool) (key value : string) (vals : url.Values)
  : url.Values :=
  if cond then url.Add key value vals else vals.

(** [func (msg *SMSMessage) ToValues() url.Values] *)
Definition ToValues (msg : SMSMessage.t) : url.Values :=
  let vals : url.Values := ∅ in
  let vals := url.Add "from" (SMSMessage.From msg) vals in
  let vals := url.Add "to" (SMSMessage.To msg) vals in
  let vals := url.Add "type" (SMSMessage.Type_ msg) vals in
  let vals := add_if (nonempty (SMSMessage.Text msg))
                "text" (SMSMessage.Text msg) vals in
  let vals := add_if (negb (SMSMessage.StatusReportRequired msg =? 0))
                "status-report-req"
                (strconv.Itoa (SMSMessage.StatusReportRequired msg)) vals in
  let vals := add_if (nonempty (SMSMessage.ClientReference msg))
                "client-ref" (SMSMessage.ClientReference msg) vals in
  let vals := add_if (nonempty (SMSMessage.NetworkCode msg))
                "network-code" (SMSMessage.NetworkCode msg) vals in
  let vals := add_if (nonempty (SMSMessage.VCard msg))
                "vcard" (SMSMessage.VCard msg) vals in
  let vals := add_if (nonempty (SMSMessage.VCal msg))
                "vcal" (SMSMessage.VCal msg) vals in
  let vals := add_if (negb (SMSMessage.TTL msg =? 0))
                "ttl" (strconv.Itoa (SMSMessage.TTL msg)) vals in
  let vals := add_if (0 <? len_bytes (SMSMessage.Body msg))
                "body" (string_of_bytes (SMSMessage.Body msg)) vals in
  let vals := add_if (0 <? len_bytes (SMSMessage.UDH msg))
                "udh" (string_of_bytes (SMSMessage.UDH msg)) vals in
  vals.


(** ** Effects

    An operation of the package runs against a state (the message its
    caller handed over by pointer, or nothing), leaves a trace of what it
    did to the outside world, and either returns or panics. *)

Module http.

(** [http.Header] is [map[string][]string]. *)
Abbreviation Header := (gmap string (list string)).

(** The part of [http.Request] that the package sets. *)
Record Request : Type := mkRequest {
  Method : string;
  URL : string;
  Hdr : Header;
  ReqBody : option string
}.

(** The part of [http.Response] that the package reads; [Body] holds the
    bytes that [ioutil.ReadAll] obtains from the body stream. *)
Record Response : Type := mkResponse {
  StatusCode : Z;
  Body : string
}.

(** [r.Header.Add(key, value)]; both keys used by the package are already
    in canonical form. *)
Definition Header_Add (key value : string) (r : Request) : Request :=
  mkRequest (Method r) (URL r) (url.Add key value (Hdr r)) (ReqBody r).

(** What [client.Do] hands back: a response pointer and an error, either
    of which may be nil. *)
Record DoResult : Type := mkDoResult {
  resp : option Response;
  err : option url.Error
}.

(** The world outside the package: which URLs [http.NewRequest] accepts,
    and what the transport answers to a request. *)
Record Net : Type := mkNet {
  url_parses : string -> bool;
  RoundTrip : Request -> DoResult
}.

End http.

Inductive logarg : Type :=
  | LString (s : string)
  | LInt (i : Z)
  | LRequest (r : http.Request).

Inductive event : Type :=
  | EvLog (prefix : string) (arg : logarg)
  | EvDo (r : http.Request)
  | EvClose.

Inductive panic : Type :=
  | NilDereference.

Inductive outcome (A : Type) : Type :=
  | Returned (a : A)
  | Panicked (p : panic).
Arguments Returned {A} a.
Arguments Panicked {A} p.

Record result (St A : Type) : Type := mkResult {
  out : outcome A;
  state : St;
  trace : list event
}.
Arguments mkResult {St A} out state trace.
Arguments out {St A} r.
Arguments state {St A} r.
Arguments trace {St A} r.

Definition M (St A : Type) : Type := St -> result St A.

Definition ret {St A} (a : A) : M St A :=
  fun s => mkResult (Returned a) s [].

Definition bind {St A B} (m : M St A) (f : A -> M St B) : M St B :=
  fun s =>
    let r := m s in
    match out r with
    | Returned a =>
        let r' := f a (state r) in
        mkResult (out r') (state r') (trace r ++ trace r')%list
    | Panicked p => mkResult (Panicked p) (state r) (trace r)
    end.

Definition emit {St} (e : event) : M St unit :=
  fun s => mkResult (Returned tt) s [e].

Definition throw {St A} (p : panic) : M St A :=
  fun s => mkResult (Panicked p) s [].

Definition get {St} : M St St :=
  fun s => mkResult (Returned s) s [].

Definition put {St} (s : St) : M St unit :=
  fun _ => mkResult (Returned tt) s [].

(** Following a pointer: a nil pointer panics. *)
Definition deref {St A} (p : option A) : M St A :=
  match p with
  | Some a => ret a
  | None => throw NilDereference
  end.

(** [defer d]: [d] runs when the rest of the function is left, whether it
    returns or panics. *)
Definition defer {St A} (d : M St unit) (rest : M St A) : M St A :=
  fun s =>
    let r := rest s in
    let r' := d (state r) in
    mkResult (out r) (state r') (trace r ++ trace r')%list.

(** [if cond { action }] *)
Definition when {St} (cond : bool) (action : M St unit) : M St unit :=
  if cond then action else ret tt.

Declare Scope go_scope.
Delimit Scope go_scope with go.
Notation "x <- m ;; k" := (bind m (fun x => k))
  (at level 100, m at next level, right associativity) : go_scope.
Notation "m ;;; k" := (bind m (fun _ => k))
  (at level 100, right associativity) : go_scope.

(** [http.NewRequest]: a nil request when the URL does not parse. *)
Definition NewRequest (net : http.Net) (method url : string)
    (body : option string) : option http.Request :=
  if http.url_parses net url
  then Some (http.mkRequest method url ∅ body)
  else None.

(** [client.Do(r)] *)
Definition Do {St} (net : http.Net) (r : http.Request) : M St http.DoResult :=
  (emit (EvDo r) ;;; ret (http.RoundTrip net r))%go.

(** [resp.Body.Close()] *)
Definition Close {St} : M St unit := emit EvClose.

(** ** [encoding/json]

    [json.Unmarshal] first checks that its input is one well-formed JSON
    text and then stores the values it reads into the target, driven by
    the target's type and struct tags.  The model follows the documented
    behaviour of the decoder: a syntax tree is read from the bytes, and
    one decoder per Go type stores a tree into a value.  The package does
    not say which release of the library it is built with; where the
    releases differ, in what a field with the [string] option does with
    a value it cannot take, the release is a parameter, [Release]. *)

Module json.

#[warnings="-register-all"]
Inductive value : Type :=
  | Null
  | Bool (b : bool)
  | Number (lit : string)
  | Str (s : string)
  | Array (elems : list value)
  | Object (members : list (string * value)).

(** *** Reading the text *)

Definition quote : ascii := "034"%char.
Definition backslash : ascii := "092"%char.

Definition is_space (c : ascii) : bool :=
  match c with
  | " " | "009" | "010" | "013" => true
  | _ => false
  end%char.

Fixpoint skip_ws (s : string) : string :=
  match s with
  | String c rest => if is_space c then skip_ws rest else s
  | EmptyString => s
  end.

Definition is_digit : ascii -> bool := strconv.is_digit.

Fixpoint span_digits (s : string) : string * string :=
  match s with
  | String c rest =>
      if is_digit c
      then let '(ds, r) := span_digits rest in (String c ds, r)
      else (EmptyString, s)
  | EmptyString => (EmptyString, EmptyString)
  end.

Fixpoint strip_prefix (p s : string) : option string :=
  match p, s with
  | EmptyString, _ => Some s
  | String a p', String b s' => if Ascii.eqb a b then strip_prefix p' s' else None
  | String _ _, EmptyString => None
  end.

Fixpoint take (n : nat) (s : string) : string :=
  match n, s with
  | S n', String c rest => String c (take n' rest)
  | _, _ => EmptyString
  end.

Fixpoint drop (n : nat) (s : string) : string :=
  match n, s with
  | S n', String _ rest => drop n' rest
  | _, _ => s
  end.

(** The number grammar: an optional minus sign; a zero, or a non-zero
    digit and more digits; optionally a point and digits; optionally an
    exponent mark, a sign and digits.  The literal is kept as written. *)
Definition scan_int (s : string) : option (string * string) :=
  match s with
  | String "0" rest => Some ("0", rest)
  | String c rest =>
      if is_digit c
      then let '(ds, r) := span_digits rest in Some (String c ds, r)
      else None
  | EmptyString => None
  end%string.

Definition scan_frac (s : string) : option (string * string) :=
  match s with
  | String "." rest =>
      match span_digits rest with
      | (EmptyString, _) => None
      | (ds, r) => Some (String "." ds, r)
      end
  | _ => Some (EmptyString, s)
  end.

Definition scan_exp (s : string) : option (string * string) :=
  match s with
  | String e rest =>
      if (Ascii.eqb e "e" || Ascii.eqb e "E")%bool then
        let '(sign, rest') :=
          match rest with
          | String "+" r => ("+", r)
          | String "-" r => ("-", r)
          | _ => (EmptyString, rest)
          end%string in
        match span_digits rest' with
        | (EmptyString, _) => None
        | (ds, r) => Some (String e (sign ++ ds), r)
        end
      else Some (EmptyString, s)
  | EmptyString => Some (EmptyString, s)
  end%string.

Definition scan_number (s : string) : option (string * string) :=
  let '(sign, s1) :=
    match s with
    | String "-" r => ("-", r)
    | _ => (EmptyString, s)
    end%string in
  match scan_int s1 with
  | None => None
  | Some (i, s2) =>
      match scan_frac s2 with
      | None => None
      | Some (f, s3) =>
          match scan_exp s3 with
          | None => None
          | Some (e, s4) => Some (sign ++ i ++ f ++ e, s4)
          end
      end
  end%string.

(** UTF-8.  [utf8_width s] is the length of the well-formed sequence at
    the head of [s], or 0 when there is none. *)
Definition byte_in (lo hi : N) (s : string) (i : nat) : bool :=
  match String.get i s with
  | Some c => let n := N_of_ascii c in ((lo <=? n) && (n <=? hi))%N
  | None => false
  end.

Definition utf8_width (s : string) : nat :=
  match s with
  | EmptyString => 0
  | String c _ =>
      let b := N_of_ascii c in
      let cont := byte_in 128 191 s in
      if (b <? 128)%N then 1
      else if (b <? 194)%N then 0
      else if (b <? 224)%N then (if cont 1 then 2 else 0)
      else if (b =? 224)%N then (if byte_in 160 191 s 1 && cont 2 then 3 else 0)
      else if (b =? 237)%N then (if byte_in 128 159 s 1 && cont 2 then 3 else 0)
      else if (b <? 240)%N then (if cont 1 && cont 2 then 3 else 0)
      else if (b =? 240)%N
           then (if byte_in 144 191 s 1 && cont 2 && cont 3 then 4 else 0)
      else if (b <? 244)%N then (if cont 1 && cont 2 && cont 3 then 4 else 0)
      else if (b =? 244)%N
           then (if byte_in 128 143 s 1 && cont 2 && cont 3 then 4 else 0)
      else 0
  end%nat.

Definition chr (n : N) : ascii := ascii_of_N n.

(** [utf8.EncodeRune] *)
Definition utf8_encode (r : N) : string :=
  (if r <? 128 then String (chr r) EmptyString
   else if r <? 2048 then
     String (chr (192 + r / 64)) (String (chr (128 + r mod 64)) EmptyString)
   else if r <? 65536 then
     String (chr (224 + r / 4096)) (String (chr (128 + (r / 64) mod 64))
       (String (chr (128 + r mod 64)) EmptyString))
   else
     String (chr (240 + r / 262144)) (String (chr (128 + (r / 4096) mod 64))
       (String (chr (128 + (r / 64) mod 64))
         (String (chr (128 + r mod 64)) EmptyString))))%N.

(** U+FFFD, written where the input is not UTF-8 or a surrogate is alone. *)
Definition RuneError : N := 65533.

Definition hexval (c : ascii) : option N :=
  let n := N_of_ascii c in
  (if (48 <=? n) && (n <=? 57) then Some (n - 48)
   else if (97 <=? n) && (n <=? 102) then Some (n - 87)
   else if (65 <=? n) && (n <=? 70) then Some (n - 55)
   else None)%N.

(** [getu4]: the code unit of a [\uXXXX] at the head of [s]. *)
Definition getu4 (s : string) : option N :=
  match s with
  | String b (String "u" (String h1 (String h2 (String h3 (String h4 _))))) =>
      if Ascii.eqb b backslash then
        match hexval h1, hexval h2, hexval h3, hexval h4 with
        | Some a, Some b, Some c, Some d => Some (a * 4096 + b * 256 + c * 16 + d)%N
        | _, _, _, _ => None
        end
      else None
  | _ => None
  end.

Definition simple_escape (c : ascii) : option ascii :=
  if Ascii.eqb c quote then Some quote
  else if Ascii.eqb c backslash then Some backslash
  else match c with
       | "/" => Some "/"
       | "b" => Some "008"
       | "f" => Some "012"
       | "n" => Some "010"
       | "r" => Some "013"
       | "t" => Some "009"
       | _ => None
       end%char.

(** The contents of a string literal, from just after its opening quote:
    escapes are replaced, bytes that are not UTF-8 become U+FFFD, control
    characters are refused.  Returns the string and what follows the
    closing quote. *)
Fixpoint scan_string (fuel : nat) (s : string) : option (string * string) :=
  match fuel with
  | O => None
  | S fuel =>
      match s with
      | EmptyString => None
      | String c rest =>
          if Ascii.eqb c quote then Some (EmptyString, rest)
          else if Ascii.eqb c backslash then
            match rest with
            | String "u" _ =>
                match getu4 s with
                | None => None
                | Some rr =>
                    let after := drop 6 s in
                    let '(r, after) :=
                      if ((55296 <=? rr) && (rr <=? 57343))%N then
                        match getu4 after with
                        | Some rr1 =>
                            if ((rr <=? 56319) && (56320 <=? rr1) && (rr1 <=? 57343))%N
                            then (((rr - 55296) * 1024 + (rr1 - 56320) + 65536)%N,
                                  drop 6 after)
                            else (RuneError, after)
                        | None => (RuneError, after)
                        end
                      else (rr, after) in
                    match scan_string fuel after with
                    | Some (str, r') => Some ((utf8_encode r ++ str)%string, r')
                    | None => None
                    end
                end
            | String e rest' =>
                match simple_escape e with
                | Some b =>
                    match scan_string fuel rest' with
                    | Some (str, r') => Some (String b str, r')
                    | None => None
                    end
                | None => None
                end
            | EmptyString => None
            end
          else if (N_of_ascii c <? 32)%N then None
          else
            match utf8_width s with
            | O =>
                match scan_string fuel rest with
                | Some (str, r') => Some ((utf8_encode RuneError ++ str)%string, r')
                | None => None
                end
            | w =>
                match scan_string fuel (drop w s) with
                | Some (str, r') => Some ((take w s ++ str)%string, r')
                | None => None
                end
            end
      end
  end.

Definition scan_literal (lit : string) (v : value) (s : string)
  : option (value * string) :=
  match strip_prefix lit s with
  | Some rest => Some (v, rest)
  | None => None
  end.

(** One value, with the white space before it. *)
Fixpoint scan_value (fuel : nat) (s : string) {struct fuel}
  : option (value * string) :=
  match fuel with
  | O => None
  | S fuel =>
      match skip_ws s with
      | EmptyString => None
      | String c rest as s' =>
          if Ascii.eqb c quote then
            match scan_string (S (String.length rest)) rest with
            | Some (str, r) => Some (Str str, r)
            | None => None
            end
          else match c with
          | "n" => scan_literal "null" Null s'
          | "t" => scan_literal "true" (Bool true) s'
          | "f" => scan_literal "false" (Bool false) s'
          | "[" =>
              match skip_ws rest with
              | String "]" r => Some (Array [], r)
              | r =>
                  match scan_elems fuel r with
                  | Some (vs, r') => Some (Array vs, r')
                  | None => None
                  end
              end
          | "{" =>
              match skip_ws rest with
              | String "}" r => Some (Object [], r)
              | r =>
                  match scan_members fuel r with
                  | Some (ms, r') => Some (Object ms, r')
                  | None => None
                  end
              end
          | _ =>
              match scan_number s' with
              | Some (lit, r) => Some (Number lit, r)
              | None => None
              end
          end%char
      end
  end
with scan_elems (fuel : nat) (s : string) {struct fuel}
  : option (list value * string) :=
  match fuel with
  | O => None
  | S fuel =>
      match scan_value fuel s with
      | None => None
      | Some (v, r) =>
          match skip_ws r with
          | String "," r' =>
              match scan_elems fuel r' with
              | Some (vs, r'') => Some (v :: vs, r'')
              | None => None
              end
          | String "]" r' => Some ([v], r')
          | _ => None
          end
      end
  end
with scan_members (fuel : nat) (s : string) {struct fuel}
  : option (list (string * value) * string) :=
  match fuel with
  | O => None
  | S fuel =>
      match skip_ws s with
      | String c rest =>
          if Ascii.eqb c quote then
            match scan_string (S (String.length rest)) rest with
            | None => None
            | Some (k, r) =>
                match skip_ws r with
                | String ":" r1 =>
                    match scan_value fuel r1 with
                    | None => None
                    | Some (v, r2) =>
                        match skip_ws r2 with
                        | String "," r3 =>
                            match scan_members fuel r3 with
                            | Some (ms, r4) => Some ((k, v) :: ms, r4)
                            | None => None
                            end
                        | String "}" r3 => Some ([(k, v)], r3)
                        | _ => None
                        end
                    end
                | _ => None
                end
            end
          else None
      | EmptyString => None
      end
  end.

(** The whole text: one value, white space around it, nothing else. *)
Definition parse (text : string) : option value :=
  match scan_value (2 * String.length text + 2) text with
  | Some (v, rest) =>
      match skip_ws rest with
      | EmptyString => Some v
      | String _ _ => None
      end
  | None => None
  end.

(** *** Storing a value into a Go value

    A decoder takes the tree and the current Go value and gives the new Go
    value, with the failure it met, if any.  A value that does not fit its
    target is skipped: its error is saved and decoding goes on, and the
    earliest saved error is reported at the end.  A failure that stops the
    decoder is reported at once, in place of any saved error, and leaves
    the target as far as it was filled.  JSON [null] leaves strings,
    numbers and structs as they are. *)

Inductive failure : Type :=
  | Saved (e : error)
  | Stopped (e : error).

Definition reported (f : failure) : error :=
  match f with
  | Saved e | Stopped e => e
  end.

Definition decoder (A : Type) : Type := value -> A -> A * option failure.

(** What is reported for a step that did not stop, [a], and the steps that
    followed it, [b]. *)
Definition after (a b : option failure) : option failure :=
  match b with
  | Some (Stopped _) => b
  | _ => match a with
         | Some _ => a
         | None => b
         end
  end.

(** The description of a JSON value in an [UnmarshalTypeError]. *)
Definition describe (v : value) : string :=
  match v with
  | Null => "null"
  | Bool _ => "bool"
  | Number _ => "number"
  | Str _ => "string"
  | Array _ => "array"
  | Object _ => "object"
  end.

Definition mismatch {A} (v : value) (gotype : string) (cur : A)
  : A * option failure :=
  (cur, Some (Saved (jsonError (UnmarshalTypeError (describe v) gotype)))).

(** Into a [string]. *)
Definition dec_string : decoder string :=
  fun v cur =>
    match v with
    | Str s => (s, None)
    | Null => (cur, None)
    | _ => mismatch v "string" cur
    end.

(** Into an [int] or [int64] without the [string] option; a number that
    is no integer of 64 bits is described with its literal. *)
Definition dec_int (gotype : string) : decoder Z :=
  fun v cur =>
    match v with
    | Number lit =>
        match strconv.ParseInt lit with
        | Some n => (n, None)
        | None =>
            (cur, Some (Saved (jsonError
                          (UnmarshalTypeError ("number " ++ lit) gotype))))
        end
    | Null => (cur, None)
    | _ => mismatch v gotype cur
    end.

(** **** The [string] option, and where the releases of the library differ

    A field tagged [,string] takes its number from a JSON string.  Every
    release of [encoding/json] stores the number when the string holds a
    literal that begins with a minus sign or a digit and that the
    conversion of [strconv] reads, and every release leaves the field
    alone for [null], quoted or not.  On anything else the releases
    differ, so that part is a parameter of the model:
    - a value that is not a string (a JSON number, say) is refused by all
      of them, by an error of [fmt.Errorf] in some and by an
      [*UnmarshalTypeError] in others;
    - a string whose content does not begin like a number is refused by
      some, and handed to the conversion all the same by others (which
      therefore take a leading plus sign);
    - a content that the conversion does not read is refused.
    A refusal either ends the decoding or is saved while decoding goes
    on, again depending on the release. *)

(** What a release complains of: with an [*UnmarshalTypeError], or with
    an error of [fmt.Errorf], which is an [errors.New] value; its text
    begins with the name of the package. *)
Inductive complaint : Type :=
  | TypeError (value gotype : string)
  | Formatted (message : string).

Definition raise (c : complaint) : error :=
  match c with
  | TypeError v t => jsonError (UnmarshalTypeError v t)
  | Formatted m => errors.New ("json: " ++ m)
  end.

Record refusal : Type := mkRefusal {
  ends : bool;
  says : complaint
}.

Definition fail (r : refusal) : failure :=
  if ends r then Stopped (raise (says r)) else Saved (raise (says r)).

(** A release of the library, as far as the [string] option goes.  The
    second argument of each field is the name of the Go type of the
    target. *)
Record Release : Type := mkRelease {
  (** a value that is neither a string nor [null] *)
  unquoted : value -> string -> refusal;
  (** a content that does not begin with a minus sign or a digit and is
      not [null]: refused, or handed to the conversion *)
  misquoted : string -> string -> option refusal;
  (** a content that the conversion does not read *)
  misread : string -> string -> refusal
}.

Definition starts_number (s : string) : bool :=
  match s with
  | String c _ => (Ascii.eqb c "-" || strconv.is_digit c)%bool
  | EmptyString => false
  end.

(** Into a number field tagged [,string], with the conversion [conv] of
    its type. *)
Definition dec_quoted {A} (rel : Release) (gotype : string)
    (conv : string -> option A) : decoder A :=
  fun v cur =>
    match v with
    | Null => (cur, None)
    | Str s =>
        if String.eqb s "null" then (cur, None)
        else
          let read :=
            match conv s with
            | Some n => (n, None)
            | None => (cur, Some (fail (misread rel s gotype)))
            end in
          if starts_number s then read
          else match misquoted rel s gotype with
               | Some r => (cur, Some (fail r))
               | None => read
               end
    | _ => (cur, Some (fail (unquoted rel v gotype)))
    end.

Definition dec_int_quoted (rel : Release) (gotype : string) : decoder Z :=
  dec_quoted rel gotype strconv.ParseInt.

(** Into a slice: the length is reset to zero and each element of the
    array is decoded into a fresh element and appended, in order; an
    element at which the decoder stops is the last one.  (A nil slice and
    an empty one are both the empty list.) *)
Fixpoint dec_elems {A} (zero : A) (d : decoder A) (vs : list value)
  : list A * option failure :=
  match vs with
  | [] => ([], None)
  | v :: rest =>
      let '(a, e) := d v zero in
      match e with
      | Some (Stopped _) => ([a], e)
      | _ =>
          let '(l, e') := dec_elems zero d rest in
          (a :: l, after e e')
      end
  end.

Definition dec_slice {A} (gotype : string) (zero : A) (d : decoder A)
  : decoder (list A) :=
  fun v cur =>
    match v with
    | Array vs => dec_elems zero d vs
    | Null => ([], None)
    | _ => mismatch v gotype cur
    end.

(** A struct field as the decoder sees it: the key of its tag (or its
    name) and how a value is stored into it. *)
Record field (T : Type) : Type := mkField {
  key : string;
  store : value -> T -> T * option failure
}.
Arguments mkField {T} key store.
Arguments key {T} f.
Arguments store {T} f.

Definition field_of {T A} (k : string) (proj : T -> A) (upd : A -> T -> T)
    (d : decoder A) : field T :=
  mkField k (fun v t => let '(a, e) := d v (proj t) in (upd a t, e)).

(** Case folding of a key: ASCII letters to lower case, and the two other
    code points that fold onto ASCII letters, U+017F onto s and U+212A
    onto k. *)
Definition lower (c : ascii) : ascii :=
  let n := N_of_ascii c in
  if ((65 <=? n) && (n <=? 90))%N then ascii_of_N (n + 32) else c.

Fixpoint fold (s : string) : string :=
  match s with
  | String "197" (String "191" rest) => String "s" (fold rest)
  | String "226" (String "132" (String "170" rest)) => String "k" (fold rest)
  | String c rest => String (lower c) (fold rest)
  | EmptyString => EmptyString
  end.

Definition EqualFold (a b : string) : bool := String.eqb (fold a) (fold b).

(** The field a key names: an exact match is preferred, a match up to
    case is accepted. *)
Definition find_field {T} (fields : list (field T)) (k : string)
  : option (field T) :=
  match List.find (fun f => String.eqb (key f) k) fields with
  | Some f => Some f
  | None => List.find (fun f => EqualFold (key f) k) fields
  end.

(** The members of an object are stored one after the other, up to the
    member at which the decoder stops, if any; keys that name no field
    are ignored. *)
Fixpoint dec_members {T} (fields : list (field T))
    (ms : list (string * value)) (t : T) : T * option failure :=
  match ms with
  | [] => (t, None)
  | (k, v) :: rest =>
      match find_field fields k with
      | Some f =>
          let '(t', e) := store f v t in
          match e with
          | Some (Stopped _) => (t', e)
          | _ =>
              let '(t'', e') := dec_members fields rest t' in
              (t'', after e e')
          end
      | None => dec_members fields rest t
      end
  end.

Definition dec_struct {T} (gotype : string) (fields : list (field T))
  : decoder T :=
  fun v cur =>
    match v with
    | Object ms => dec_members fields ms cur
    | Null => (cur, None)
    | _ => mismatch v gotype cur
    end.

(** Into a pointer: [null] makes it nil, anything else is decoded into
    what it points to, a fresh zero value if it was nil. *)
Definition dec_ptr {T} (zero : T) (d : decoder T) : decoder (option T) :=
  fun v cur =>
    match v with
    | Null => (None, None)
    | _ => let '(t, e) := d v (default zero cur) in (Some t, e)
    end.

(** [json.Unmarshal(data, &target)]: the target is left alone when the
    text is not well formed. *)
Definition Unmarshal {A} (d : decoder A) (data : string) (target : A)
  : A * option error :=
  match parse data with
  | None => (target, Some (jsonError SyntaxError))
  | Some v => let '(a, e) := d v target in (a, reported <$> e)
  end.

End json.


(** ** Responses of the SMS API *)

(** [type ResponseCode int], named 0 to 17. *)
Definition ResponseCode := Z.
Definition ResponseSuccess : ResponseCode := 0.
Definition ResponseThrottled : ResponseCode := 1.
Definition ResponseMissingParams : ResponseCode := 2.
Definition ResponseInvalidParams : ResponseCode := 3.
Definition ResponseInvalidCredentials : ResponseCode := 4.
Definition ResponseInternalError : ResponseCode := 5.
Definition ResponseInvalidMessage : ResponseCode := 6.
Definition ResponseNumberBarred : ResponseCode := 7.
Definition ResponsePartnerAcctBarred : ResponseCode := 8.
Definition ResponsePartnerQuotaExceeded : ResponseCode := 9.
Definition ResponseRESTNotEnabled : ResponseCode := 10.
Definition ResponseMessageTooLong : ResponseCode := 11.
Definition ResponseCommunicationFailed : ResponseCode := 12.
Definition ResponseInvalidSignature : ResponseCode := 13.
Definition ResponseInvalidSenderAddress : ResponseCode := 14.
Definition ResponseInvalidTTL : ResponseCode := 15.
Definition ResponseFacilityNotAllowed : ResponseCode := 16.
Definition ResponseInvalidMessageClass : ResponseCode := 17.

Definition responseCodeMap : gmap Z string :=
  list_to_map [
    (ResponseSuccess, "Success");
    (ResponseThrottled, "Throttled");
    (ResponseMissingParams, "Missing params");
    (ResponseInvalidParams, "Invalid params");
    (ResponseInvalidCredentials, "Invalid credentials");
    (ResponseInternalError, "Internal error");
    (ResponseInvalidMessage, "Invalid message");
    (ResponseNumberBarred, "Number barred");
    (ResponsePartnerAcctBarred, "Partner account barred");
    (ResponsePartnerQuotaExceeded, "Partner quota exceeded");
    (ResponseRESTNotEnabled, "Account not enabled for REST");
    (ResponseMessageTooLong, "Message too long");
    (ResponseCommunicationFailed, "Communication failed");
    (ResponseInvalidSignature, "Invalid signature");
    (ResponseInvalidSenderAddress, "Invalid sender address");
    (ResponseInvalidTTL, "Invalid TTL");
    (ResponseFacilityNotAllowed, "Facility not allowed");
    (ResponseInvalidMessageClass, "Invalid message class")
  ].

Definition ResponseCode_String (c : ResponseCode) : string :=
  default "" (responseCodeMap !! c).

Module MessageReport.

(** [type MessageReport struct] *)
Record t : Type := mk {
  Status : ResponseCode;
  MessageID : string;
  To : string;
  ClientReference : string;
  RemainingBalance : string;
  MessagePrice : string;
  Network : string;
  ErrorText : string
}.

Definition zero : t := mk 0 "" "" "" "" "" "" "".

Section Decode.

Variable release : json.Release.

(** The struct tags: [status] carries the [string] option. *)
Definition fields : list (json.field t) := [
  json.field_of "status" Status
    (fun a r => mk a (MessageID r) (To r) (ClientReference r)
                  (RemainingBalance r) (MessagePrice r) (Network r) (ErrorText r))
    (json.dec_int_quoted release "nexmo.ResponseCode");
  json.field_of "message-id" MessageID
    (fun a r => mk (Status r) a (To r) (ClientReference r)
                  (RemainingBalance r) (MessagePrice r) (Network r) (ErrorText r))
    json.dec_string;
  json.field_of "to" To
    (fun a r => mk (Status r) (MessageID r) a (ClientReference r)
                  (RemainingBalance r) (MessagePrice r) (Network r) (ErrorText r))
    json.dec_string;
  json.field_of "client-ref" ClientReference
    (fun a r => mk (Status r) (MessageID r) (To r) a
                  (RemainingBalance r) (MessagePrice r) (Network r) (ErrorText r))
    json.dec_string;
  json.field_of "remaining-balance" RemainingBalance
    (fun a r => mk (Status r) (MessageID r) (To r) (ClientReference r)
                  a (MessagePrice r) (Network r) (ErrorText r))
    json.dec_string;
  json.field_of "message-price" MessagePrice
    (fun a r => mk (Status r) (MessageID r) (To r) (ClientReference r)
                  (RemainingBalance r) a (Network r) (ErrorText r))
    json.dec_string;
  json.field_of "network" Network
    (fun a r => mk (Status r) (MessageID r) (To r) (ClientReference r)
                  (RemainingBalance r) (MessagePrice r) a (ErrorText r))
    json.dec_string;
  json.field_of "error-text" ErrorText
    (fun a r => mk (Status r) (MessageID r) (To r) (ClientReference r)
                  (RemainingBalance r) (MessagePrice r) (Network r) a)
    json.dec_string
].

Definition decode : json.decoder t :=
  json.dec_struct "nexmo.MessageReport" fields.

End Decode.

End MessageReport.

Module MessageResponse.

(** [type MessageResponse struct] *)
Record t : Type := mk {
  MessageCount : Z;
  Messages : list MessageReport.t
}.

Definition zero : t := mk 0 [].

Section Decode.

Variable release : json.Release.

(** The struct tags: [message-count] carries the [string] option. *)
Definition fields : list (json.field t) := [
  json.field_of "message-count" MessageCount
    (fun a r => mk a (Messages r))
    (json.dec_int_quoted release "int");
  json.field_of "messages" Messages
    (fun a r => mk (MessageCount r) a)
    (json.dec_slice "[]nexmo.MessageReport" MessageReport.zero
       (MessageReport.decode release))
].

Definition decode : json.decoder t :=
  json.dec_struct "nexmo.MessageResponse" fields.

(** The target of [Send] is a [*MessageResponse]. *)
Definition decode_ptr : json.decoder (option t) :=
  json.dec_ptr zero decode.

End Decode.

End MessageResponse.

(** ** Number management: data *)

(** A [float64], as the IEEE 754 value it denotes. *)
Definition float64 : Type := spec_float.

Module NumberSearchOptions.

Record t : Type := mk {
  Pattern : string;
  SearchPattern : string
}.

Definition zero : t := mk "" "".

End NumberSearchOptions.

Module AvailableNumber.

Record t : Type := mk {
  Country : string;
  MSISDN : string;
  Type_ : string;
  Features : list string;
  Cost : float64
}.

Definition zero : t := mk "" "" "" [] (S754_zero false).

Section Decode.

Variable release : json.Release.

(** [strconv.ParseFloat(s, 64)]: the rounding of a decimal literal to the
    nearest [float64] is left to the library. *)
Variable ParseFloat : string -> option float64.

(** No tag renames a field; [Cost] carries the [string] option. *)
Definition fields : list (json.field t) := [
  json.field_of "Country" Country
    (fun a r => mk a (MSISDN r) (Type_ r) (Features r) (Cost r))
    json.dec_string;
  json.field_of "MSISDN" MSISDN
    (fun a r => mk (Country r) a (Type_ r) (Features r) (Cost r))
    json.dec_string;
  json.field_of "Type" Type_
    (fun a r => mk (Country r) (MSISDN r) a (Features r) (Cost r))
    json.dec_string;
  json.field_of "Features" Features
    (fun a r => mk (Country r) (MSISDN r) (Type_ r) a (Cost r))
    (json.dec_slice "[]string" "" json.dec_string);
  json.field_of "Cost" Cost
    (fun a r => mk (Country r) (MSISDN r) (Type_ r) (Features r) a)
    (json.dec_quoted release "float64" ParseFloat)
].

Definition decode : json.decoder t :=
  json.dec_struct "nexmo.AvailableNumber" fields.

End Decode.

End AvailableNumber.

Module NumberSearchResponse.

Record t : Type := mk {
  Count : Z;
  Numbers : list AvailableNumber.t
}.

Definition zero : t := mk 0 [].

Section Decode.

Variable release : json.Release.
Variable ParseFloat : string -> option float64.

Definition fields : list (json.field t) := [
  json.field_of "Count" Count
    (fun a r => mk a (Numbers r))
    (json.dec_int "int64");
  json.field_of "Numbers" Numbers
    (fun a r => mk (Count r) a)
    (json.dec_slice "[]nexmo.AvailableNumber" AvailableNumber.zero
       (AvailableNumber.decode release ParseFloat))
].

Definition decode : json.decoder t :=
  json.dec_struct "nexmo.NumberSearchResponse" fields.

End Decode.

End NumberSearchResponse.

(** ** The client *)

Module Client.

(** Modelled from the spec: the client configuration holder ([type Client
    struct], declared outside the two files embedded here); it stores the API
    key, the API secret, the OAuth flag and the verbose-logging flag, the
    four fields these files read. *)
Record t : Type := mk {
  apiKey : string;
  apiSecret : string;
  useOauth : bool;
  VerboseLogging : bool
}.

End Client.

(** What [Send] returns: a response pointer and an error. *)
Definition SendReturn : Type := option MessageResponse.t * option error.

(** [log.Println(prefix, arg)] and [log.Printf] with one operand. *)
Definition log {St} (prefix : string) (arg : logarg) : M St unit :=
  emit (EvLog prefix arg).

Section Package.

(** The package constant [apiRoot], declared outside these files. *)
Variable apiRoot : string.

(** The network the package talks to. *)
Variable net : http.Net.

(** The release of [encoding/json] the package is built with. *)
Variable release : json.Release.

(** [strconv.ParseFloat], used when a number's cost is decoded. *)
Variable ParseFloat : string -> option float64.

Local Open Scope go_scope.

(** *** [sms.go] *)

(** The part of [Send] that follows the [switch]: the credentials are
    stamped on the message, the form is posted and the answer decoded. *)
Definition Send_transmit (c : Client.t) : M SMSMessage.t SendReturn :=
  msg <- get ;;
  when (negb (Client.useOauth c))
    (put (SMSMessage.set_credentials (Client.apiKey c)
            (Client.apiSecret c) msg)) ;;;
  msg <- get ;;
  let messageValues := ToValues msg in
  let messageValues :=
    url.Add "api_key" (SMSMessage.apiKey msg) messageValues in
  let messageValues :=
    url.Add "api_secret" (SMSMessage.apiSecret msg) messageValues in
  let encodedForm := url.Encode messageValues in
  when (Client.VerboseLogging c)
    (log "NEXMO: Sending encoded form:" (LString encodedForm)) ;;;
  r <- deref (NewRequest net "POST" (apiRoot ++ "/sms/json")%string
                (Some encodedForm)) ;;
  let r := http.Header_Add "Accept" "application/json" r in
  let r := http.Header_Add "Content-Type"
             "application/x-www-form-urlencoded" r in
  when (Client.VerboseLogging c)
    (log "NEXMO: Sending request:" (LRequest r)) ;;;
  d <- Do net r ;;
  match http.err d with
  | Some e => ret (None, Some (urlError e))
  | None =>
      resp <- deref (http.resp d) ;;
      defer Close (
        when (Client.VerboseLogging c)
          (log "NEXMO: Response status code:"
             (LInt (http.StatusCode resp))) ;;;
        let body := http.Body resp in
        when (Client.VerboseLogging c)
          (log "NEXMO: Response:" (LString body)) ;;;
        let '(messageResponse, e) :=
          json.Unmarshal (MessageResponse.decode_ptr release) body None in
        match e with
        | Some e => ret (None, Some e)
        | None => ret (messageResponse, None)
        end)
  end.

(** [func (c *SMS) Send(msg *SMSMessage)], which returns a
    [*MessageResponse] and an [error].  The state is the message [msg]
    points to.  A [return] inside the [switch] ends the function; every
    other way out of the [switch] goes on with [Send_transmit]. *)
Definition Send (c : Client.t) : M SMSMessage.t SendReturn :=
  msg <- get ;;
  if len (SMSMessage.From msg) <=? 0 then
    ret (None, Some (errors.New "Invalid From field specified"))
  else if len (SMSMessage.To msg) <=? 0 then
    ret (None, Some (errors.New "Invalid To field specified"))
  else if 40 <? len (SMSMessage.ClientReference msg) then
    ret (None, Some (errors.New "Client reference too long"))
  else
    let ty := SMSMessage.Type_ msg in
    if String.eqb ty Text then Send_transmit c
    else if String.eqb ty Unicode then
      if len (SMSMessage.Text msg) <=? 0 then
        ret (None, Some (errors.New "Invalid message text"))
      else Send_transmit c
    else if String.eqb ty Binary then
      if (len_bytes (SMSMessage.UDH msg) =? 0)
         || (len_bytes (SMSMessage.Body msg) =? 0) then
        ret (None, Some (errors.New "Invalid binary message"))
      else Send_transmit c
    else if String.eqb ty WAPPush then
      if (len (SMSMessage.URL msg) =? 0)
         || (len (SMSMessage.Title msg) =? 0) then
        ret (None, Some (errors.New "Invalid WAP Push parameters"))
      else Send_transmit c
    else Send_transmit c.

(** *** The number operations *)

(** The request URL of a search: the path, and the two filters only when
    the outer test lets them through. *)
Definition searchUrl (c : Client.t) (countryCode : string)
    (opts : NumberSearchOptions.t) : string :=
  let requestUrl :=
    (apiRoot ++ "/number/search/" ++ Client.apiKey c ++ "/"
       ++ Client.apiSecret c ++ "/" ++ countryCode)%string in
  if nonempty (NumberSearchOptions.Pattern opts)
     && nonempty (NumberSearchOptions.SearchPattern opts) then
    let requestUrl :=
      (requestUrl ++ "?pattern="
         ++ url.QueryEscape (NumberSearchOptions.Pattern opts))%string in
    if nonempty (NumberSearchOptions.SearchPattern opts) then
      (requestUrl ++ "&search_pattern="
         ++ url.QueryEscape (NumberSearchOptions.SearchPattern opts))%string
    else requestUrl
  else requestUrl.

(** [func (c *Numbers) SearchAvailableWithOptions(countryCode string,
    opts NumberSearchOptions) (response NumberSearchResponse, err error)].
    [resp.Body] is read by the [defer] statement before [err] is looked
    at. *)
Definition SearchAvailableWithOptions (c : Client.t) (countryCode : string)
    (opts : NumberSearchOptions.t)
  : M unit (NumberSearchResponse.t * option error) :=
  let response := NumberSearchResponse.zero in
  if len countryCode <=? 0 then
    ret (response, Some (errors.New "Invalid country code field specified"))
  else
    let requestUrl := searchUrl c countryCode opts in
    r <- deref (NewRequest net "GET" requestUrl None) ;;
    let r := http.Header_Add "Accept" "application/json" r in
    d <- Do net r ;;
    resp <- deref (http.resp d) ;;
    defer Close (
      match http.err d with
      | Some e => ret (response, Some (urlError e))
      | None =>
          let body := http.Body resp in
          ret (json.Unmarshal
                 (NumberSearchResponse.decode release ParseFloat)
                 body response)
      end).

(** [func (c *Numbers) SearchAvailable(countryCode string)] *)
Definition SearchAvailable (c : Client.t) (countryCode : string)
  : M unit (NumberSearchResponse.t * option error) :=
  SearchAvailableWithOptions c countryCode NumberSearchOptions.zero.

(** [func (c *Numbers) BuyPhoneNumber(countryCode, number string)
    (bool, error)] *)
Definition BuyPhoneNumber (c : Client.t) (countryCode number : string)
  : M unit (bool * option error) :=
  if len countryCode <=? 0 then
    ret (false, Some (errors.New "Invalid country code field specified"))
  else if len number <=? 0 then
    ret (false, Some (errors.New "Invalid number field specified"))
  else
    let requestUrl :=
      (apiRoot ++ "/number/buy/" ++ Client.apiKey c ++ "/"
         ++ Client.apiSecret c ++ "/" ++ countryCode ++ "/" ++ number)%string in
    r <- deref (NewRequest net "POST" requestUrl None) ;;
    let r := http.Header_Add "Accept" "application/json" r in
    d <- Do net r ;;
    resp <- deref (http.resp d) ;;
    defer Close (
      match http.err d with
      | Some e => ret (false, Some (urlError e))
      | None =>
          let code := http.StatusCode resp in
          if code =? 200 then ret (true, None)
          else if code =? 401 then
            ret (false, Some (errors.New "Wrong credentials"))
          else if code =? 420 then
            ret (false, Some (errors.New "Bad parameters"))
          else ret (false, Some (errors.New "Other error"))
      end).

(** [func (c *Numbers) CancelPhoneNumber(countryCode, number string)
    (bool, error)] *)
Definition CancelPhoneNumber (c : Client.t) (countryCode number : string)
  : M unit (bool * option error) :=
  if len countryCode <=? 0 then
    ret (false, Some (errors.New "Invalid country code field specified"))
  else if len number <=? 0 then
    ret (false, Some (errors.New "Invalid number field specified"))
  else
    let requestUrl :=
      (apiRoot ++ "/number/cancel/" ++ Client.apiKey c ++ "/"
         ++ Client.apiSecret c ++ "/" ++ countryCode ++ "/" ++ number)%string in
    r <- deref (NewRequest net "POST" requestUrl None) ;;
    let r := http.Header_Add "Accept" "application/json" r in
    d <- Do net r ;;
    resp <- deref (http.resp d) ;;
    defer Close (
      match http.err d with
      | Some e => ret (false, Some (urlError e))
      | None =>
          let code := http.StatusCode resp in
          if code =? 200 then ret (true, None)
          else if code =? 401 then
            ret (false, Some (errors.New "Wrong credentials"))
          else if code =? 420 then
            ret (false, Some (errors.New "Bad parameters"))
          else ret (false, Some (errors.New "Other error"))
      end).

End Package.


(** ** Vocabulary of the properties *)

(** The requests a run handed to the HTTP client, in order. *)
Definition requests (t : list event) : list http.Request :=
  omap (fun e => match e with EvDo r => Some r | _ => None end) t.

(** A request without body that accepts JSON, as the number operations
    build it. *)
Definition accept_json (method url : string) : http.Request :=
  http.Header_Add "Accept" "application/json"
    (http.mkRequest method url ∅ None).

(** The messages of the errors with which [Send] refuses a message. *)
Definition validation_errors : list string := [
  "Invalid From field specified";
  "Invalid To field specified";
  "Client reference too long";
  "Invalid message text";
  "Invalid binary message";
  "Invalid WAP Push parameters"
].

(** A run of [Send] that failed validation: one of the validation errors
    is returned, nothing was sent or logged, the message is untouched. *)
Definition rejected (msg : SMSMessage.t)
    (r : result SMSMessage.t SendReturn) : Prop :=
  ∃ m, m ∈ validation_errors
       ∧ out r = Returned (None, Some (errors.New m))
       ∧ trace r = [] ∧ state r = msg.

(** A run of [Send] that returned a validation error. *)
Definition validation_failed (r : result SMSMessage.t SendReturn) : Prop :=
  ∃ m x, m ∈ validation_errors ∧ out r = Returned (x, Some (errors.New m)).

(** An error that [encoding/json] made: one of its two error types, or an
    error of [fmt.Errorf], whose text begins with the name of the
    package; and a decoder that reports such errors only. *)
Definition json_made (e : error) : Prop :=
  match e with
  | jsonError _ => True
  | errorString m => ∃ d, m = ("json: " ++ d)%string
  | urlError _ => False
  end.

Definition well_made {A} (d : json.decoder A) : Prop :=
  ∀ v cur a f, d v cur = (a, Some f) -> json_made (json.reported f).

(** A run of [Send] that posted exactly one request to the SMS endpoint. *)
Definition posted (apiRoot : string)
    (r : result SMSMessage.t SendReturn) : Prop :=
  ∃ req, requests (trace r) = [req]
         ∧ http.Method req = "POST"
         ∧ http.URL req = (apiRoot ++ "/sms/json")%string.

(** The message as [Send] leaves it: stamped with the credentials of the
    client unless the client uses OAuth. *)
Definition stamped (c : Client.t) (msg : SMSMessage.t) : SMSMessage.t :=
  if Client.useOauth c then msg
  else SMSMessage.set_credentials (Client.apiKey c) (Client.apiSecret c) msg.

(** The encoded form of a message: its values and the two credentials. *)
Definition form_of (msg : SMSMessage.t) : string :=
  url.Encode
    (url.Add "api_secret" (SMSMessage.apiSecret msg)
       (url.Add "api_key" (SMSMessage.apiKey msg) (ToValues msg))).

(** The request that carries a message. *)
Definition sms_request (apiRoot : string) (msg : SMSMessage.t)
  : http.Request :=
  http.Header_Add "Content-Type" "application/x-www-form-urlencoded"
    (http.Header_Add "Accept" "application/json"
       (http.mkRequest "POST" (apiRoot ++ "/sms/json")%string ∅
          (Some (form_of msg)))).

(** A log line, written only by a verbose client. *)
Definition verbose (c : Client.t) (prefix : string) (arg : logarg)
  : list event :=
  if Client.VerboseLogging c then [EvLog prefix arg] else [].

(** What [Send] returns for what the HTTP client handed back. *)
Definition transmit_out (rel : json.Release) (d : http.DoResult)
  : outcome SendReturn :=
  match http.err d with
  | Some e => Returned (None, Some (urlError e))
  | None =>
      match http.resp d with
      | None => Panicked NilDereference
      | Some rsp =>
          Returned
            match json.Unmarshal (MessageResponse.decode_ptr rel)
                    (http.Body rsp) None with
            | (_, Some e) => (None, Some e)
            | (messageResponse, None) => (messageResponse, None)
            end
      end
  end.

(** What [Send] does after the exchange. *)
Definition transmit_tail (c : Client.t) (d : http.DoResult) : list event :=
  match http.err d, http.resp d with
  | None, Some rsp =>
      verbose c "NEXMO: Response status code:" (LInt (http.StatusCode rsp))
      ++ verbose c "NEXMO: Response:" (LString (http.Body rsp))
      ++ [EvClose]
  | _, _ => []
  end.

(** The verdict of the checks that [Send] makes before it transmits: the
    message of the error it returns, if any. *)
Definition validation (msg : SMSMessage.t) : option string :=
  if len (SMSMessage.From msg) <=? 0 then
    Some "Invalid From field specified"
  else if len (SMSMessage.To msg) <=? 0 then
    Some "Invalid To field specified"
  else if 40 <? len (SMSMessage.ClientReference msg) then
    Some "Client reference too long"
  else if String.eqb (SMSMessage.Type_ msg) Text then None
  else if String.eqb (SMSMessage.Type_ msg) Unicode then
    if len (SMSMessage.Text msg) <=? 0 then Some "Invalid message text"
    else None
  else if String.eqb (SMSMessage.Type_ msg) Binary then
    if (len_bytes (SMSMessage.UDH msg) =? 0)
       || (len_bytes (SMSMessage.Body msg) =? 0)
    then Some "Invalid binary message"
    else None
  else if String.eqb (SMSMessage.Type_ msg) WAPPush then
    if (len (SMSMessage.URL msg) =? 0) || (len (SMSMessage.Title msg) =? 0)
    then Some "Invalid WAP Push parameters"
    else None
  else None.

(** The length of a text in characters, as the spec counts the client
    reference: the code points of its UTF-8 encoding, which are as many as
    the bytes that do not continue a sequence. *)
Definition continues (c : ascii) : bool :=
  let n := N_of_ascii c in ((128 <=? n) && (n <=? 191))%N.

Fixpoint characters (s : string) : Z :=
  match s with
  | EmptyString => 0
  | String c rest => (if continues c then 0 else 1) + characters rest
  end.

(** The three checks every message has to pass. *)
Definition well_addressed (msg : SMSMessage.t) : Prop :=
  SMSMessage.From msg ≠ "" ∧ SMSMessage.To msg ≠ ""
  ∧ len (SMSMessage.ClientReference msg) <= 40.

(** The URL of a number operation: the endpoint path, then key, secret,
    country and number. *)
Definition number_url (apiRoot path : string) (c : Client.t)
    (countryCode number : string) : string :=
  (apiRoot ++ path ++ Client.apiKey c ++ "/" ++ Client.apiSecret c
     ++ "/" ++ countryCode ++ "/" ++ number)%string.

(** The result that the status switch of a purchase or a cancellation
    gives for a status code. *)
Definition status_result (code : Z) : bool * option error :=
  if code =? 200 then (true, None)
  else if code =? 401 then (false, Some (errors.New "Wrong credentials"))
  else if code =? 420 then (false, Some (errors.New "Bad parameters"))
  else (false, Some (errors.New "Other error")).

(** How a purchase or a cancellation ends once its request [req] has been
    built, given what the HTTP client hands back: a nil response panics
    before the error is looked at; otherwise the body is closed and the
    error, if any, or else the verdict on the status code is returned. *)
Definition number_run (req : http.Request) (d : http.DoResult)
  : result unit (bool * option error) :=
  match http.resp d with
  | None => mkResult (Panicked NilDereference) tt [EvDo req]
  | Some rsp =>
      mkResult
        (Returned match http.err d with
                  | Some e => (false, Some (urlError e))
                  | None => status_result (http.StatusCode rsp)
                  end)
        tt [EvDo req; EvClose]
  end.

(** The URL of a search before any filter is appended. *)
Definition search_base (apiRoot : string) (c : Client.t)
    (countryCode : string) : string :=
  (apiRoot ++ "/number/search/" ++ Client.apiKey c ++ "/"
     ++ Client.apiSecret c ++ "/" ++ countryCode)%string.

(** The message with another message class. *)
Definition with_Class (cls : MessageClass) (m : SMSMessage.t)
  : SMSMessage.t :=
  SMSMessage.mk (SMSMessage.apiKey m) (SMSMessage.apiSecret m)
    (SMSMessage.From m) (SMSMessage.To m) (SMSMessage.Type_ m)
    (SMSMessage.Text m) (SMSMessage.StatusReportRequired m)
    (SMSMessage.ClientReference m) (SMSMessage.NetworkCode m)
    (SMSMessage.VCard m) (SMSMessage.VCal m) (SMSMessage.TTL m) cls
    (SMSMessage.Body m) (SMSMessage.UDH m) (SMSMessage.Title m)
    (SMSMessage.URL m) (SMSMessage.Validity m).

(** A JSON text written with the apostrophe standing for the quotation
    mark. *)
Fixpoint json_text (s : string) : string :=
  match s with
  | EmptyString => EmptyString
  | String c rest =>
      String (if Ascii.eqb c "'" then json.quote else c) (json_text rest)
  end.

(** Writing a JSON text.  A plain string holds printable ASCII characters
    other than the quotation mark and the backslash, so it is written
    between quotation marks as it is; a plain value is built from [null],
    the booleans, plain strings, arrays and objects with plain keys. *)
Definition plain_char (c : ascii) : bool :=
  let n := N_of_ascii c in
  ((32 <=? n) && (n <? 127) && negb (n =? 34) && negb (n =? 92))%N.

Fixpoint plain_string (s : string) : bool :=
  match s with
  | EmptyString => true
  | String c rest => plain_char c && plain_string rest
  end.

Definition quoted (s : string) : string :=
  String json.quote (s ++ String json.quote EmptyString).

Fixpoint commas (l : list string) : string :=
  match l with
  | [] => EmptyString
  | [x] => x
  | x :: rest => x ++ "," ++ commas rest
  end%string.

(** The compact text of a value. *)
Fixpoint json_render (v : json.value) : string :=
  match v with
  | json.Null => "null"
  | json.Bool true => "true"
  | json.Bool false => "false"
  | json.Number lit => lit
  | json.Str s => quoted s
  | json.Array vs => "[" ++ commas (List.map json_render vs) ++ "]"
  | json.Object ms =>
      "{" ++ commas (List.map
                      (fun kv => quoted (fst kv) ++ ":" ++ json_render (snd kv))
                      ms)
      ++ "}"
  end%string.

Fixpoint json_plain (v : json.value) : bool :=
  match v with
  | json.Null | json.Bool _ => true
  | json.Number _ => false
  | json.Str s => plain_string s
  | json.Array vs => forallb json_plain vs
  | json.Object ms =>
      forallb (fun kv => plain_string (fst kv) && json_plain (snd kv)) ms
  end.

(** A text whose first character can open a value. *)
Definition opens (s : string) : Prop :=
  ∃ c r, s = String c r ∧ json.is_space c = false
         ∧ c ≠ "]"%char ∧ c ≠ "}"%char ∧ c ≠ ","%char.

(** A value whose text is read back, whatever follows it, with fuel for
    twice its length. *)
Definition reads_back (v : json.value) : Prop :=
  ∀ (rest : string) (fuel : nat),
    (2 * String.length (json_render v) + 1 <= fuel)%nat ->
    json.scan_value fuel (json_render v ++ rest) = Some (v, rest).

(** Inputs on which the properties are tried. *)
Definition example_client : Client.t := Client.mk "key" "secret" false false.

Definition example_root : string := "https://rest.nexmo.com".

(** A network whose transport fails: a nil response and an error. *)
Definition refusing_net : http.Net :=
  http.mkNet (fun _ => true)
    (fun r => http.mkDoResult None
       (Some (url.mkError "Post" (http.URL r) "connection refused"))).

(** A network that answers every request with the given status and body. *)
Definition answering_net (status : Z) (body : string) : http.Net :=
  http.mkNet (fun _ => true)
    (fun _ => http.mkDoResult (Some (http.mkResponse status body)) None).

Definition no_float : string -> option float64 := fun _ => None.

(** A release of [encoding/json] that reports whatever a field with the
    [string] option cannot take as a type error and goes on, and that
    hands every quoted content to the conversion. *)
Definition lenient_release : json.Release :=
  json.mkRelease
    (fun v gotype =>
       json.mkRefusal false (json.TypeError (json.describe v) gotype))
    (fun _ _ => None)
    (fun s gotype =>
       json.mkRefusal false (json.TypeError ("number " ++ s) gotype)).

(** A message of the given type with the required fields and nothing
    else. *)
Definition bare_message (ty : string) : SMSMessage.t :=
  SMSMessage.mk "" "" "sender" "447700900000" ty "" 0 "" "" "" "" 0 Flash
    [] [] "" "" 0.

(** A client reference of 21 characters in 42 bytes: 21 times the letter
    e with an acute accent, U+00E9; and a message of the given type that
    carries it. *)
Definition e_acute : string := String "195" (String "169" EmptyString).

Definition accented_reference : string :=
  String.concat "" (List.repeat e_acute 21).

Definition accented_message (ty : string) : SMSMessage.t :=
  SMSMessage.mk "" "" "sender" "447700900000" ty "hello" 0
    accented_reference "" "" "" 0 Flash [] [] "" "" 0.

(** The body of a response with three reports, and what it decodes to. *)
Definition example_body : string :=
  json_text
    ("{'message-count':'3','messages':["
     ++ "{'status':'0','message-id':'0A01','to':'447700900000',"
     ++ "'client-ref':'ref','remaining-balance':'1.10',"
     ++ "'message-price':'0.05','network':'23410'},"
     ++ "{'status':'0','message-id':'0A02','to':'447700900000'},"
     ++ "{'status':'4','error-text':'Bad Credentials'}]}").

Definition example_reports : list MessageReport.t := [
  MessageReport.mk 0 "0A01" "447700900000" "ref" "1.10" "0.05" "23410" "";
  MessageReport.mk 0 "0A02" "447700900000" "" "" "" "" "";
  MessageReport.mk 4 "" "" "" "" "" "" "Bad Credentials"
].

Definition example_objects : list json.value := [
  json.Object [("status", json.Str "0"); ("message-id", json.Str "0A01");
               ("to", json.Str "447700900000"); ("client-ref", json.Str "ref");
               ("remaining-balance", json.Str "1.10");
               ("message-price", json.Str "0.05");
               ("network", json.Str "23410")];
  json.Object [("status", json.Str "0"); ("message-id", json.Str "0A02");
               ("to", json.Str "447700900000")];
  json.Object [("status", json.Str "4");
               ("error-text", json.Str "Bad Credentials")]
].

(** The same body with the count as a JSON number. *)
Definition unquoted_body : string :=
  json_text "{'message-count':3,'messages':[]}".

(** The keys that [ToValues] can set, and the keys of the form that [Send]
    encodes, in the order in which [Values.Encode] writes them. *)
Definition value_keys : list string := [
  "from"; "to"; "type"; "text"; "status-report-req"; "client-ref";
  "network-code"; "vcard"; "vcal"; "ttl"; "body"; "udh"
].

Definition single_valued (keys : list string) (vals : url.Values) : Prop :=
  ∀ k vs, vals !! k = Some vs -> k ∈ keys ∧ ∃ v, vs = [v].

Definition wire_keys : list string := [
  "api_key"; "api_secret"; "body"; "client-ref"; "from"; "network-code";
  "status-report-req"; "text"; "to"; "ttl"; "type"; "udh"; "vcal"; "vcard"
].

Definition form_pair (k v : string) : string :=
  (k ++ "=" ++ url.QueryEscape v)%string.

Definition form_pair_if (present : bool) (k v : string) : list string :=
  if present then [form_pair k v] else [].

Definition form_values (msg : SMSMessage.t) : url.Values :=
  url.Add "api_secret" (SMSMessage.apiSecret msg)
    (url.Add "api_key" (SMSMessage.apiKey msg) (ToValues msg)).

(** The message with other WAP push fields. *)
Definition with_WAP (title wapurl : string) (validity : Z) (m : SMSMessage.t)
  : SMSMessage.t :=
  SMSMessage.mk (SMSMessage.apiKey m) (SMSMessage.apiSecret m)
    (SMSMessage.From m) (SMSMessage.To m) (SMSMessage.Type_ m)
    (SMSMessage.Text m) (SMSMessage.StatusReportRequired m)
    (SMSMessage.ClientReference m) (SMSMessage.NetworkCode m)
    (SMSMessage.VCard m) (SMSMessage.VCal m) (SMSMessage.TTL m)
    (SMSMessage.Class m) (SMSMessage.Body m) (SMSMessage.UDH m)
    title wapurl validity.

(** The log lines of a run, and how often it closed a response body. *)
Definition logged (t : list event) : list (string * logarg) :=
  omap (fun e => match e with EvLog p a => Some (p, a) | _ => None end) t.

Definition closings (t : list event) : nat :=
  List.length
    (omap (fun e => match e with EvClose => Some tt | _ => None end) t).



(** The body of a search answer whose list of numbers is not a list. *)
Definition partial_body : string :=
  json_text "{'count':2,'numbers':'none'}".

(** A search answer in the layout that the package documents, and a
    reading of decimal literals that knows the one it holds. *)
Definition search_body : string :=
  json_text
    ("{'count':1,'numbers':[{'country':'US','msisdn':'15005550006',"
     ++ "'type':'mobile-lvn','features':['SMS','VOICE'],'cost':'0.50'}]}").

Definition half : float64 := S754_finite false 1 (-1).

Definition reads_half (s : string) : option float64 :=
  if String.eqb s "0.50" then Some half else None.

(** ** Properties of [ToValues] *)

Lemma nonempty_true (s : string) : s ≠ "" -> nonempty s = true.
Proof. destruct s; [congruence | reflexivity]. Qed.

Lemma nonempty_false (s : string) : s = "" -> nonempty s = false.
Proof. intros ->. reflexivity. Qed.

Lemma nonempty_decide (s : string) :
  nonempty s = if decide (s = "") then false else true.
Proof. destruct s; reflexivity. Qed.

Lemma lookup_Add_ne (k k' v : string) (m : url.Values) :
  k ≠ k' -> url.Add k v m !! k' = m !! k'.
Proof. intros H. unfold url.Add. by rewrite lookup_insert_ne. Qed.

Lemma lookup_Add_fresh (k v : string) (m : url.Values) :
  m !! k = None -> url.Add k v m !! k = Some [v].
Proof. intros H. unfold url.Add. by rewrite lookup_insert_eq, H. Qed.

Lemma lookup_add_if_ne (b : bool) (k k' v : string) (m : url.Values) :
  k ≠ k' -> add_if b k v m !! k' = m !! k'.
Proof. intros H. destruct b; simpl; [by apply lookup_Add_ne | done]. Qed.

Lemma lookup_add_if_fresh (b : bool) (k v : string) (m : url.Values) :
  m !! k = None ->
  add_if b k v m !! k = if b then Some [v] else None.
Proof. intros H. destruct b; simpl; [by apply lookup_Add_fresh | done]. Qed.

(** Looking a key up in a chain of additions under other keys. *)
Ltac skip_keys :=
  repeat first
    [ rewrite lookup_add_if_ne by discriminate
    | rewrite lookup_Add_ne by discriminate ].

Ltac lookup_values :=
  unfold ToValues; skip_keys;
  first [ rewrite lookup_add_if_fresh by (skip_keys; apply lookup_empty)
        | apply lookup_empty ].

(** C7.  Each optional field of a message is in the form values under its
    own key, as a single value, exactly when it is not empty (strings and
    byte slices) or not zero (integers); otherwise the key is absent. *)
Theorem ToValues_optional_fields (msg : SMSMessage.t) :
  let vals := ToValues msg in
  vals !! "text"
    = (if decide (SMSMessage.Text msg = "") then None
       else Some [SMSMessage.Text msg])
  ∧ vals !! "status-report-req"
    = (if decide (SMSMessage.StatusReportRequired msg = 0) then None
       else Some [strconv.Itoa (SMSMessage.StatusReportRequired msg)])
  ∧ vals !! "client-ref"
    = (if decide (SMSMessage.ClientReference msg = "") then None
       else Some [SMSMessage.ClientReference msg])
  ∧ vals !! "network-code"
    = (if decide (SMSMessage.NetworkCode msg = "") then None
       else Some [SMSMessage.NetworkCode msg])
  ∧ vals !! "vcard"
    = (if decide (SMSMessage.VCard msg = "") then None
       else Some [SMSMessage.VCard msg])
  ∧ vals !! "vcal"
    = (if decide (SMSMessage.VCal msg = "") then None
       else Some [SMSMessage.VCal msg])
  ∧ vals !! "ttl"
    = (if decide (SMSMessage.TTL msg = 0) then None
       else Some [strconv.Itoa (SMSMessage.TTL msg)])
  ∧ vals !! "body"
    = match SMSMessage.Body msg with
      | [] => None
      | _ :: _ => Some [string_of_bytes (SMSMessage.Body msg)]
      end
  ∧ vals !! "udh"
    = match SMSMessage.UDH msg with
      | [] => None
      | _ :: _ => Some [string_of_bytes (SMSMessage.UDH msg)]
      end.
Proof.
  cbv zeta. repeat split.
  - lookup_values. rewrite nonempty_decide. by case_decide.
  - lookup_values. case_decide as H; [by rewrite H |].
    by apply Z.eqb_neq in H as ->.
  - lookup_values. rewrite nonempty_decide. by case_decide.
  - lookup_values. rewrite nonempty_decide. by case_decide.
  - lookup_values. rewrite nonempty_decide. by case_decide.
  - lookup_values. rewrite nonempty_decide. by case_decide.
  - lookup_values. case_decide as H; [by rewrite H |].
    by apply Z.eqb_neq in H as ->.
  - lookup_values. by destruct (SMSMessage.Body msg).
  - lookup_values. by destruct (SMSMessage.UDH msg).
Qed.

(** C8.  Whatever the message class, the form values have no
    [message-class] key, and the class has no influence on them at all. *)
Theorem ToValues_omits_message_class (msg : SMSMessage.t) :
  ToValues msg !! "message-class" = None
  ∧ ∀ cls : MessageClass, ToValues (with_Class cls msg) = ToValues msg.
Proof.
  split; [lookup_values | reflexivity].
Qed.

(** ** Laws of the effect monad *)

Lemma bind_ret {St A B} (a : A) (f : A -> M St B) (s : St) :
  bind (ret a) f s = f a s.
Proof. unfold bind, ret. simpl. by destruct (f a s). Qed.

Lemma bind_ret_r {St A} (m : M St A) (s : St) :
  bind m ret s = m s.
Proof.
  unfold bind, ret. destruct (m s) as [[a | p] s' t]; simpl;
    by rewrite ?app_nil_r.
Qed.

Lemma bind_assoc {St A B C} (m : M St A) (f : A -> M St B)
    (g : B -> M St C) (s : St) :
  bind (bind m f) g s = bind m (fun a => bind (f a) g) s.
Proof.
  unfold bind. destruct (m s) as [[a | p] s' t]; simpl; [| done].
  destruct (f a s') as [[b | p] s'' t']; simpl; [| done].
  by rewrite app_assoc.
Qed.

Lemma bind_emit {St B} (e : event) (f : unit -> M St B) (s : St) :
  bind (emit e) f s
  = mkResult (out (f tt s)) (state (f tt s)) (e :: trace (f tt s)).
Proof. reflexivity. Qed.

Lemma bind_get {St B} (f : St -> M St B) (s : St) :
  bind get f s = f s s.
Proof. unfold bind, get. simpl. by destruct (f s s). Qed.

Lemma bind_put {St B} (s' : St) (f : unit -> M St B) (s : St) :
  bind (put s') f s = f tt s'.
Proof. unfold bind, put. simpl. by destruct (f tt s'). Qed.

Lemma bind_Do {St B} (net : http.Net) (r : http.Request)
    (f : http.DoResult -> M St B) (s : St) :
  bind (Do net r) f s
  = mkResult (out (f (http.RoundTrip net r) s))
      (state (f (http.RoundTrip net r) s))
      (EvDo r :: trace (f (http.RoundTrip net r) s)).
Proof.
  unfold Do, bind, emit, ret. simpl.
  by destruct (f (http.RoundTrip net r) s).
Qed.

(** ** Properties of the number operations *)

Lemma len_leb_empty (s : string) : s = "" -> (len s <=? 0) = true.
Proof. intros ->. reflexivity. Qed.

Lemma len_leb_nonempty (s : string) : s ≠ "" -> (len s <=? 0) = false.
Proof.
  intros H. apply Z.leb_gt. destruct s; [congruence |].
  unfold len. simpl. lia.
Qed.

Lemma string_app_cons (ch : ascii) (a b : string) :
  (String ch a ++ b)%string = String ch (a ++ b).
Proof. reflexivity. Qed.

Lemma string_app_assoc (a b c : string) :
  ((a ++ b) ++ c)%string = (a ++ b ++ c)%string.
Proof.
  induction a as [| ch a IH]; [done |].
  by rewrite !string_app_cons, IH.
Qed.

Lemma string_app_length (a b : string) :
  String.length (a ++ b) = (String.length a + String.length b)%nat.
Proof.
  induction a as [| ch a IH]; [done |].
  rewrite string_app_cons. simpl. by rewrite IH.
Qed.

Lemma string_app_ne_self (a b : string) : b ≠ "" -> (a ++ b)%string ≠ a.
Proof.
  intros Hb Heq. apply (f_equal String.length) in Heq.
  rewrite string_app_length in Heq. destruct b; [congruence |].
  simpl in Heq. lia.
Qed.

(** The URL that a search builds. *)
Lemma searchUrl_both (apiRoot : string) (c : Client.t) (countryCode : string)
    (opts : NumberSearchOptions.t) :
  NumberSearchOptions.Pattern opts ≠ "" ->
  NumberSearchOptions.SearchPattern opts ≠ "" ->
  searchUrl apiRoot c countryCode opts
  = (search_base apiRoot c countryCode
       ++ "?pattern=" ++ url.QueryEscape (NumberSearchOptions.Pattern opts)
       ++ "&search_pattern="
       ++ url.QueryEscape (NumberSearchOptions.SearchPattern opts))%string.
Proof.
  intros Hp Hs. unfold searchUrl, search_base.
  rewrite (nonempty_true _ Hp), (nonempty_true _ Hs). simpl.
  by rewrite !string_app_assoc.
Qed.

Lemma searchUrl_not_both (apiRoot : string) (c : Client.t)
    (countryCode : string) (opts : NumberSearchOptions.t) :
  NumberSearchOptions.Pattern opts = ""
  ∨ NumberSearchOptions.SearchPattern opts = "" ->
  searchUrl apiRoot c countryCode opts = search_base apiRoot c countryCode.
Proof.
  intros [H | H]; unfold searchUrl, search_base;
    rewrite (nonempty_false _ H); [done |].
  by rewrite andb_false_r.
Qed.

(** A search with a country code hands exactly one request to the HTTP
    client, a [GET] of the search URL, provided that URL parses. *)
Lemma search_request (apiRoot : string) (net : http.Net) (rel : json.Release)
    (pf : string -> option float64) (c : Client.t) (countryCode : string)
    (opts : NumberSearchOptions.t) :
  countryCode ≠ "" ->
  http.url_parses net (searchUrl apiRoot c countryCode opts) = true ->
  requests (trace (SearchAvailableWithOptions apiRoot net rel pf c countryCode
                     opts tt))
  = [accept_json "GET" (searchUrl apiRoot c countryCode opts)].
Proof.
  intros Hc Hu. unfold SearchAvailableWithOptions, NewRequest.
  rewrite (len_leb_nonempty _ Hc), Hu.
  unfold bind, deref, Do, defer, Close, emit, ret, throw. simpl.
  destruct (http.RoundTrip net _) as [[rsp |] [e |]]; reflexivity.
Qed.

(** C6.  The two filters are appended to the URL of a search exactly when
    both are non-empty; with one of them empty the URL is the bare path,
    so neither parameter is sent.  This URL is the one of the request that
    a search with a non-empty country code issues. *)
Theorem search_filters_both_or_neither (apiRoot : string) (net : http.Net)
    (rel : json.Release)
    (pf : string -> option float64) (c : Client.t) (countryCode : string)
    (opts : NumberSearchOptions.t) :
  let pattern := NumberSearchOptions.Pattern opts in
  let search_pattern := NumberSearchOptions.SearchPattern opts in
  let base := search_base apiRoot c countryCode in
  let requestUrl := searchUrl apiRoot c countryCode opts in
  (pattern ≠ "" ∧ search_pattern ≠ "" ->
     requestUrl
     = (base ++ "?pattern=" ++ url.QueryEscape pattern
          ++ "&search_pattern=" ++ url.QueryEscape search_pattern)%string)
  ∧ (pattern = "" ∨ search_pattern = "" -> requestUrl = base)
  ∧ (requestUrl ≠ base <-> pattern ≠ "" ∧ search_pattern ≠ "")
  ∧ (countryCode ≠ "" -> http.url_parses net requestUrl = true ->
       http.URL <$> requests
         (trace (SearchAvailableWithOptions apiRoot net rel pf c countryCode
                   opts tt))
       = [requestUrl]).
Proof.
  cbv zeta. split; [| split; [| split]].
  - intros [Hp Hs]. by apply searchUrl_both.
  - apply searchUrl_not_both.
  - split.
    + intros Hne.
      destruct (decide (NumberSearchOptions.Pattern opts = "")) as [Hp | Hp].
      { exfalso. apply Hne. apply searchUrl_not_both. by left. }
      destruct (decide (NumberSearchOptions.SearchPattern opts = ""))
        as [Hs | Hs].
      { exfalso. apply Hne. apply searchUrl_not_both. by right. }
      done.
    + intros [Hp Hs]. rewrite (searchUrl_both _ _ _ _ Hp Hs).
      apply string_app_ne_self. discriminate.
  - intros Hc Hu. by rewrite (search_request _ _ _ _ _ _ _ Hc Hu).
Qed.

(** The status switch of a purchase or a cancellation. *)
Ltac status_cases :=
  repeat match goal with
  | |- context [?a =? ?b] =>
      destruct (Z.eqb_spec a b); try lia; try congruence
  end.

Lemma BuyPhoneNumber_run (apiRoot : string) (net : http.Net)
    (c : Client.t) (countryCode number : string) :
  countryCode ≠ "" -> number ≠ "" ->
  let req :=
    accept_json "POST"
      (number_url apiRoot "/number/buy/" c countryCode number) in
  BuyPhoneNumber apiRoot net c countryCode number tt
  = if http.url_parses net (http.URL req)
    then number_run req (http.RoundTrip net req)
    else mkResult (Panicked NilDereference) tt [].
Proof.
  intros Hc Hn req. subst req. unfold BuyPhoneNumber, NewRequest.
  unfold accept_json, number_url. simpl http.URL.
  rewrite (len_leb_nonempty _ Hc), (len_leb_nonempty _ Hn).
  destruct (http.url_parses net _); [| reflexivity].
  unfold deref at 1. rewrite bind_ret, bind_Do. unfold number_run.
  destruct (http.RoundTrip net _) as [[rsp |] [e |]]; simpl; try reflexivity.
  unfold status_result. status_cases; reflexivity.
Qed.

Lemma CancelPhoneNumber_run (apiRoot : string) (net : http.Net)
    (c : Client.t) (countryCode number : string) :
  countryCode ≠ "" -> number ≠ "" ->
  let req :=
    accept_json "POST"
      (number_url apiRoot "/number/cancel/" c countryCode number) in
  CancelPhoneNumber apiRoot net c countryCode number tt
  = if http.url_parses net (http.URL req)
    then number_run req (http.RoundTrip net req)
    else mkResult (Panicked NilDereference) tt [].
Proof.
  intros Hc Hn req. subst req. unfold CancelPhoneNumber, NewRequest.
  unfold accept_json, number_url. simpl http.URL.
  rewrite (len_leb_nonempty _ Hc), (len_leb_nonempty _ Hn).
  destruct (http.url_parses net _); [| reflexivity].
  unfold deref at 1. rewrite bind_ret, bind_Do. unfold number_run.
  destruct (http.RoundTrip net _) as [[rsp |] [e |]]; simpl; try reflexivity.
  unfold status_result. status_cases; reflexivity.
Qed.

(** Validation of a purchase or a cancellation: nothing is sent. *)
Lemma BuyPhoneNumber_invalid (apiRoot : string) (net : http.Net)
    (c : Client.t) (countryCode number : string) :
  countryCode = "" ∨ number = "" ->
  BuyPhoneNumber apiRoot net c countryCode number tt
  = mkResult
      (Returned (false, Some (errors.New
         (if decide (countryCode = "")
          then "Invalid country code field specified"
          else "Invalid number field specified"))))
      tt [].
Proof.
  intros H. unfold BuyPhoneNumber. case_decide as Hc.
  - by rewrite (len_leb_empty _ Hc).
  - destruct H as [? | Hn]; [done |].
    by rewrite (len_leb_nonempty _ Hc), (len_leb_empty _ Hn).
Qed.

Lemma CancelPhoneNumber_invalid (apiRoot : string) (net : http.Net)
    (c : Client.t) (countryCode number : string) :
  countryCode = "" ∨ number = "" ->
  CancelPhoneNumber apiRoot net c countryCode number tt
  = mkResult
      (Returned (false, Some (errors.New
         (if decide (countryCode = "")
          then "Invalid country code field specified"
          else "Invalid number field specified"))))
      tt [].
Proof.
  intros H. unfold CancelPhoneNumber. case_decide as Hc.
  - by rewrite (len_leb_empty _ Hc).
  - destruct H as [? | Hn]; [done |].
    by rewrite (len_leb_nonempty _ Hc), (len_leb_empty _ Hn).
Qed.

(** C4.  [BuyPhoneNumber] with an empty country code or an empty number
    returns an error and hands nothing to the HTTP client.  Otherwise,
    when the exchange yields a response, the result is a function of the
    status code alone: 200 is success, 401 is the wrong-credentials error,
    420 is the bad-parameters error and any other status is the generic
    error; the body of the response plays no part. *)
Theorem BuyPhoneNumber_contract (apiRoot : string) (net : http.Net)
    (c : Client.t) (countryCode number : string) :
  let r := BuyPhoneNumber apiRoot net c countryCode number tt in
  let req :=
    accept_json "POST"
      (number_url apiRoot "/number/buy/" c countryCode number) in
  (countryCode = "" ∨ number = "" ->
     (∃ e, out r = Returned (false, Some e)) ∧ trace r = [])
  ∧ (countryCode ≠ "" -> number ≠ "" ->
     http.url_parses net (http.URL req) = true ->
     ∀ rsp, http.RoundTrip net req = http.mkDoResult (Some rsp) None ->
       requests (trace r) = [req]
       ∧ (http.StatusCode rsp = 200 -> out r = Returned (true, None))
       ∧ (http.StatusCode rsp = 401 ->
            out r = Returned (false, Some (errors.New "Wrong credentials")))
       ∧ (http.StatusCode rsp = 420 ->
            out r = Returned (false, Some (errors.New "Bad parameters")))
       ∧ (http.StatusCode rsp ≠ 200 -> http.StatusCode rsp ≠ 401 ->
          http.StatusCode rsp ≠ 420 ->
            out r = Returned (false, Some (errors.New "Other error")))).
Proof.
  cbv zeta. split.
  - intros H. rewrite (BuyPhoneNumber_invalid _ _ _ _ _ H). simpl. eauto.
  - intros Hc Hn Hu rsp Hrt.
    rewrite (BuyPhoneNumber_run _ _ _ _ _ Hc Hn), Hu, Hrt.
    unfold number_run, status_result. simpl.
    repeat split; intros; status_cases; reflexivity.
Qed.

Lemma BuyPhoneNumber_contract_witness :
  out (BuyPhoneNumber example_root (answering_net 401 "ignored")
         example_client "US" "12305933" tt)
  = Returned (false, Some (errors.New "Wrong credentials")).
Proof.
  pose proof (BuyPhoneNumber_contract example_root
                (answering_net 401 "ignored") example_client
                "US" "12305933") as [_ H].
  specialize (H ltac:(discriminate) ltac:(discriminate) eq_refl
                (http.mkResponse 401 "ignored") eq_refl).
  destruct H as (_ & _ & H & _). exact (H eq_refl).
Defined.

(** C5.  [CancelPhoneNumber] validates as [BuyPhoneNumber] does and maps
    the status code to its result as [BuyPhoneNumber] does; the requests of
    the two differ in the endpoint path and in nothing else. *)
Theorem CancelPhoneNumber_mirrors_BuyPhoneNumber (apiRoot : string)
    (net : http.Net) (c : Client.t) (countryCode number : string) :
  let buy := BuyPhoneNumber apiRoot net c countryCode number tt in
  let cancel := CancelPhoneNumber apiRoot net c countryCode number tt in
  let buy_req :=
    accept_json "POST"
      (number_url apiRoot "/number/buy/" c countryCode number) in
  let cancel_req :=
    accept_json "POST"
      (number_url apiRoot "/number/cancel/" c countryCode number) in
  (countryCode = "" ∨ number = "" -> cancel = buy ∧ trace cancel = [])
  ∧ (countryCode ≠ "" -> number ≠ "" ->
     http.url_parses net (http.URL cancel_req)
     = http.url_parses net (http.URL buy_req) ->
     (http.url_parses net (http.URL buy_req) = true ->
        requests (trace buy) = [buy_req]
        ∧ requests (trace cancel) = [cancel_req])
     ∧ (http.RoundTrip net cancel_req = http.RoundTrip net buy_req ->
          out cancel = out buy)
     ∧ (∀ rsp_b rsp_c,
          http.RoundTrip net buy_req = http.mkDoResult (Some rsp_b) None ->
          http.RoundTrip net cancel_req = http.mkDoResult (Some rsp_c) None ->
          http.StatusCode rsp_c = http.StatusCode rsp_b ->
          out cancel = out buy)).
Proof.
  cbv zeta. split.
  - intros H.
    rewrite (BuyPhoneNumber_invalid _ _ _ _ _ H),
      (CancelPhoneNumber_invalid _ _ _ _ _ H). done.
  - intros Hc Hn Hu.
    rewrite (BuyPhoneNumber_run _ net _ _ _ Hc Hn),
      (CancelPhoneNumber_run _ net _ _ _ Hc Hn), Hu.
    clear Hu. destruct (http.url_parses net _) eqn:Hp.
    + split; [| split].
      * intros _. unfold number_run.
        split; destruct (http.resp _); reflexivity.
      * intros ->. unfold number_run.
        destruct (http.resp _); reflexivity.
      * intros rsp_b rsp_c -> -> Hs. unfold number_run. simpl.
        by rewrite Hs.
    + split; [done | split; done].
Qed.

Lemma CancelPhoneNumber_mirrors_BuyPhoneNumber_witness :
  out (CancelPhoneNumber example_root (answering_net 420 "cancel")
         example_client "US" "12305933" tt)
  = out (BuyPhoneNumber example_root (answering_net 420 "cancel")
           example_client "US" "12305933" tt).
Proof.
  pose proof (CancelPhoneNumber_mirrors_BuyPhoneNumber example_root
                (answering_net 420 "cancel") example_client
                "US" "12305933") as [_ H].
  specialize (H ltac:(discriminate) ltac:(discriminate) eq_refl).
  destruct H as (_ & H & _). exact (H eq_refl).
Defined.

(** What the three number operations do when the transport fails. *)
Lemma SearchAvailableWithOptions_run (apiRoot : string) (net : http.Net)
    (rel : json.Release)
    (pf : string -> option float64) (c : Client.t) (countryCode : string)
    (opts : NumberSearchOptions.t) :
  countryCode ≠ "" ->
  let req := accept_json "GET" (searchUrl apiRoot c countryCode opts) in
  http.url_parses net (http.URL req) = true ->
  SearchAvailableWithOptions apiRoot net rel pf c countryCode opts tt
  = match http.resp (http.RoundTrip net req) with
    | None => mkResult (Panicked NilDereference) tt [EvDo req]
    | Some rsp =>
        mkResult
          (Returned
             match http.err (http.RoundTrip net req) with
             | Some e => (NumberSearchResponse.zero, Some (urlError e))
             | None =>
                 json.Unmarshal (NumberSearchResponse.decode rel pf)
                   (http.Body rsp) NumberSearchResponse.zero
             end)
          tt [EvDo req; EvClose]
    end.
Proof.
  intros Hc req Hu. subst req. unfold SearchAvailableWithOptions, NewRequest.
  unfold accept_json in *. simpl in Hu.
  rewrite (len_leb_nonempty _ Hc), Hu.
  unfold deref at 1. rewrite bind_ret, bind_Do.
  destruct (http.RoundTrip net _) as [[rsp |] [e |]]; reflexivity.
Qed.

(** C1 fails on the code.  When the transport fails, the HTTP client hands
    back a nil response together with the error; the three number
    operations read [resp.Body] for their [defer] before they look at the
    error, so they panic and the error never reaches the caller. *)
Theorem number_operations_panic_on_transport_error (apiRoot : string)
    (net : http.Net) (rel : json.Release)
    (pf : string -> option float64) (c : Client.t)
    (countryCode number : string) (opts : NumberSearchOptions.t) :
  countryCode ≠ "" -> number ≠ "" ->
  (∀ u, http.url_parses net u = true) ->
  (∀ r, ∃ e, http.RoundTrip net r = http.mkDoResult None (Some e)) ->
  out (SearchAvailableWithOptions apiRoot net rel pf c countryCode opts tt)
  = Panicked NilDereference
  ∧ out (BuyPhoneNumber apiRoot net c countryCode number tt)
    = Panicked NilDereference
  ∧ out (CancelPhoneNumber apiRoot net c countryCode number tt)
    = Panicked NilDereference.
Proof.
  intros Hc Hn Hu Hrt.
  rewrite (SearchAvailableWithOptions_run _ net _ _ _ _ _ Hc (Hu _)),
    (BuyPhoneNumber_run _ net _ _ _ Hc Hn),
    (CancelPhoneNumber_run _ net _ _ _ Hc Hn), !Hu.
  unfold number_run.
  repeat split; match goal with
    | |- context [http.RoundTrip net ?r] =>
        destruct (Hrt r) as [e ->]; reflexivity
    end.
Qed.

Lemma number_operations_panic_on_transport_error_witness :
  out (BuyPhoneNumber example_root refusing_net example_client
         "US" "12305933" tt)
  = Panicked NilDereference.
Proof.
  refine (proj1 (proj2
    (number_operations_panic_on_transport_error example_root refusing_net
        lenient_release
       no_float example_client "US" "12305933" NumberSearchOptions.zero
       _ _ _ _))).
  - discriminate.
  - discriminate.
  - intros u. reflexivity.
  - intros r. eexists. reflexivity.
Defined.

(** ** Properties of [Send] *)

(** Whatever [json.Unmarshal] reports for a target of this package is an
    error that the library made. *)
Lemma raise_made (c : json.complaint) : json_made (json.raise c).
Proof. destruct c; simpl; [done | by eexists]. Qed.

Lemma fail_made (r : json.refusal) : json_made (json.reported (json.fail r)).
Proof. unfold json.fail. destruct (json.ends r); apply raise_made. Qed.

Lemma after_cases (a b : option json.failure) (f : json.failure) :
  json.after a b = Some f -> a = Some f ∨ b = Some f.
Proof.
  unfold json.after. destruct b as [[e | e] |], a as [fa |]; auto.
Qed.

Lemma dec_string_made : well_made json.dec_string.
Proof.
  intros v cur a f. destruct v; simpl; intros [= _ <-] || intros [=]; done.
Qed.

Lemma dec_int_made (gotype : string) : well_made (json.dec_int gotype).
Proof.
  intros v cur a f. destruct v as [| b | lit | s | vs | ms]; simpl;
    try (intros [= _ <-]; done); try (intros [=]; done).
  destruct (strconv.ParseInt lit); [intros [=] | intros [= _ <-]]; done.
Qed.

Lemma dec_quoted_made {A} (rel : json.Release) (gotype : string)
    (conv : string -> option A) :
  well_made (json.dec_quoted rel gotype conv).
Proof.
  intros v cur a f. unfold json.dec_quoted.
  destruct v as [| b | lit | s | vs | ms];
    try (intros [= _ <-]; apply fail_made); try (intros [=]; done).
  destruct (String.eqb s "null"); [intros [=]; done |].
  destruct (json.starts_number s), (conv s), (json.misquoted rel s gotype);
    try (intros [= _ <-]; apply fail_made); intros [=]; done.
Qed.

Lemma dec_elems_made {A} (zero : A) (d : json.decoder A) :
  well_made d ->
  ∀ vs l f, json.dec_elems zero d vs = (l, Some f) ->
            json_made (json.reported f).
Proof.
  intros Hd vs. induction vs as [| v vs IH]; intros l f; simpl; [done |].
  destruct (d v zero) as [a e] eqn:Ha.
  destruct (json.dec_elems zero d vs) as [l' e'] eqn:Hl.
  destruct e as [[e0 | e0] |].
  - intros [= _ H]. apply after_cases in H as [[= <-] | ->].
    + by apply (Hd _ _ _ _ Ha).
    + by eapply IH.
  - intros [= _ <-]. by apply (Hd _ _ _ _ Ha).
  - intros [= _ H]. apply after_cases in H as [[=] | ->]. by eapply IH.
Qed.

Lemma dec_slice_made {A} (gotype : string) (zero : A) (d : json.decoder A) :
  well_made d -> well_made (json.dec_slice gotype zero d).
Proof.
  intros Hd v cur a f. destruct v; simpl;
    try (intros [= _ <-]; done); try (intros [=]; done).
  by apply dec_elems_made.
Qed.

Lemma field_of_made {T A} (k : string) (proj : T -> A) (upd : A -> T -> T)
    (d : json.decoder A) (v : json.value) (t t' : T) (f : json.failure) :
  well_made d ->
  json.store (json.field_of k proj upd d) v t = (t', Some f) ->
  json_made (json.reported f).
Proof.
  intros Hd. simpl. destruct (d v (proj t)) as [a e] eqn:Ha.
  intros [= _ ->]. by apply (Hd _ _ _ _ Ha).
Qed.

Lemma find_field_In {T} (fields : list (json.field T)) (k : string)
    (f : json.field T) :
  json.find_field fields k = Some f -> In f fields.
Proof.
  unfold json.find_field.
  destruct (List.find _ fields) as [g |] eqn:Hg.
  - intros [= <-]. by apply find_some in Hg as [? _].
  - intros Hf. by apply find_some in Hf as [? _].
Qed.

Lemma dec_members_made {T} (fields : list (json.field T)) :
  (∀ g, In g fields ->
        ∀ v t t' f, json.store g v t = (t', Some f) ->
                    json_made (json.reported f)) ->
  ∀ ms t t' f, json.dec_members fields ms t = (t', Some f) ->
               json_made (json.reported f).
Proof.
  intros Hfields ms. induction ms as [| [k v] ms IH]; intros t t' f; simpl;
    [done |].
  destruct (json.find_field fields k) as [g |] eqn:Hg; [| by apply IH].
  apply find_field_In in Hg.
  destruct (json.store g v t) as [t1 e] eqn:Hs.
  destruct (json.dec_members fields ms t1) as [t2 e'] eqn:Hm.
  destruct e as [[e0 | e0] |].
  - intros [= _ H]. apply after_cases in H as [[= <-] | ->].
    + by apply (Hfields _ Hg _ _ _ _ Hs).
    + by eapply IH.
  - intros [= _ <-]. by apply (Hfields _ Hg _ _ _ _ Hs).
  - intros [= _ H]. apply after_cases in H as [[=] | ->]. by eapply IH.
Qed.

Lemma dec_struct_made {T} (gotype : string) (fields : list (json.field T)) :
  (∀ g, In g fields ->
        ∀ v t t' f, json.store g v t = (t', Some f) ->
                    json_made (json.reported f)) ->
  well_made (json.dec_struct gotype fields).
Proof.
  intros Hfields v cur a f. destruct v; simpl;
    try (intros [= _ <-]; done); try (intros [=]; done).
  by apply dec_members_made.
Qed.

Lemma dec_ptr_made {T} (zero : T) (d : json.decoder T) :
  well_made d -> well_made (json.dec_ptr zero d).
Proof.
  intros Hd v cur a f. unfold json.dec_ptr.
  destruct v; try (intros [=]; done);
    match goal with
    | |- context [d ?v ?t] => destruct (d v t) as [t' e] eqn:Ht
    end; intros [= _ ->]; by apply (Hd _ _ _ _ Ht).
Qed.

(** The fields of a struct that is written out. *)
Ltac fields_made :=
  intros g Hg; simpl in Hg;
  repeat (destruct Hg as [<- | Hg];
          [intros ? ? ? ?; apply field_of_made;
           first [ apply dec_string_made | apply dec_int_made
                 | apply dec_quoted_made | idtac ] |]);
  try destruct Hg.

Lemma MessageReport_decode_made (rel : json.Release) :
  well_made (MessageReport.decode rel).
Proof. apply dec_struct_made. fields_made. Qed.

Lemma MessageResponse_decode_ptr_made (rel : json.Release) :
  well_made (MessageResponse.decode_ptr rel).
Proof.
  apply dec_ptr_made, dec_struct_made. fields_made.
  apply dec_slice_made, MessageReport_decode_made.
Qed.

Lemma Unmarshal_made {A} (d : json.decoder A) (data : string) (target a : A)
    (e : error) :
  well_made d ->
  json.Unmarshal d data target = (a, Some e) -> json_made e.
Proof.
  intros Hd. unfold json.Unmarshal. destruct (json.parse data) as [v |].
  - destruct (d v target) as [a' [f |]] eqn:Hv; simpl; intros [= _ <-].
    by apply (Hd _ _ _ _ Hv).
  - by intros [= _ <-].
Qed.

Lemma json_made_not_validation (m : string) :
  json_made (errors.New m) -> m ∉ validation_errors.
Proof.
  intros [d ->] H%list_elem_of_In. simpl in H.
  repeat (destruct H as [H | H]; [discriminate H |]). done.
Qed.

(** [Send_transmit] in closed form. *)
Lemma Send_transmit_run (apiRoot : string) (net : http.Net)
    (rel : json.Release) (c : Client.t)
    (msg : SMSMessage.t) :
  let m := stamped c msg in
  let req := sms_request apiRoot m in
  Send_transmit apiRoot net rel c msg
  = if http.url_parses net (apiRoot ++ "/sms/json")%string then
      mkResult (transmit_out rel (http.RoundTrip net req)) m
        (verbose c "NEXMO: Sending encoded form:" (LString (form_of m))
         ++ verbose c "NEXMO: Sending request:" (LRequest req)
         ++ [EvDo req] ++ transmit_tail c (http.RoundTrip net req))
    else
      mkResult (Panicked NilDereference) m
        (verbose c "NEXMO: Sending encoded form:" (LString (form_of m))).
Proof.
  cbv zeta. unfold Send_transmit, NewRequest, stamped, sms_request, form_of.
  rewrite bind_get.
  destruct (http.url_parses net _);
    destruct (Client.useOauth c), (Client.VerboseLogging c) eqn:Hv;
    unfold transmit_out, transmit_tail, verbose; rewrite ?Hv;
    simpl negb; unfold when, log, deref at 1;
    rewrite ?bind_ret, ?bind_put, ?bind_get, ?bind_emit, ?bind_ret,
      ?bind_emit, ?bind_Do;
    try reflexivity;
    destruct (http.RoundTrip net _) as [[rsp |] [e |]];
    try reflexivity;
    simpl; unfold defer, bind, emit, ret; simpl;
    destruct (json.Unmarshal _ _ _) as [mr [e |]]; reflexivity.
Qed.

(** [Send] is its checks followed by [Send_transmit]. *)
Lemma Send_run (apiRoot : string) (net : http.Net)
    (rel : json.Release) (c : Client.t)
    (msg : SMSMessage.t) :
  Send apiRoot net rel c msg
  = match validation msg with
    | Some m => mkResult (Returned (None, Some (errors.New m))) msg []
    | None => Send_transmit apiRoot net rel c msg
    end.
Proof.
  unfold Send, validation. rewrite bind_get.
  repeat match goal with
  | |- context [if ?b then _ else _] => destruct b
  end; reflexivity.
Qed.

Lemma requests_app (t1 t2 : list event) :
  requests (t1 ++ t2) = (requests t1 ++ requests t2)%list.
Proof. unfold requests. apply omap_app. Qed.

Lemma requests_verbose (c : Client.t) (p : string) (a : logarg) :
  requests (verbose c p a) = [].
Proof. unfold verbose. by destruct (Client.VerboseLogging c). Qed.

Lemma requests_transmit_tail (c : Client.t) (d : http.DoResult) :
  requests (transmit_tail c d) = [].
Proof.
  unfold transmit_tail. destruct (http.err d), (http.resp d); try done.
  by rewrite !requests_app, !requests_verbose.
Qed.

(** Past the checks, a message is posted as soon as the URL of the SMS
    endpoint parses. *)
Lemma Send_transmit_posted (apiRoot : string) (net : http.Net)
    (rel : json.Release)
    (c : Client.t) (msg : SMSMessage.t) :
  http.url_parses net (apiRoot ++ "/sms/json")%string = true ->
  posted apiRoot (Send_transmit apiRoot net rel c msg).
Proof.
  intros Hu. rewrite Send_transmit_run, Hu.
  exists (sms_request apiRoot (stamped c msg)). cbn [trace]. split; [| done].
  by rewrite !requests_app, !requests_verbose, requests_transmit_tail.
Qed.

Lemma Send_transmit_requests (apiRoot : string) (net : http.Net)
    (rel : json.Release) (c : Client.t) (msg : SMSMessage.t) :
  http.url_parses net (apiRoot ++ "/sms/json")%string = true ->
  requests (trace (Send_transmit apiRoot net rel c msg))
  = [sms_request apiRoot (stamped c msg)].
Proof.
  intros Hu. rewrite Send_transmit_run, Hu. cbn [trace].
  by rewrite !requests_app, !requests_verbose, requests_transmit_tail.
Qed.

(** Past the checks, none of the validation errors is returned. *)
Lemma Send_transmit_no_errorString (apiRoot : string) (net : http.Net)
    (rel : json.Release) (c : Client.t) (msg : SMSMessage.t)
    (x : option MessageResponse.t) (m : string) :
  m ∈ validation_errors ->
  out (Send_transmit apiRoot net rel c msg)
  ≠ Returned (x, Some (errors.New m)).
Proof.
  intros Hm. rewrite Send_transmit_run.
  destruct (http.url_parses net _); simpl; [| done].
  unfold transmit_out.
  destruct (http.err _); [done |]. destruct (http.resp _); [| done].
  destruct (json.Unmarshal _ _ _) as [mr [e |]] eqn:Hd; [| done].
  apply Unmarshal_made in Hd; [| apply MessageResponse_decode_ptr_made].
  intros [= _ ->]. by apply json_made_not_validation in Hd.
Qed.

Lemma Send_transmit_not_validation (apiRoot : string) (net : http.Net)
    (rel : json.Release)
    (c : Client.t) (msg : SMSMessage.t) :
  ¬ validation_failed (Send_transmit apiRoot net rel c msg).
Proof.
  intros (m & x & Hm & H). by apply Send_transmit_no_errorString in H.
Qed.

(** Membership in a list that is written out. *)
Ltac listed := apply list_elem_of_In; simpl; auto 10.

(** When the transport fails, [Send] returns the error of the HTTP
    client as it is, whether or not a response came with it. *)
Lemma Send_transmit_transport_error (apiRoot : string) (net : http.Net)
    (rel : json.Release)
    (c : Client.t) (msg : SMSMessage.t) (rsp : option http.Response)
    (e : url.Error) :
  http.url_parses net (apiRoot ++ "/sms/json")%string = true ->
  http.RoundTrip net (sms_request apiRoot (stamped c msg))
  = http.mkDoResult rsp (Some e) ->
  out (Send_transmit apiRoot net rel c msg)
  = Returned (None, Some (urlError e)).
Proof.
  intros Hu Hrt. by rewrite Send_transmit_run, Hu, Hrt.
Qed.

(** A message that the checks refuse. *)
Lemma Send_rejected (apiRoot : string) (net : http.Net)
    (rel : json.Release) (c : Client.t)
    (msg : SMSMessage.t) (m : string) :
  validation msg = Some m ->
  m ∈ validation_errors ->
  rejected msg (Send apiRoot net rel c msg).
Proof.
  intros Hv Hm. rewrite Send_run, Hv. by exists m.
Qed.

(** A message that the checks let through. *)
Lemma Send_accepted (apiRoot : string) (net : http.Net)
    (rel : json.Release) (c : Client.t)
    (msg : SMSMessage.t) :
  validation msg = None ->
  ¬ validation_failed (Send apiRoot net rel c msg)
  ∧ (http.url_parses net (apiRoot ++ "/sms/json")%string = true ->
       posted apiRoot (Send apiRoot net rel c msg)).
Proof.
  intros Hv. rewrite Send_run, Hv. split.
  - apply Send_transmit_not_validation.
  - apply Send_transmit_posted.
Qed.

Lemma gt_40 (s : string) : 40 < len s -> (40 <? len s) = true.
Proof. intros H. by apply Z.ltb_lt. Qed.

Lemma le_40 (s : string) : len s <= 40 -> (40 <? len s) = false.
Proof. intros H. by apply Z.ltb_ge. Qed.

Lemma characters_le_len (s : string) : characters s <= len s.
Proof.
  unfold len. induction s as [| ch s IH]; [done |].
  cbn [characters String.length]. destruct (continues ch); lia.
Qed.

(** C2.  A message with an empty sender, an empty recipient or a client
    reference longer than 40 bytes, which every reference of more than 40
    characters is, is refused with the error of the first check it fails,
    nothing is sent or logged and the message is left as it was; a
    message that passes one of the three checks, the reference being at
    most 40 bytes long, never gets the error of that check.  (The
    reference is measured by [len], in bytes.) *)
Theorem Send_checks_required_fields (apiRoot : string) (net : http.Net)
    (rel : json.Release) (c : Client.t) (msg : SMSMessage.t) :
  let r := Send apiRoot net rel c msg in
  let refused (m : string) := Returned (None, Some (errors.New m)) in
  (SMSMessage.From msg = "" ∨ SMSMessage.To msg = ""
   ∨ 40 < len (SMSMessage.ClientReference msg) ->
     rejected msg r ∧ requests (trace r) = [])
  ∧ (SMSMessage.From msg = "" ->
       out r = refused "Invalid From field specified")
  ∧ (SMSMessage.From msg ≠ "" -> SMSMessage.To msg = "" ->
       out r = refused "Invalid To field specified")
  ∧ (SMSMessage.From msg ≠ "" -> SMSMessage.To msg ≠ "" ->
     40 < len (SMSMessage.ClientReference msg) ->
       out r = refused "Client reference too long")
  ∧ (SMSMessage.From msg ≠ "" ->
       ∀ x, out r
            ≠ Returned (x, Some (errors.New "Invalid From field specified")))
  ∧ (SMSMessage.To msg ≠ "" ->
       ∀ x, out r
            ≠ Returned (x, Some (errors.New "Invalid To field specified")))
  ∧ (len (SMSMessage.ClientReference msg) <= 40 ->
       ∀ x, out r
            ≠ Returned (x, Some (errors.New "Client reference too long")))
  ∧ (SMSMessage.From msg ≠ "" -> SMSMessage.To msg ≠ "" ->
     40 < characters (SMSMessage.ClientReference msg) ->
       out r = refused "Client reference too long").
Proof.
  cbv zeta.
  assert (Hfrom : SMSMessage.From msg = "" ->
            validation msg = Some "Invalid From field specified").
  { intros H. unfold validation. by rewrite (len_leb_empty _ H). }
  assert (Hto : SMSMessage.From msg ≠ "" -> SMSMessage.To msg = "" ->
            validation msg = Some "Invalid To field specified").
  { intros H1 H2. unfold validation.
    by rewrite (len_leb_nonempty _ H1), (len_leb_empty _ H2). }
  assert (Hcr : SMSMessage.From msg ≠ "" -> SMSMessage.To msg ≠ "" ->
            40 < len (SMSMessage.ClientReference msg) ->
            validation msg = Some "Client reference too long").
  { intros H1 H2 H3. unfold validation.
    by rewrite (len_leb_nonempty _ H1), (len_leb_nonempty _ H2),
      (gt_40 _ H3). }
  assert (Hnot : ∀ bad x,
            bad ∈ validation_errors ->
            (∀ m, validation msg = Some m -> m ≠ bad) ->
            out (Send apiRoot net rel c msg)
            ≠ Returned (x, Some (errors.New bad))).
  { intros bad x Hbad Hv. rewrite Send_run.
    destruct (validation msg) as [m |] eqn:Hm.
    - simpl. intros [= _ ->]. by apply (Hv _ eq_refl).
    - by apply Send_transmit_no_errorString. }
  assert (Hrej : SMSMessage.From msg = "" ∨ SMSMessage.To msg = ""
                 ∨ 40 < len (SMSMessage.ClientReference msg) ->
                 rejected msg (Send apiRoot net rel c msg)).
  { intros H.
    destruct (decide (SMSMessage.From msg = "")) as [H1 | H1].
    { eapply Send_rejected; [by apply Hfrom | listed]. }
    destruct (decide (SMSMessage.To msg = "")) as [H2 | H2].
    { eapply Send_rejected; [by apply Hto | listed]. }
    destruct H as [? | [? | H3]]; [done | done |].
    eapply Send_rejected; [by apply Hcr | listed]. }
  split; [| repeat split].
  - intros H. split; [by apply Hrej |].
    destruct (Hrej H) as (m & _ & _ & -> & _). done.
  - intros H. by rewrite Send_run, (Hfrom H).
  - intros H1 H2. by rewrite Send_run, (Hto H1 H2).
  - intros H1 H2 H3. by rewrite Send_run, (Hcr H1 H2 H3).
  - intros H1 x. apply Hnot; [listed |]. intros m. unfold validation.
    rewrite (len_leb_nonempty _ H1).
    repeat match goal with
    | |- context [if ?b then _ else _] => destruct b
    end; congruence.
  - intros H1 x. apply Hnot; [listed |]. intros m. unfold validation.
    destruct (len (SMSMessage.From msg) <=? 0); [congruence |].
    rewrite (len_leb_nonempty _ H1).
    repeat match goal with
    | |- context [if ?b then _ else _] => destruct b
    end; congruence.
  - intros H1 x. apply Hnot; [listed |]. intros m. unfold validation.
    rewrite (le_40 _ H1).
    repeat match goal with
    | |- context [if ?b then _ else _] => destruct b
    end; congruence.
  - intros H1 H2 H3. rewrite Send_run, (Hcr H1 H2); [done |].
    pose proof (characters_le_len (SMSMessage.ClientReference msg)). lia.
Qed.

Lemma Send_checks_required_fields_witness :
  out (Send example_root refusing_net lenient_release example_client
         (SMSMessage.mk "" "" "" "447700900000" Text "hello" 0 "" "" "" ""
            0 Flash [] [] "" "" 0))
  = Returned (None, Some (errors.New "Invalid From field specified")).
Proof.
  exact (proj1 (proj2
    (Send_checks_required_fields example_root refusing_net
        lenient_release example_client
       (SMSMessage.mk "" "" "" "447700900000" Text "hello" 0 "" "" "" ""
          0 Flash [] [] "" "" 0))) eq_refl).
Defined.

(** A client reference of 21 characters, each of two bytes, is not longer
    than 40 characters and is refused all the same: the limit is one of
    bytes. *)
Lemma Send_checks_required_fields_counterexample :
  SMSMessage.From (accented_message Text) ≠ ""
  ∧ SMSMessage.To (accented_message Text) ≠ ""
  ∧ characters (SMSMessage.ClientReference (accented_message Text)) = 21
  ∧ len (SMSMessage.ClientReference (accented_message Text)) = 42
  ∧ out (Send example_root (answering_net 200 "{}") lenient_release
           example_client (accented_message Text))
    = Returned (None, Some (errors.New "Client reference too long")).
Proof. repeat split; try discriminate; vm_compute; reflexivity. Qed.

(** The checks that every message passes first. *)
Lemma validation_well_addressed (msg : SMSMessage.t) :
  well_addressed msg ->
  validation msg
  = if String.eqb (SMSMessage.Type_ msg) Text then None
    else if String.eqb (SMSMessage.Type_ msg) Unicode then
      if len (SMSMessage.Text msg) <=? 0 then Some "Invalid message text"
      else None
    else if String.eqb (SMSMessage.Type_ msg) Binary then
      if (len_bytes (SMSMessage.UDH msg) =? 0)
         || (len_bytes (SMSMessage.Body msg) =? 0)
      then Some "Invalid binary message"
      else None
    else if String.eqb (SMSMessage.Type_ msg) WAPPush then
      if (len (SMSMessage.URL msg) =? 0) || (len (SMSMessage.Title msg) =? 0)
      then Some "Invalid WAP Push parameters"
      else None
    else None.
Proof.
  intros (Hf & Ht & Hc). unfold validation.
  by rewrite (len_leb_nonempty _ Hf), (len_leb_nonempty _ Ht), (le_40 _ Hc).
Qed.





(** C10.  A message whose type is none of text, unicode, binary and
    wappush (so also one of type vcal or vcard) meets no check of its
    type: once it passes the three general checks, the client reference
    being at most 40 bytes long, it passes validation, whatever its other
    fields hold, and as soon as the URL of the endpoint parses it is
    posted: the one request of the run carries the form of the message. *)
Theorem Send_other_types_unchecked (apiRoot : string) (net : http.Net)
    (rel : json.Release) (c : Client.t) (msg : SMSMessage.t) :
  SMSMessage.Type_ msg ∉ [Text; Unicode; Binary; WAPPush] ->
  well_addressed msg ->
  let r := Send apiRoot net rel c msg in
  ¬ validation_failed r
  ∧ (http.url_parses net (apiRoot ++ "/sms/json")%string = true ->
       posted apiRoot r
       ∧ requests (trace r) = [sms_request apiRoot (stamped c msg)]).
Proof.
  intros Hty Hw. cbv zeta.
  assert (Hv : validation msg = None).
  { rewrite (validation_well_addressed _ Hw).
    repeat (apply not_elem_of_cons in Hty as [?%String.eqb_neq Hty]).
    by repeat match goal with H : (_ =? _)%string = false |- _ =>
      rewrite H; clear H end. }
  destruct (Send_accepted apiRoot net rel c msg Hv) as [Hnot Hposted].
  split; [exact Hnot |]. intros Hu. split; [by apply Hposted |].
  rewrite Send_run, Hv. by apply Send_transmit_requests.
Qed.

Lemma Send_other_types_unchecked_witness :
  (VCal ∉ [Text; Unicode; Binary; WAPPush])
  ∧ (VCard ∉ [Text; Unicode; Binary; WAPPush])
  ∧ posted example_root
      (Send example_root (answering_net 200 "{}") lenient_release
         example_client (bare_message VCal))
  ∧ http.ReqBody
      <$> requests
            (trace (Send example_root (answering_net 200 "{}")
                      lenient_release example_client (bare_message VCal)))
    = [Some "api_key=key&api_secret=secret&from=sender&to=447700900000&type=vcal"].
Proof.
  assert (H1 : VCal ∉ [Text; Unicode; Binary; WAPPush]).
  { intros H%list_elem_of_In. simpl in H. intuition discriminate. }
  assert (H2 : VCard ∉ [Text; Unicode; Binary; WAPPush]).
  { intros H%list_elem_of_In. simpl in H. intuition discriminate. }
  assert (Hw : well_addressed (bare_message VCal)).
  { unfold well_addressed. simpl. repeat split; [done | done |].
    unfold len. simpl. lia. }
  split; [exact H1 | split; [exact H2 |]].
  destruct (proj2 (Send_other_types_unchecked example_root
                     (answering_net 200 "{}") lenient_release
                     example_client (bare_message VCal) H1 Hw) eq_refl)
    as [Hp Hr].
  split; [exact Hp |]. rewrite Hr. reflexivity.
Defined.

(** A vcal message whose client reference has 21 characters, each of two
    bytes: the reference is not longer than 40 characters, and the
    message is refused, with nothing sent. *)
Lemma Send_other_types_unchecked_counterexample :
  (SMSMessage.Type_ (accented_message VCal)
   ∉ [Text; Unicode; Binary; WAPPush])
  ∧ SMSMessage.From (accented_message VCal) ≠ ""
  ∧ SMSMessage.To (accented_message VCal) ≠ ""
  ∧ characters (SMSMessage.ClientReference (accented_message VCal)) = 21
  ∧ out (Send example_root (answering_net 200 "{}") lenient_release
           example_client (accented_message VCal))
    = Returned (None, Some (errors.New "Client reference too long"))
  ∧ requests
      (trace (Send example_root (answering_net 200 "{}") lenient_release
                example_client (accented_message VCal)))
    = [].
Proof.
  split.
  { intros H%list_elem_of_In. simpl in H. intuition discriminate. }
  repeat split; try discriminate; vm_compute; reflexivity.
Qed.

(** ** Reading back a JSON text *)

Lemma string_app_nil_l (a : string) : ("" ++ a)%string = a.
Proof. reflexivity. Qed.

Lemma string_app_nil_r (a : string) : (a ++ "")%string = a.
Proof.
  induction a as [| ch a IH]; [done |]. by rewrite string_app_cons, IH.
Qed.

Section ReadBack.

Local Open Scope nat_scope.

Lemma plain_char_spec c :
  plain_char c = true ->
  Ascii.eqb c json.quote = false ∧ Ascii.eqb c json.backslash = false
  ∧ (N_of_ascii c <? 32)%N = false ∧ (N_of_ascii c <? 128)%N = true.
Proof.
  destruct c as [[] [] [] [] [] [] [] []]; vm_compute; intuition congruence.
Qed.

Lemma scan_string_plain (s rest : string) (fuel : nat) :
  plain_string s = true -> String.length s < fuel ->
  json.scan_string fuel (s ++ String json.quote rest) = Some (s, rest).
Proof.
  revert fuel. induction s as [| c s IH]; intros fuel Hp Hf.
  - destruct fuel; [lia |]. reflexivity.
  - destruct fuel; [simpl in Hf; lia |].
    simpl in Hp. apply andb_prop in Hp as [Hc Hs].
    destruct (plain_char_spec c Hc) as (Hq & Hb & Hctl & Hascii).
    rewrite string_app_cons.
    cbn [json.scan_string]. rewrite Hq, Hb, Hctl.
    unfold json.utf8_width. rewrite Hascii.
    cbn [json.drop json.take].
    rewrite IH; [reflexivity | done | simpl in Hf; lia].
Qed.

(** Induction on a value, with the elements of arrays and the members of
    objects. *)
Lemma value_induction (P : json.value -> Prop) :
  P json.Null -> (∀ b, P (json.Bool b)) -> (∀ lit, P (json.Number lit)) ->
  (∀ s, P (json.Str s)) ->
  (∀ vs, Forall P vs -> P (json.Array vs)) ->
  (∀ ms, Forall (fun kv => P (snd kv)) ms -> P (json.Object ms)) ->
  ∀ v, P v.
Proof.
  intros Hnull Hbool Hnum Hstr Harr Hobj.
  fix IH 1. intros [| b | lit | s | vs | ms].
  - exact Hnull.
  - apply Hbool.
  - apply Hnum.
  - apply Hstr.
  - apply Harr. induction vs as [| v vs IHvs]; constructor.
    + apply IH.
    + exact IHvs.
  - apply Hobj. induction ms as [| [k v] ms IHms]; constructor.
    + apply IH.
    + exact IHms.
Qed.

(** The first character of a rendering opens a value. *)
Lemma render_opens v : json_plain v = true -> opens (json_render v).
Proof.
  destruct v as [| [] | lit | s | vs | ms]; simpl; intros H; try discriminate;
    eexists _, _; (split; [reflexivity |]); repeat split; try done;
    try (unfold json.quote; discriminate).
Qed.

Lemma scan_elems_render (vs : list json.value) :
  vs ≠ [] ->
  Forall (fun v => json_plain v = true ∧ reads_back v) vs ->
  ∀ rest fuel,
    2 * String.length (commas (List.map json_render vs)) + 2 <= fuel ->
    json.scan_elems fuel (commas (List.map json_render vs) ++ String "]" rest)
    = Some (vs, rest).
Proof.
  induction vs as [| v vs IH]; [done |]. intros _ Hall rest fuel Hf.
  apply Forall_cons in Hall as [[Hp Hv] Hall].
  destruct fuel as [| f]; [lia |].
  destruct vs as [| v' vs].
  - simpl commas in *. cbn [json.scan_elems].
    rewrite Hv by lia. reflexivity.
  - change (commas (List.map json_render (v :: v' :: vs)))
      with (json_render v ++ "," ++ commas (List.map json_render (v' :: vs)))
      in *.
    set (tl := commas (List.map json_render (v' :: vs))) in *.
    rewrite !string_app_length in Hf. change (String.length ",") with 1 in Hf.
    cbn [json.scan_elems]. rewrite !string_app_assoc.
    rewrite Hv by lia. rewrite string_app_cons, string_app_nil_l.
    cbn [json.skip_ws json.is_space].
    rewrite IH; [reflexivity | done | done | lia].
Qed.

Lemma scan_members_render (ms : list (string * json.value)) :
  ms ≠ [] ->
  Forall (fun kv => plain_string (fst kv) = true
                    ∧ json_plain (snd kv) = true ∧ reads_back (snd kv)) ms ->
  ∀ rest fuel,
    2 * String.length
          (commas (List.map
                     (fun kv => quoted (fst kv) ++ ":" ++ json_render (snd kv))
                     ms))
    + 2 <= fuel ->
    json.scan_members fuel
      (commas (List.map
                 (fun kv => quoted (fst kv) ++ ":" ++ json_render (snd kv))
                 ms)
       ++ String "}" rest)
    = Some (ms, rest).
Proof.
  induction ms as [| [k v] ms IH]; [done |]. intros _ Hall rest fuel Hf.
  apply Forall_cons in Hall as [(Hk & Hp & Hv) Hall]. simpl in Hk, Hp, Hv.
  destruct fuel as [| f]; [lia |].
  destruct ms as [| kv' ms].
  - simpl commas in *. simpl fst in *. simpl snd in *.
    unfold quoted in *. rewrite !string_app_length in Hf.
    simpl String.length in Hf.
    rewrite !string_app_assoc, !string_app_cons, !string_app_assoc,
      !string_app_cons, !string_app_nil_l.
    cbn [json.scan_members json.skip_ws json.is_space json.quote Ascii.eqb
         Bool.eqb].
    rewrite scan_string_plain
      by (try done; rewrite string_app_length; simpl; lia).
    cbn [json.skip_ws json.is_space].
    rewrite Hv by lia. reflexivity.
  - set (f1 := fun kv : string * json.value =>
                 quoted (fst kv) ++ ":" ++ json_render (snd kv)) in *.
    change (commas (List.map f1 ((k, v) :: kv' :: ms)))
      with (f1 (k, v) ++ "," ++ commas (List.map f1 (kv' :: ms))) in *.
    set (tl := commas (List.map f1 (kv' :: ms))) in *.
    unfold f1 at 1 in Hf. unfold f1 at 1. simpl fst in *. simpl snd in *.
    unfold quoted in *. rewrite !string_app_length in Hf.
    simpl String.length in Hf.
    rewrite !string_app_length in Hf. simpl String.length in Hf.
    rewrite !string_app_assoc, !string_app_cons, !string_app_assoc,
      !string_app_cons, !string_app_nil_l.
    cbn [json.scan_members json.skip_ws json.is_space json.quote Ascii.eqb
         Bool.eqb].
    rewrite scan_string_plain
      by (try done; rewrite string_app_length; simpl; lia).
    cbn [json.skip_ws json.is_space].
    rewrite Hv by lia.
    cbn [json.skip_ws json.is_space].
    rewrite IH; [reflexivity | done | done | lia].
Qed.

Lemma scan_value_array (f : nat) (s : string) :
  opens s ->
  json.scan_value (S f) (String "[" s)
  = match json.scan_elems f s with
    | Some (vs, r') => Some (json.Array vs, r')
    | None => None
    end.
Proof.
  intros (c & r & -> & Hsp & Hc & _).
  cbn [json.scan_value json.skip_ws json.is_space]. rewrite Hsp.
  destruct c as [[] [] [] [] [] [] [] []]; try reflexivity. congruence.
Qed.

Lemma commas_opens (v : json.value) (vs : list json.value) (rest : string) :
  json_plain v = true ->
  opens (commas (List.map json_render (v :: vs)) ++ rest).
Proof.
  intros Hp. destruct (render_opens v Hp) as (c & r & Hr & H).
  exists c. destruct vs as [| v' vs].
  - exists (r ++ rest). simpl commas. rewrite Hr. by rewrite string_app_cons.
  - eexists. change (commas (List.map json_render (v :: v' :: vs)))
      with (json_render v ++ "," ++ commas (List.map json_render (v' :: vs))).
    rewrite Hr, !string_app_cons. done.
Qed.

Lemma scan_value_object (f : nat) (r : string) :
  json.scan_value (S f) (String "{" (String json.quote r))
  = match json.scan_members f (String json.quote r) with
    | Some (ms, r') => Some (json.Object ms, r')
    | None => None
    end.
Proof. reflexivity. Qed.

Lemma members_quote (k : string) (v : json.value)
    (ms : list (string * json.value)) (rest : string) :
  ∃ r,
    commas (List.map (fun kv => quoted (fst kv) ++ ":" ++ json_render (snd kv))
              ((k, v) :: ms)) ++ rest
    = String json.quote r.
Proof.
  destruct ms as [| kv' ms].
  - simpl. unfold quoted. rewrite !string_app_cons. eauto.
  - change (commas (List.map ?f ((k, v) :: kv' :: ms)))
      with (f (k, v) ++ "," ++ commas (List.map f (kv' :: ms))).
    cbn beta. unfold quoted at 1. simpl fst. rewrite !string_app_cons. eauto.
Qed.

Lemma scan_value_render (v : json.value) : json_plain v = true -> reads_back v.
Proof.
  induction v as [| b | lit | s | vs IH | ms IH] using value_induction;
    intros Hp rest fuel Hf; (destruct fuel as [| f]; [lia |]).
  - reflexivity.
  - destruct b; reflexivity.
  - discriminate.
  - simpl in Hp. simpl json_render. unfold quoted.
    rewrite !string_app_cons, !string_app_assoc, !string_app_cons, !string_app_nil_l.
    cbn [json.scan_value json.skip_ws json.is_space json.quote Ascii.eqb
         Bool.eqb].
    rewrite scan_string_plain
      by (try done; rewrite string_app_length; simpl; lia).
    reflexivity.
  - simpl in Hp. destruct vs as [| v vs].
    + reflexivity.
    + assert (Hall : Forall (fun v => json_plain v = true ∧ reads_back v)
                       (v :: vs)).
      { apply List.Forall_forall. intros x Hx. rewrite forallb_forall in Hp.
        rewrite List.Forall_forall in IH. split; [by apply Hp |].
        apply IH; [done |]. by apply Hp. }
      set (tl := commas (List.map json_render (v :: vs))) in *.
      change (json_render (json.Array (v :: vs))) with ("[" ++ tl ++ "]") in *.
      rewrite !string_app_length in Hf. simpl String.length in Hf.
      rewrite !string_app_cons, !string_app_nil_l, !string_app_assoc,
        !string_app_cons, !string_app_nil_l.
      rewrite scan_value_array.
      * subst tl. rewrite scan_elems_render; [reflexivity | done | done | lia].
      * subst tl. apply commas_opens. by apply Forall_cons in Hall as [[? _] _].
  - simpl in Hp. destruct ms as [| [k v] ms].
    + reflexivity.
    + assert (Hall : Forall (fun kv => plain_string (fst kv) = true
                         ∧ json_plain (snd kv) = true ∧ reads_back (snd kv))
                       ((k, v) :: ms)).
      { apply List.Forall_forall. intros x Hx. rewrite forallb_forall in Hp.
        rewrite List.Forall_forall in IH. specialize (Hp x Hx).
        apply andb_prop in Hp as [? ?]. repeat split; [done | done |].
        by apply IH. }
      set (f1 := fun kv : string * json.value =>
                   quoted (fst kv) ++ ":" ++ json_render (snd kv)) in *.
      set (tl := commas (List.map f1 ((k, v) :: ms))) in *.
      change (json_render (json.Object ((k, v) :: ms))) with ("{" ++ tl ++ "}") in *.
      rewrite !string_app_length in Hf. simpl String.length in Hf.
      rewrite !string_app_cons, !string_app_nil_l, !string_app_assoc,
        !string_app_cons, !string_app_nil_l.
      destruct (members_quote k v ms (String "}" rest)) as [r Hr].
      fold f1 in Hr. fold tl in Hr. rewrite Hr, scan_value_object, <- Hr.
      subst tl f1.
      rewrite scan_members_render; [reflexivity | done | done | lia].
Qed.

(** The text of a plain value is read back as that value. *)
Lemma parse_render (v : json.value) :
  json_plain v = true -> json.parse (json_render v) = Some v.
Proof.
  intros Hp. unfold json.parse.
  rewrite <- (string_app_nil_r (json_render v)) at 2.
  rewrite (scan_value_render v Hp) by lia. reflexivity.
Qed.

End ReadBack.

(** ** Properties of the decoding of a message response *)

(** The elements of an array are decoded one by one and kept in order. *)
Lemma dec_elems_ordered {A} (zero : A) (d : json.decoder A)
    (vs : list json.value) (ms : list A) :
  Forall2 (fun v m => d v zero = (m, None)) vs ms ->
  json.dec_elems zero d vs = (ms, None).
Proof.
  induction 1 as [| v m vs ms Hd _ IH]; simpl; [done |].
  by rewrite Hd, IH.
Qed.

Lemma after_None_l (b : option json.failure) : json.after None b = b.
Proof. by destruct b as [[e | e] |]. Qed.

(** A member that names a field and is stored without failure. *)
Lemma dec_members_stored {T} (fields : list (json.field T)) (k : string)
    (v : json.value) (rest : list (string * json.value)) (t t' : T)
    (f : json.field T) :
  json.find_field fields k = Some f ->
  json.store f v t = (t', None) ->
  json.dec_members fields ((k, v) :: rest) t
  = json.dec_members fields rest t'.
Proof.
  intros Hf Hs. simpl. rewrite Hf, Hs.
  destruct (json.dec_members fields rest t') as [t'' e'].
  by rewrite after_None_l.
Qed.

(** A failure met at a member is not lost: either it is the one reported,
    or the decoder stopped at a later member. *)
Lemma dec_members_failed {T} (fields : list (json.field T)) (k : string)
    (v : json.value) (rest : list (string * json.value)) (t t' : T)
    (f : json.field T) (e : json.failure) :
  json.find_field fields k = Some f ->
  json.store f v t = (t', Some e) ->
  (json.dec_members fields ((k, v) :: rest) t).2 = Some e
  ∨ ∃ e', (json.dec_members fields ((k, v) :: rest) t).2
          = Some (json.Stopped e').
Proof.
  intros Hf Hs. simpl. rewrite Hf, Hs. destruct e as [e | e].
  - destruct (json.dec_members fields rest t') as [t'' [[e' | e'] |]]; simpl;
      eauto.
  - by left.
Qed.

Lemma dec_members_fails {T} (fields : list (json.field T)) (k : string)
    (v : json.value) (rest : list (string * json.value)) (t t' : T)
    (f : json.field T) (e : json.failure) :
  json.find_field fields k = Some f ->
  json.store f v t = (t', Some e) ->
  ∃ e', (json.dec_members fields ((k, v) :: rest) t).2 = Some e'.
Proof.
  intros Hf Hs.
  destruct (dec_members_failed _ _ _ rest _ _ _ _ Hf Hs) as [H | [e' H]];
    eauto.
Qed.

Lemma starts_number_not_null (s : string) :
  json.starts_number s = true -> String.eqb s "null" = false.
Proof.
  destruct s as [| ch s]; [done |]. intros H. apply String.eqb_neq.
  intros [= -> _]. discriminate.
Qed.

(** A quoted literal that begins like a number and that the conversion
    reads is stored, whatever the release. *)
Lemma dec_quoted_reads {A} (rel : json.Release) (gotype : string)
    (conv : string -> option A) (s : string) (n cur : A) :
  json.starts_number s = true -> conv s = Some n ->
  json.dec_quoted rel gotype conv (json.Str s) cur = (n, None).
Proof.
  intros Hs Hn. unfold json.dec_quoted.
  by rewrite (starts_number_not_null _ Hs), Hs, Hn.
Qed.

(** A response object with a quoted count and an array of reports: the
    count is read from the string and the reports keep their order. *)
Lemma decode_response (rel : json.Release) (count : string) (n : Z)
    (os : list json.value) (ms : list MessageReport.t) :
  json.starts_number count = true ->
  strconv.ParseInt count = Some n ->
  Forall2 (fun o m =>
             MessageReport.decode rel o MessageReport.zero = (m, None))
    os ms ->
  MessageResponse.decode_ptr rel
    (json.Object [("message-count", json.Str count);
                  ("messages", json.Array os)]) None
  = (Some (MessageResponse.mk n ms), None).
Proof.
  intros Hs Hn Hos.
  unfold MessageResponse.decode_ptr, json.dec_ptr, MessageResponse.decode,
    json.dec_struct.
  rewrite (dec_members_stored (MessageResponse.fields rel) "message-count"
             _ _ _ (MessageResponse.mk n []) _ eq_refl).
  - rewrite (dec_members_stored (MessageResponse.fields rel) "messages"
               _ _ _ (MessageResponse.mk n ms) _ eq_refl); [done |].
    cbn [json.store json.field_of json.dec_slice MessageResponse.Messages].
    by rewrite (dec_elems_ordered _ _ _ _ Hos).
  - cbn [json.store json.field_of]. unfold json.dec_int_quoted.
    by rewrite (dec_quoted_reads _ _ _ _ n _ Hs Hn).
Qed.

Lemma decode_three_reports (rel : json.Release) (o1 o2 o3 : json.value)
    (m1 m2 m3 : MessageReport.t) :
  MessageReport.decode rel o1 MessageReport.zero = (m1, None) ->
  MessageReport.decode rel o2 MessageReport.zero = (m2, None) ->
  MessageReport.decode rel o3 MessageReport.zero = (m3, None) ->
  MessageResponse.decode_ptr rel
    (json.Object [("message-count", json.Str "3");
                  ("messages", json.Array [o1; o2; o3])]) None
  = (Some (MessageResponse.mk 3 [m1; m2; m3]), None).
Proof.
  intros H1 H2 H3. apply decode_response; [done | done |].
  by repeat constructor.
Qed.

(** C9.  Whatever the release of the library: a body whose
    [message-count] is the string "3" and whose [messages] array holds
    three report objects decodes to a response with count 3 and the three
    reports in the order of the array, and this is what [Send] returns
    for it; so it is for every body that is read as such an object, and
    in particular for the compact text of the object when the reports are
    plain.  The count and the status of a report are read from JSON
    strings: given as JSON numbers they are refused with an error, and
    [Send] returns that error and no response. *)
Theorem MessageResponse_decoding (rel : json.Release) :
  (∀ (body : string) (o1 o2 o3 : json.value) (m1 m2 m3 : MessageReport.t),
     json.parse body
     = Some (json.Object [("message-count", json.Str "3");
                          ("messages", json.Array [o1; o2; o3])]) ->
     MessageReport.decode rel o1 MessageReport.zero = (m1, None) ->
     MessageReport.decode rel o2 MessageReport.zero = (m2, None) ->
     MessageReport.decode rel o3 MessageReport.zero = (m3, None) ->
     json.Unmarshal (MessageResponse.decode_ptr rel) body None
     = (Some (MessageResponse.mk 3 [m1; m2; m3]), None)
     ∧ ∀ (apiRoot : string) (net : http.Net) (c : Client.t)
         (msg : SMSMessage.t) (code : Z),
         validation msg = None ->
         http.url_parses net (apiRoot ++ "/sms/json")%string = true ->
         http.RoundTrip net (sms_request apiRoot (stamped c msg))
         = http.mkDoResult (Some (http.mkResponse code body)) None ->
         out (Send apiRoot net rel c msg)
         = Returned (Some (MessageResponse.mk 3 [m1; m2; m3]), None))
  ∧ (∀ (o1 o2 o3 : json.value) (m1 m2 m3 : MessageReport.t),
       json_plain o1 = true -> json_plain o2 = true ->
       json_plain o3 = true ->
       MessageReport.decode rel o1 MessageReport.zero = (m1, None) ->
       MessageReport.decode rel o2 MessageReport.zero = (m2, None) ->
       MessageReport.decode rel o3 MessageReport.zero = (m3, None) ->
       json.Unmarshal (MessageResponse.decode_ptr rel)
         (json_render
            (json.Object [("message-count", json.Str "3");
                          ("messages", json.Array [o1; o2; o3])]))
         None
       = (Some (MessageResponse.mk 3 [m1; m2; m3]), None))
  ∧ (∀ (body lit : string) (rest : list (string * json.value)),
       json.parse body
       = Some (json.Object (("message-count", json.Number lit) :: rest)) ->
       ∃ e : error,
         (json.Unmarshal (MessageResponse.decode_ptr rel) body None).2
         = Some e
         ∧ ∀ (apiRoot : string) (net : http.Net) (c : Client.t)
             (msg : SMSMessage.t) (code : Z),
             validation msg = None ->
             http.url_parses net (apiRoot ++ "/sms/json")%string = true ->
             http.RoundTrip net (sms_request apiRoot (stamped c msg))
             = http.mkDoResult (Some (http.mkResponse code body)) None ->
             out (Send apiRoot net rel c msg) = Returned (None, Some e))
  ∧ (∀ (s : string) (n : Z),
       json.starts_number s = true -> strconv.ParseInt s = Some n ->
       MessageReport.decode rel (json.Object [("status", json.Str s)])
         MessageReport.zero
       = (MessageReport.mk n "" "" "" "" "" "" "", None))
  ∧ (∀ (lit : string) (rest : list (string * json.value)),
       ∃ f : json.failure,
         (MessageReport.decode rel
            (json.Object (("status", json.Number lit) :: rest))
            MessageReport.zero).2
         = Some f).
Proof.
  assert (Hdecode : ∀ body o1 o2 o3 m1 m2 m3,
            json.parse body
            = Some (json.Object [("message-count", json.Str "3");
                                 ("messages", json.Array [o1; o2; o3])]) ->
            MessageReport.decode rel o1 MessageReport.zero = (m1, None) ->
            MessageReport.decode rel o2 MessageReport.zero = (m2, None) ->
            MessageReport.decode rel o3 MessageReport.zero = (m3, None) ->
            json.Unmarshal (MessageResponse.decode_ptr rel) body None
            = (Some (MessageResponse.mk 3 [m1; m2; m3]), None)).
  { intros body o1 o2 o3 m1 m2 m3 Hp H1 H2 H3.
    unfold json.Unmarshal. rewrite Hp.
    by rewrite (decode_three_reports _ _ _ _ _ _ _ H1 H2 H3). }
  split; [| split; [| split; [| split]]].
  - intros body o1 o2 o3 m1 m2 m3 Hp H1 H2 H3.
    pose proof (Hdecode _ _ _ _ _ _ _ Hp H1 H2 H3) as Hu.
    split; [exact Hu |].
    intros apiRoot net c msg code Hv Hparses Hrt.
    rewrite Send_run, Hv, Send_transmit_run, Hparses, Hrt.
    cbn [out]. unfold transmit_out. cbn [http.err http.resp http.Body].
    by rewrite Hu.
  - intros o1 o2 o3 m1 m2 m3 P1 P2 P3 H1 H2 H3.
    apply (Hdecode _ o1 o2 o3); [| done | done | done].
    apply parse_render. simpl. by rewrite P1, P2, P3.
  - intros body lit rest Hp.
    destruct (dec_members_fails (MessageResponse.fields rel)
                "message-count" (json.Number lit) rest
                MessageResponse.zero MessageResponse.zero _ _
                eq_refl eq_refl) as [f Hf].
    assert (Hu : (json.Unmarshal (MessageResponse.decode_ptr rel) body
                    None).2
                 = Some (json.reported f)).
    { unfold json.Unmarshal. rewrite Hp.
      unfold MessageResponse.decode_ptr, json.dec_ptr,
        MessageResponse.decode, json.dec_struct.
      simpl default. destruct (json.dec_members _ _ _) as [t e].
      simpl in Hf. by rewrite Hf. }
    exists (json.reported f). split; [exact Hu |].
    intros apiRoot net c msg code Hv Hparses Hrt.
    rewrite Send_run, Hv, Send_transmit_run, Hparses, Hrt.
    cbn [out]. unfold transmit_out. cbn [http.err http.resp http.Body].
    destruct (json.Unmarshal _ _ _) as [mr e]. simpl in Hu. by rewrite Hu.
  - intros s n Hs Hn.
    unfold MessageReport.decode, json.dec_struct.
    rewrite (dec_members_stored (MessageReport.fields rel) "status" _ _ _
               (MessageReport.mk n "" "" "" "" "" "" "") _ eq_refl);
      [done |].
    cbn [json.store json.field_of]. unfold json.dec_int_quoted.
    by rewrite (dec_quoted_reads _ _ _ _ n _ Hs Hn).
  - intros lit rest. unfold MessageReport.decode, json.dec_struct.
    by apply (dec_members_fails (MessageReport.fields rel) "status"
                (json.Number lit) rest MessageReport.zero
                MessageReport.zero _ _ eq_refl eq_refl).
Qed.

Lemma example_body_parses :
  json.parse example_body
  = Some (json.Object [("message-count", json.Str "3");
                       ("messages", json.Array example_objects)]).
Proof. vm_compute. reflexivity. Qed.

Lemma MessageResponse_decoding_witness :
  json.Unmarshal (MessageResponse.decode_ptr lenient_release) example_body
    None
  = (Some (MessageResponse.mk 3 example_reports), None)
  ∧ json.Unmarshal (MessageResponse.decode_ptr lenient_release)
      (json_render
         (json.Object [("message-count", json.Str "3");
                       ("messages", json.Array example_objects)]))
      None
    = (Some (MessageResponse.mk 3 example_reports), None)
  ∧ (json.Unmarshal (MessageResponse.decode_ptr lenient_release)
       unquoted_body None).2
    ≠ None.
Proof.
  split; [| split].
  - pose proof example_body_parses as Hp. unfold example_objects in Hp.
    refine (proj1 (proj1 (MessageResponse_decoding lenient_release)
                     example_body _ _ _ _ _ _ Hp _ _ _));
      vm_compute; reflexivity.
  - refine (proj1 (proj2 (MessageResponse_decoding lenient_release))
              _ _ _ _ _ _ _ _ _ _ _ _);
      vm_compute; reflexivity.
  - destruct (proj1 (proj2 (proj2 (MessageResponse_decoding
                                     lenient_release)))
                unquoted_body "3" [("messages", json.Array [])]
                ltac:(vm_compute; reflexivity)) as (e & He & _).
    rewrite He. discriminate.
Defined.

Lemma search_filters_both_or_neither_witness :
  searchUrl example_root example_client "US"
    (NumberSearchOptions.mk "1985" "")
  = search_base example_root example_client "US"
  ∧ http.URL <$> requests
      (trace (SearchAvailableWithOptions example_root
                (answering_net 200 "{}")
                    lenient_release no_float example_client "US"
                (NumberSearchOptions.mk "1985" "0") tt))
    = ["https://rest.nexmo.com/number/search/key/secret/US?pattern=1985&search_pattern=0"].
Proof.
  split.
  - refine (proj1 (proj2
      (search_filters_both_or_neither example_root (answering_net 200 "{}")
          lenient_release
         no_float example_client "US" (NumberSearchOptions.mk "1985" "")))
      _).
    right. reflexivity.
  - refine (proj2 (proj2 (proj2
      (search_filters_both_or_neither example_root (answering_net 200 "{}")
          lenient_release
         no_float example_client "US" (NumberSearchOptions.mk "1985" "0"))))
      _ _).
    + discriminate.
    + reflexivity.
Defined.

(** ** The events of a trace *)

Lemma logged_app (t1 t2 : list event) :
  logged (t1 ++ t2) = (logged t1 ++ logged t2)%list.
Proof. unfold logged. apply omap_app. Qed.

Lemma closings_app (t1 t2 : list event) :
  closings (t1 ++ t2) = (closings t1 + closings t2)%nat.
Proof. unfold closings. by rewrite omap_app, length_app. Qed.

Lemma closings_verbose (c : Client.t) (p : string) (a : logarg) :
  closings (verbose c p a) = 0%nat.
Proof. unfold verbose. by destruct (Client.VerboseLogging c). Qed.

(** Counting the events of a trace that is written out. *)
Ltac counts := unfold closings, requests; cbn; lia.

(** ** The form on the wire *)

Lemma single_valued_empty : single_valued [] ∅.
Proof. intros k vs H. by rewrite lookup_empty in H. Qed.

Lemma single_valued_Add (keys : list string) (vals : url.Values) (k v : string) :
  single_valued keys vals -> k ∉ keys ->
  single_valued (k :: keys) (url.Add k v vals).
Proof.
  intros Hs Hk k' vs. unfold url.Add.
  destruct (decide (k = k')) as [<- | Hne].
  - rewrite lookup_insert_eq. intros [= <-].
    destruct (vals !! k) as [old |] eqn:Hold.
    + apply Hs in Hold as [? _]. done.
    + split; [left | by exists v].
  - rewrite lookup_insert_ne by done. intros H.
    apply Hs in H as [? ?]. split; [by right | done].
Qed.

Lemma single_valued_add_if (keys : list string) (vals : url.Values)
    (b : bool) (k v : string) :
  single_valued keys vals -> k ∉ keys ->
  single_valued (k :: keys) (add_if b k v vals).
Proof.
  intros Hs Hk. destruct b; simpl; [by apply single_valued_Add |].
  intros k' vs H. apply Hs in H as [? ?]. split; [by right | done].
Qed.

Lemma not_listed (k : string) (l : list string) :
  forallb (fun x => negb (String.eqb k x)) l = true -> k ∉ l.
Proof.
  intros H Hin. apply list_elem_of_In in Hin.
  rewrite forallb_forall in H. specialize (H _ Hin).
  by rewrite String.eqb_refl in H.
Qed.

Lemma ToValues_single_valued (msg : SMSMessage.t) :
  single_valued value_keys (ToValues msg).
Proof.
  assert (H : single_valued
            ["udh"; "body"; "ttl"; "vcal"; "vcard"; "network-code";
             "client-ref"; "status-report-req"; "text"; "type"; "to"; "from"]
            (ToValues msg)).
  { unfold ToValues.
    repeat first
      [ apply single_valued_add_if; [| by apply not_listed]
      | apply single_valued_Add; [| by apply not_listed] ].
    apply single_valued_empty. }
  intros k vs Hk. apply H in Hk as [Hin ?]. split; [| done].
  apply list_elem_of_In in Hin. apply list_elem_of_In. simpl in *. tauto.
Qed.

Lemma StronglySorted_filter {A} (R : relation A) (P : A -> Prop)
    `{∀ x, Decision (P x)} (l : list A) :
  StronglySorted R l -> StronglySorted R (filter P l).
Proof.
  induction 1 as [| x l Hs IH Hall]; [constructor |].
  rewrite filter_cons. case_decide; [| done].
  constructor; [done |].
  apply Forall_forall. intros y Hy%list_elem_of_filter.
  rewrite Forall_forall in Hall. apply Hall. tauto.
Qed.

Lemma concat_fmap_filter {A B} (f : A -> list B) (P : A -> Prop)
    `{∀ x, Decision (P x)} (l : list A) :
  (∀ x, ¬ P x -> f x = []) ->
  concat (f <$> filter P l) = concat (f <$> l).
Proof.
  intros Hf. induction l as [| x l IH]; [done |].
  rewrite filter_cons. case_decide as Hx; rewrite !fmap_cons; cbn [concat].
  - f_equal. exact IH.
  - rewrite (Hf x Hx). exact IH.
Qed.

Lemma Encode_over (vals : url.Values) (keys : list string) :
  StronglySorted String.le keys -> NoDup keys ->
  (∀ k, is_Some (vals !! k) -> k ∈ keys) ->
  url.Encode vals = url.join "&" (concat (url.encode_key vals <$> keys)).
Proof.
  intros Hsorted Hnodup Hdom. unfold url.Encode. cbv zeta.
  assert (Hkeys : merge_sort String.le (map_to_list vals).*1
                  = filter (fun k => is_Some (vals !! k)) keys).
  { apply (Sorted_unique String.le).
    - apply Sorted_merge_sort. apply _.
    - apply StronglySorted_Sorted. by apply StronglySorted_filter.
    - rewrite merge_sort_Permutation.
      apply NoDup_Permutation.
      + apply NoDup_fst_map_to_list.
      + by apply NoDup_filter.
      + intros k. rewrite list_elem_of_filter, list_elem_of_fmap. split.
        * intros ([k' vs] & -> & Hin%elem_of_map_to_list). simpl.
          split; [by eexists |]. apply Hdom. by eexists.
        * intros [[vs Hvs] _]. exists (k, vs). split; [done |].
          by apply elem_of_map_to_list. }
  rewrite Hkeys. f_equal. apply concat_fmap_filter.
  intros k Hk. unfold url.encode_key.
  destruct (vals !! k) eqn:E; [exfalso; apply Hk; by eexists | done].
Qed.

Lemma encode_key_some (vals : url.Values) (k v : string) :
  vals !! k = Some [v] -> url.QueryEscape k = k ->
  url.encode_key vals k = [form_pair k v].
Proof. intros H Hk. unfold url.encode_key, form_pair. by rewrite H, Hk. Qed.

Lemma encode_key_if (vals : url.Values) (b : bool) (k v : string) :
  vals !! k = (if b then Some [v] else None) -> url.QueryEscape k = k ->
  url.encode_key vals k = form_pair_if b k v.
Proof.
  intros H Hk. unfold url.encode_key, form_pair_if, form_pair. rewrite H, Hk.
  by destruct b.
Qed.

Lemma wire_keys_sorted : StronglySorted String.le wire_keys.
Proof.
  unfold wire_keys.
  repeat (constructor; [| repeat (constructor; [done |]); constructor]).
  constructor.
Qed.

Lemma wire_keys_NoDup : NoDup wire_keys.
Proof.
  unfold wire_keys.
  repeat (apply NoDup_cons; split; [by apply not_listed |]).
  apply NoDup_nil. done.
Qed.

Ltac lookup_form :=
  unfold form_values, ToValues; skip_keys;
  first [ rewrite lookup_add_if_fresh by (skip_keys; apply lookup_empty)
        | rewrite lookup_Add_fresh by (skip_keys; apply lookup_empty) ];
  reflexivity.

(** X2.  The form that [Send] encodes is the list of pairs [key=value]
    joined by [&] with the keys in bytewise order: [api_key] and
    [api_secret] come first and are always there, then come the keys of
    [ToValues], [from], [to] and [type] always and every other key exactly
    when its field is not empty or zero; every value is escaped by
    [url.QueryEscape]. *)
Theorem Send_form_layout (msg : SMSMessage.t) :
  form_of msg
  = url.join "&"
      ([form_pair "api_key" (SMSMessage.apiKey msg);
        form_pair "api_secret" (SMSMessage.apiSecret msg)]
       ++ form_pair_if (0 <? len_bytes (SMSMessage.Body msg))
            "body" (string_of_bytes (SMSMessage.Body msg))
       ++ form_pair_if (nonempty (SMSMessage.ClientReference msg))
            "client-ref" (SMSMessage.ClientReference msg)
       ++ [form_pair "from" (SMSMessage.From msg)]
       ++ form_pair_if (nonempty (SMSMessage.NetworkCode msg))
            "network-code" (SMSMessage.NetworkCode msg)
       ++ form_pair_if (negb (SMSMessage.StatusReportRequired msg =? 0))
            "status-report-req"
            (strconv.Itoa (SMSMessage.StatusReportRequired msg))
       ++ form_pair_if (nonempty (SMSMessage.Text msg))
            "text" (SMSMessage.Text msg)
       ++ [form_pair "to" (SMSMessage.To msg)]
       ++ form_pair_if (negb (SMSMessage.TTL msg =? 0))
            "ttl" (strconv.Itoa (SMSMessage.TTL msg))
       ++ [form_pair "type" (SMSMessage.Type_ msg)]
       ++ form_pair_if (0 <? len_bytes (SMSMessage.UDH msg))
            "udh" (string_of_bytes (SMSMessage.UDH msg))
       ++ form_pair_if (nonempty (SMSMessage.VCal msg))
            "vcal" (SMSMessage.VCal msg)
       ++ form_pair_if (nonempty (SMSMessage.VCard msg))
            "vcard" (SMSMessage.VCard msg))%list.
Proof.
  change (form_of msg) with (url.Encode (form_values msg)).
  rewrite (Encode_over _ wire_keys wire_keys_sorted wire_keys_NoDup).
  - f_equal. unfold wire_keys. rewrite !fmap_cons, fmap_nil. cbn [concat].
    rewrite (encode_key_some _ "api_key" (SMSMessage.apiKey msg))
      by (try reflexivity; lookup_form).
    rewrite (encode_key_some _ "api_secret" (SMSMessage.apiSecret msg))
      by (try reflexivity; lookup_form).
    rewrite (encode_key_if _ _ "body" _) by (try reflexivity; lookup_form).
    rewrite (encode_key_if _ _ "client-ref" _) by (try reflexivity; lookup_form).
    rewrite (encode_key_some _ "from" (SMSMessage.From msg))
      by (try reflexivity; lookup_form).
    rewrite (encode_key_if _ _ "network-code" _) by (try reflexivity; lookup_form).
    rewrite (encode_key_if _ _ "status-report-req" _) by (try reflexivity; lookup_form).
    rewrite (encode_key_if _ _ "text" _) by (try reflexivity; lookup_form).
    rewrite (encode_key_some _ "to" (SMSMessage.To msg))
      by (try reflexivity; lookup_form).
    rewrite (encode_key_if _ _ "ttl" _) by (try reflexivity; lookup_form).
    rewrite (encode_key_some _ "type" (SMSMessage.Type_ msg))
      by (try reflexivity; lookup_form).
    rewrite (encode_key_if _ _ "udh" _) by (try reflexivity; lookup_form).
    rewrite (encode_key_if _ _ "vcal" _) by (try reflexivity; lookup_form).
    rewrite (encode_key_if _ _ "vcard" _) by (try reflexivity; lookup_form).
    rewrite app_nil_r. reflexivity.
  - intros k [vs Hk]. unfold form_values in Hk.
    pose proof (ToValues_single_valued msg) as Hs.
    apply (single_valued_Add _ _ "api_key" (SMSMessage.apiKey msg)) in Hs;
      [| by apply not_listed].
    apply (single_valued_Add _ _ "api_secret" (SMSMessage.apiSecret msg)) in Hs;
      [| by apply not_listed].
    apply Hs in Hk as [Hin _].
    apply list_elem_of_In in Hin. apply list_elem_of_In.
    unfold wire_keys. simpl in *. tauto.
Qed.

(** X1.  [ToValues] always sets [from], [to] and [type], each to the
    one value of its field, be it empty; every key it sets is one of the
    twelve keys of [value_keys], and every key carries exactly one
    value. *)
Theorem ToValues_keys (msg : SMSMessage.t) :
  ToValues msg !! "from" = Some [SMSMessage.From msg]
  ∧ ToValues msg !! "to" = Some [SMSMessage.To msg]
  ∧ ToValues msg !! "type" = Some [SMSMessage.Type_ msg]
  ∧ ∀ (k : string) (vs : list string),
      ToValues msg !! k = Some vs -> k ∈ value_keys ∧ ∃ v, vs = [v].
Proof.
  split; [| split; [| split]].
  - unfold ToValues. skip_keys.
    by rewrite lookup_Add_fresh by apply lookup_empty.
  - unfold ToValues. skip_keys.
    by rewrite lookup_Add_fresh by (skip_keys; apply lookup_empty).
  - unfold ToValues. skip_keys.
    by rewrite lookup_Add_fresh by (skip_keys; apply lookup_empty).
  - apply ToValues_single_valued.
Qed.

(** ** What [Send] keeps to *)

Lemma validation_listed (msg : SMSMessage.t) (m : string) :
  validation msg = Some m -> m ∈ validation_errors.
Proof.
  unfold validation.
  repeat match goal with
  | |- context [if ?b then _ else _] => destruct b
  end; intros [= <-]; listed.
Qed.

Lemma Send_rejected_iff (apiRoot : string) (net : http.Net)
    (rel : json.Release) (c : Client.t)
    (msg : SMSMessage.t) :
  rejected msg (Send apiRoot net rel c msg) <-> validation msg ≠ None.
Proof.
  split.
  - intros (m & Hm & Hout & _) Hv.
    destruct (Send_accepted apiRoot net rel c msg Hv) as [Hnot _].
    apply Hnot. by exists m, None.
  - intros Hv. destruct (validation msg) as [m |] eqn:E; [| done].
    eapply Send_rejected; [done | by eapply validation_listed].
Qed.

Lemma Send_not_rejected (apiRoot : string) (net : http.Net)
    (rel : json.Release) (c : Client.t)
    (msg : SMSMessage.t) :
  ¬ rejected msg (Send apiRoot net rel c msg) -> validation msg = None.
Proof.
  intros H. destruct (validation msg) eqn:E; [| done].
  exfalso. apply H. apply Send_rejected_iff. by rewrite E.
Qed.

Lemma Send_passed (apiRoot : string) (net : http.Net)
    (rel : json.Release) (c : Client.t)
    (msg : SMSMessage.t) :
  ¬ rejected msg (Send apiRoot net rel c msg) ->
  Send apiRoot net rel c msg = Send_transmit apiRoot net rel c msg.
Proof. intros H%Send_not_rejected. by rewrite Send_run, H. Qed.

(** X3.  The WAP push fields never reach the wire: [ToValues] does
    not depend on [Title], [URL] and [Validity] and sets none of the keys
    [title], [url] and [validity], and for two messages that differ only
    in these fields and both pass validation [Send] returns the same and
    does the same. *)
Theorem WAP_fields_not_sent (apiRoot : string) (net : http.Net)
    (rel : json.Release)
    (c : Client.t) (msg : SMSMessage.t) (title wapurl : string)
    (validity : Z) :
  let msg' := with_WAP title wapurl validity msg in
  let r := Send apiRoot net rel c msg in
  let r' := Send apiRoot net rel c msg' in
  ToValues msg' = ToValues msg
  ∧ ToValues msg !! "title" = None
  ∧ ToValues msg !! "url" = None
  ∧ ToValues msg !! "validity" = None
  ∧ (¬ rejected msg r -> ¬ rejected msg' r' ->
       out r' = out r ∧ trace r' = trace r).
Proof.
  cbv zeta. split; [reflexivity |].
  split; [lookup_values |]. split; [lookup_values |].
  split; [lookup_values |].
  intros H H'.
  rewrite (Send_passed _ _ _ _ _ H), (Send_passed _ _ _ _ _ H').
  rewrite !Send_transmit_run. cbv zeta.
  replace (stamped c (with_WAP title wapurl validity msg))
    with (with_WAP title wapurl validity (stamped c msg))
    by (unfold stamped; by destruct (Client.useOauth c)).
  change (sms_request apiRoot (with_WAP title wapurl validity (stamped c msg)))
    with (sms_request apiRoot (stamped c msg)).
  change (form_of (with_WAP title wapurl validity (stamped c msg)))
    with (form_of (stamped c msg)).
  by destruct (http.url_parses net _).
Qed.

Lemma WAP_fields_not_sent_witness :
  out (Send example_root refusing_net lenient_release example_client
         (with_WAP "Offer" "http://example.com/offer" 86400000
            (bare_message Text)))
  = out (Send example_root refusing_net
      lenient_release example_client (bare_message Text)).
Proof.
  refine (proj1 (proj2 (proj2 (proj2 (proj2
    (WAP_fields_not_sent example_root refusing_net
        lenient_release example_client
       (bare_message Text) "Offer" "http://example.com/offer" 86400000))))
    _ _)).
  - intros (m & _ & Hout & _). vm_compute in Hout. discriminate Hout.
  - intros (m & _ & Hout & _). vm_compute in Hout. discriminate Hout.
Defined.

Lemma set_credentials_same (msg : SMSMessage.t) :
  SMSMessage.set_credentials (SMSMessage.apiKey msg)
    (SMSMessage.apiSecret msg) msg = msg.
Proof. by destruct msg. Qed.

Lemma Send_transmit_state (apiRoot : string) (net : http.Net)
    (rel : json.Release) (c : Client.t)
    (msg : SMSMessage.t) :
  state (Send_transmit apiRoot net rel c msg) = stamped c msg.
Proof. rewrite Send_transmit_run. by destruct (http.url_parses net _). Qed.

(** X4.  A message that passes validation is posted once, when the
    endpoint URL parses: one [POST] to [apiRoot/sms/json] whose body is the
    encoded form of the message as [Send] leaves it, and whose headers are
    [Accept] and [Content-Type] and no other. *)
Theorem Send_posts_the_form (apiRoot : string) (net : http.Net)
    (rel : json.Release)
    (c : Client.t) (msg : SMSMessage.t) :
  let r := Send apiRoot net rel c msg in
  ¬ rejected msg r ->
  http.url_parses net (apiRoot ++ "/sms/json")%string = true ->
  ∃ req,
    requests (trace r) = [req]
    ∧ http.Method req = "POST"
    ∧ http.URL req = (apiRoot ++ "/sms/json")%string
    ∧ http.ReqBody req = Some (form_of (state r))
    ∧ http.Hdr req
      = <["Content-Type" := ["application/x-www-form-urlencoded"]]>
          (<["Accept" := ["application/json"]]> ∅).
Proof.
  cbv zeta. intros Hr Hu. rewrite (Send_passed _ _ _ _ _ Hr).
  rewrite Send_transmit_state, Send_transmit_run, Hu. cbn [trace].
  exists (sms_request apiRoot (stamped c msg)).
  split; [by rewrite !requests_app, !requests_verbose,
            requests_transmit_tail |].
  do 3 (split; [reflexivity |]).
  unfold sms_request, http.Header_Add, url.Add. cbn [http.Hdr].
  by rewrite lookup_insert_ne, !lookup_empty.
Qed.

Lemma Send_posts_the_form_witness :
  ∃ req,
    requests (trace (Send example_root (answering_net 200 "null")
        lenient_release
                       example_client (bare_message Text))) = [req]
    ∧ http.Method req = "POST"
    ∧ http.URL req = "https://rest.nexmo.com/sms/json"
    ∧ http.ReqBody req
      = Some "api_key=key&api_secret=secret&from=sender&to=447700900000&type=text"
    ∧ http.Hdr req
      = <["Content-Type" := ["application/x-www-form-urlencoded"]]>
          (<["Accept" := ["application/json"]]> ∅).
Proof.
  refine (Send_posts_the_form example_root (answering_net 200 "null")
      lenient_release
            example_client (bare_message Text) _ _).
  - intros (m & _ & Hout & _). vm_compute in Hout. discriminate Hout.
  - reflexivity.
Defined.

(** X5.  [Send] changes nothing of the caller's message but the two
    credentials: a rejected message and a message sent by an OAuth client
    are left as they were, any other message carries the key and the
    secret of the client afterwards. *)
Theorem Send_touches_credentials_only (apiRoot : string) (net : http.Net)
    (rel : json.Release)
    (c : Client.t) (msg : SMSMessage.t) :
  let r := Send apiRoot net rel c msg in
  let msg' := state r in
  msg' = SMSMessage.set_credentials (SMSMessage.apiKey msg')
           (SMSMessage.apiSecret msg') msg
  ∧ (rejected msg r ∨ Client.useOauth c = true -> msg' = msg)
  ∧ (¬ rejected msg r -> Client.useOauth c = false ->
       SMSMessage.apiKey msg' = Client.apiKey c
       ∧ SMSMessage.apiSecret msg' = Client.apiSecret c).
Proof.
  cbv zeta.
  destruct (validation msg) as [m |] eqn:Hv.
  - assert (Hr : rejected msg (Send apiRoot net rel c msg)).
    { apply Send_rejected_iff. by rewrite Hv. }
    rewrite Send_run, Hv in *. cbn [state].
    split; [by rewrite set_credentials_same |]. split; [done |].
    intros Hn. by destruct Hn.
  - assert (Hr : ¬ rejected msg (Send apiRoot net rel c msg)).
    { rewrite Send_rejected_iff, Hv. intros H. by apply H. }
    rewrite Send_run, Hv in *. rewrite Send_transmit_state. unfold stamped.
    destruct (Client.useOauth c) eqn:Ho.
    + split; [by rewrite set_credentials_same |]. split; [done |]. done.
    + split; [done |]. split; [| done]. intros [? | ?]; [done | done].
Qed.

(** X6.  When [Send] returns an error it returns no response, and the
    error tells how far it got: one of the six validation errors means
    that nothing was done and the message is untouched; a [url.Error]
    means one request and no body closed; any other error, which is one
    that [encoding/json] made, means one request and its body closed. *)
Theorem Send_error_tells_progress (apiRoot : string) (net : http.Net)
    (rel : json.Release) (c : Client.t) (msg : SMSMessage.t)
    (x : option MessageResponse.t) (e : error) :
  let r := Send apiRoot net rel c msg in
  let answered :=
    List.length (requests (trace r)) = 1%nat ∧ closings (trace r) = 1%nat in
  out r = Returned (x, Some e) ->
  x = None
  ∧ match e with
    | errorString m =>
        (m ∈ validation_errors -> trace r = [] ∧ state r = msg)
        ∧ (m ∉ validation_errors -> answered)
    | urlError _ =>
        List.length (requests (trace r)) = 1%nat
        ∧ closings (trace r) = 0%nat
    | jsonError _ => answered
    end.
Proof.
  cbv zeta. rewrite Send_run.
  destruct (validation msg) as [m |] eqn:Hv.
  - intros [= <- <-]. split; [done |]. split; [done |].
    intros Hm. destruct Hm. by eapply validation_listed.
  - rewrite Send_transmit_run.
    destruct (http.url_parses net _); [| done]. cbn [out trace].
    rewrite !requests_app, !requests_verbose, requests_transmit_tail,
      !closings_app, !closings_verbose.
    unfold transmit_out, transmit_tail.
    destruct (http.RoundTrip net _) as [[rsp |] [e' |]];
      cbn [http.err http.resp]; try done.
    + intros [= <- <-]. split; [done |]. counts.
    + rewrite !closings_app, !closings_verbose.
      destruct (json.Unmarshal _ _ _) as [mr [e' |]] eqn:Hd; [| done].
      intros [= <- <-]. split; [done |].
      apply Unmarshal_made in Hd; [| apply MessageResponse_decode_ptr_made].
      destruct e' as [m | u | j]; [| done | counts].
      split; [| intros _; counts].
      intros Hm. by apply json_made_not_validation in Hd.
    + intros [= <- <-]. split; [done |]. counts.
Qed.

Lemma Send_error_tells_progress_witness :
  let r := Send example_root (answering_net 200 "<html>") lenient_release
             example_client (bare_message Text) in
  out r = Returned (None, Some (jsonError SyntaxError))
  ∧ List.length (requests (trace r)) = 1%nat
  ∧ closings (trace r) = 1%nat.
Proof.
  cbv zeta.
  assert (H : out (Send example_root (answering_net 200 "<html>")
      lenient_release
                     example_client (bare_message Text))
              = Returned (None, Some (jsonError SyntaxError)))
    by (vm_compute; reflexivity).
  split; [exact H |].
  exact (proj2 (Send_error_tells_progress example_root
                  (answering_net 200 "<html>") lenient_release example_client
                  (bare_message Text) None (jsonError SyntaxError) H)).
Defined.

(** X7.  [Send] does not panic when the endpoint URL parses and the
    HTTP client keeps its contract of handing back a response or an
    error. *)
Theorem Send_does_not_panic (apiRoot : string) (net : http.Net)
    (rel : json.Release)
    (c : Client.t) (msg : SMSMessage.t) (p : panic) :
  http.url_parses net (apiRoot ++ "/sms/json")%string = true ->
  (∀ req, http.resp (http.RoundTrip net req) ≠ None
          ∨ http.err (http.RoundTrip net req) ≠ None) ->
  out (Send apiRoot net rel c msg) ≠ Panicked p.
Proof.
  intros Hu Hnet. rewrite Send_run. destruct (validation msg); [done |].
  rewrite Send_transmit_run, Hu. cbn [out]. unfold transmit_out.
  pose proof (Hnet (sms_request apiRoot (stamped c msg))) as H.
  destruct (http.RoundTrip net _) as [[rsp |] [e |]]; simpl in *; try done.
  by destruct H.
Qed.

Lemma Send_does_not_panic_witness :
  out (Send example_root (answering_net 200 "null")
      lenient_release example_client
         (bare_message Text))
  ≠ Panicked NilDereference.
Proof.
  apply (Send_does_not_panic example_root (answering_net 200 "null")
      lenient_release
           example_client (bare_message Text) NilDereference).
  - reflexivity.
  - intros req. left. discriminate.
Defined.

(** X8.  When the HTTP client reports an error, [Send] returns
    exactly that error and no response after its one request, and closes
    nothing, whether or not a response came with the error. *)
Theorem Send_hands_on_transport_error (apiRoot : string) (net : http.Net)
    (rel : json.Release)
    (c : Client.t) (msg : SMSMessage.t) (rsp : option http.Response)
    (e : url.Error) :
  let r := Send apiRoot net rel c msg in
  let req := sms_request apiRoot (stamped c msg) in
  ¬ rejected msg r ->
  http.url_parses net (apiRoot ++ "/sms/json")%string = true ->
  http.RoundTrip net req = http.mkDoResult rsp (Some e) ->
  out r = Returned (None, Some (urlError e))
  ∧ requests (trace r) = [req]
  ∧ closings (trace r) = 0%nat.
Proof.
  cbv zeta. intros Hr Hu Hrt. rewrite (Send_passed _ _ _ _ _ Hr).
  rewrite Send_transmit_run, Hu, Hrt. cbn [out trace].
  unfold transmit_out, transmit_tail, verbose. cbn [http.err http.resp].
  by destruct (Client.VerboseLogging c).
Qed.

Lemma Send_hands_on_transport_error_witness :
  out (Send example_root refusing_net
      lenient_release example_client (bare_message Text))
  = Returned (None,
              Some (urlError (url.mkError "Post"
                                "https://rest.nexmo.com/sms/json"
                                "connection refused"))).
Proof.
  refine (proj1
    (Send_hands_on_transport_error example_root refusing_net
        lenient_release example_client
       (bare_message Text) None
       (url.mkError "Post" "https://rest.nexmo.com/sms/json"
          "connection refused") _ _ _)).
  - intros (m & _ & Hout & _). vm_compute in Hout. discriminate Hout.
  - reflexivity.
  - reflexivity.
Defined.

(** X9.  Once a response arrived without error, [Send] returns
    neither a response nor an error exactly when the body is the JSON
    text [null]; a body that is not JSON gives the syntax error and no
    response. *)
Theorem Send_null_body (apiRoot : string) (net : http.Net) (rel : json.Release)
    (c : Client.t) (msg : SMSMessage.t) (rsp : http.Response) :
  let r := Send apiRoot net rel c msg in
  ¬ rejected msg r ->
  http.url_parses net (apiRoot ++ "/sms/json")%string = true ->
  http.RoundTrip net (sms_request apiRoot (stamped c msg))
  = http.mkDoResult (Some rsp) None ->
  (out r = Returned (None, None)
   <-> json.parse (http.Body rsp) = Some json.Null)
  ∧ (json.parse (http.Body rsp) = None ->
     out r = Returned (None, Some (jsonError SyntaxError))).
Proof.
  cbv zeta. intros Hr Hu Hrt. rewrite (Send_passed _ _ _ _ _ Hr).
  rewrite Send_transmit_run, Hu, Hrt. cbn [out].
  unfold transmit_out. cbn [http.err http.resp]. unfold json.Unmarshal.
  destruct (json.parse (http.Body rsp)) as [v |]; [| split; [split |]; done].
  split; [| done].
  unfold MessageResponse.decode_ptr, json.dec_ptr.
  destruct v; try (split; [| done]);
    try (destruct (MessageResponse.decode _ _) as [t [e' |]]; simpl; done).
  done.
Qed.

Lemma Send_null_body_witness :
  out (Send example_root (answering_net 200 "null")
      lenient_release example_client
         (bare_message Text))
  = Returned (None, None).
Proof.
  refine (proj2 (proj1
    (Send_null_body example_root (answering_net 200 "null")
        lenient_release example_client
       (bare_message Text) (http.mkResponse 200 "null") _ _ _)) _).
  - intros (m & _ & Hout & _). vm_compute in Hout. discriminate Hout.
  - reflexivity.
  - reflexivity.
  - vm_compute. reflexivity.
Defined.

(** X10.  [Send] writes log lines only for a verbose client; for a
    verbose client whose message passes validation the first line is the
    encoded form, credentials included. *)
Theorem Send_logs_only_when_verbose (apiRoot : string) (net : http.Net)
    (rel : json.Release)
    (c : Client.t) (msg : SMSMessage.t) :
  let r := Send apiRoot net rel c msg in
  (Client.VerboseLogging c = false -> logged (trace r) = [])
  ∧ (Client.VerboseLogging c = true -> ¬ rejected msg r ->
       ∃ rest,
         logged (trace r)
         = ("NEXMO: Sending encoded form:",
            LString (form_of (stamped c msg))) :: rest).
Proof.
  cbv zeta. split.
  - intros Hv. rewrite Send_run. destruct (validation msg); [done |].
    rewrite Send_transmit_run. unfold verbose, transmit_tail, verbose.
    rewrite Hv.
    destruct (http.url_parses net _); [| done]. cbn [trace].
    by destruct (http.RoundTrip net _) as [[rsp |] [e |]].
  - intros Hv Hr. rewrite (Send_passed _ _ _ _ _ Hr), Send_transmit_run.
    unfold verbose. rewrite Hv.
    destruct (http.url_parses net _); cbn [trace]; eexists; reflexivity.
Qed.

(** ** What the number operations keep to *)

Lemma number_run_counts (req : http.Request) (d : http.DoResult) :
  (List.length (requests (trace (number_run req d))) <= 1)%nat
  ∧ (closings (trace (number_run req d))
     <= List.length (requests (trace (number_run req d))))%nat.
Proof.
  unfold number_run, closings, requests.
  destruct (http.resp d); cbn; lia.
Qed.

(** X11.  Each of [Send], [SearchAvailableWithOptions],
    [BuyPhoneNumber] and [CancelPhoneNumber] hands at most one request to
    the HTTP client, and closes a response body at most as often as it
    sent a request. *)
Theorem one_request_per_call (apiRoot : string) (net : http.Net)
    (rel : json.Release)
    (pf : string -> option float64) (c : Client.t) (msg : SMSMessage.t)
    (countryCode number : string) (opts : NumberSearchOptions.t) :
  let sent (t : list event) := List.length (requests t) in
  let within (t : list event) :=
    (sent t <= 1)%nat ∧ (closings t <= sent t)%nat in
  within (trace (Send apiRoot net rel c msg))
  ∧ within (trace (SearchAvailableWithOptions apiRoot net rel pf c countryCode
                     opts tt))
  ∧ within (trace (BuyPhoneNumber apiRoot net c countryCode number tt))
  ∧ within (trace (CancelPhoneNumber apiRoot net c countryCode number tt)).
Proof.
  cbv zeta. split; [| split; [| split]].
  - rewrite Send_run. destruct (validation msg); [counts |].
    rewrite Send_transmit_run.
    destruct (http.url_parses net _); cbn [trace].
    + rewrite !requests_app, !requests_verbose, requests_transmit_tail,
        !closings_app, !closings_verbose.
      unfold transmit_tail.
      destruct (http.RoundTrip net _) as [[rsp |] [e |]];
        cbn [http.err http.resp];
        rewrite ?closings_app, ?closings_verbose; counts.
    + rewrite requests_verbose, closings_verbose. counts.
  - destruct (decide (countryCode = "")) as [Hc | Hc].
    + unfold SearchAvailableWithOptions. rewrite (len_leb_empty _ Hc).
      counts.
    + destruct (http.url_parses net
                  (http.URL (accept_json "GET"
                     (searchUrl apiRoot c countryCode opts)))) eqn:Hu.
      * rewrite (SearchAvailableWithOptions_run _ _ _ _ _ _ _ Hc Hu).
        destruct (http.resp _); counts.
      * unfold SearchAvailableWithOptions, NewRequest.
        simpl in Hu. rewrite (len_leb_nonempty _ Hc), Hu. counts.
  - destruct (decide (countryCode = "")) as [Hc | Hc];
      [rewrite BuyPhoneNumber_invalid by (by left); counts |].
    destruct (decide (number = "")) as [Hn | Hn];
      [rewrite BuyPhoneNumber_invalid by (by right); counts |].
    rewrite (BuyPhoneNumber_run _ _ _ _ _ Hc Hn).
    destruct (http.url_parses net _); [apply number_run_counts |].
    counts.
  - destruct (decide (countryCode = "")) as [Hc | Hc];
      [rewrite CancelPhoneNumber_invalid by (by left); counts |].
    destruct (decide (number = "")) as [Hn | Hn];
      [rewrite CancelPhoneNumber_invalid by (by right); counts |].
    rewrite (CancelPhoneNumber_run _ _ _ _ _ Hc Hn).
    destruct (http.url_parses net _); [apply number_run_counts |].
    counts.
Qed.

Lemma status_result_success (code : Z) (b : bool) (e : option error) :
  status_result code = (b, e) ->
  (b = true <-> e = None) ∧ (b = true -> code = 200).
Proof.
  unfold status_result.
  repeat match goal with
  | |- context [?a =? ?b] => destruct (Z.eqb_spec a b)
  end; intros [= <- <-]; split; (split || idtac); try done.
Qed.

Lemma number_run_success (req : http.Request) (d : http.DoResult)
    (b : bool) (e : option error) :
  out (number_run req d) = Returned (b, e) ->
  (b = true <-> e = None)
  ∧ (b = true ->
     ∃ rsp, d = http.mkDoResult (Some rsp) None
            ∧ http.StatusCode rsp = 200).
Proof.
  unfold number_run. destruct d as [[rsp |] [e' |]]; cbn; try done.
  - intros [= <- <-]. split; [split |]; done.
  - intros [= H]. apply status_result_success in H as [H1 H2].
    split; [done |]. intros Hb. exists rsp. split; [done | by apply H2].
Qed.

(** X12.  A purchase or a cancellation that returns reports success
    exactly when it reports no error, and reports success only when the
    answer to its request came without transport error and with status
    200. *)
Theorem success_only_on_200 (apiRoot : string) (net : http.Net)
    (c : Client.t) (countryCode number : string) (b : bool)
    (e : option error) :
  let verdict (path : string) (r : result unit (bool * option error)) :=
    out r = Returned (b, e) ->
    (b = true <-> e = None)
    ∧ (b = true ->
       ∃ rsp,
         http.RoundTrip net
           (accept_json "POST"
              (number_url apiRoot path c countryCode number))
         = http.mkDoResult (Some rsp) None
         ∧ http.StatusCode rsp = 200) in
  verdict "/number/buy/"
    (BuyPhoneNumber apiRoot net c countryCode number tt)
  ∧ verdict "/number/cancel/"
      (CancelPhoneNumber apiRoot net c countryCode number tt).
Proof.
  cbv zeta. destruct (decide (countryCode = "")) as [Hc | Hc].
  { rewrite BuyPhoneNumber_invalid, CancelPhoneNumber_invalid by (by left).
    split; intros [= <- <-]; by split. }
  destruct (decide (number = "")) as [Hn | Hn].
  { rewrite BuyPhoneNumber_invalid, CancelPhoneNumber_invalid by (by right).
    split; intros [= <- <-]; by split. }
  rewrite (BuyPhoneNumber_run _ _ _ _ _ Hc Hn),
    (CancelPhoneNumber_run _ _ _ _ _ Hc Hn).
  split; (destruct (http.url_parses net _); [| done]);
    intros H%number_run_success; done.
Qed.

(** X13.  The three number operations panic exactly when their
    arguments pass validation and either the request URL does not parse or
    the HTTP client hands back no response; a response that comes with an
    error does not make them panic. *)
Theorem number_operations_panic_exactly (apiRoot : string) (net : http.Net)
    (rel : json.Release)
    (pf : string -> option float64) (c : Client.t)
    (countryCode number : string) (opts : NumberSearchOptions.t) :
  let nil_somewhere (req : http.Request) :=
    http.url_parses net (http.URL req) = false
    ∨ http.resp (http.RoundTrip net req) = None in
  (out (SearchAvailableWithOptions apiRoot net rel pf c countryCode opts tt)
   = Panicked NilDereference
   <-> countryCode ≠ ""
       ∧ nil_somewhere
           (accept_json "GET" (searchUrl apiRoot c countryCode opts)))
  ∧ (out (BuyPhoneNumber apiRoot net c countryCode number tt)
     = Panicked NilDereference
     <-> countryCode ≠ "" ∧ number ≠ ""
         ∧ nil_somewhere
             (accept_json "POST"
                (number_url apiRoot "/number/buy/" c countryCode number)))
  ∧ (out (CancelPhoneNumber apiRoot net c countryCode number tt)
     = Panicked NilDereference
     <-> countryCode ≠ "" ∧ number ≠ ""
         ∧ nil_somewhere
             (accept_json "POST"
                (number_url apiRoot "/number/cancel/" c countryCode
                   number))).
Proof.
  cbv zeta.
  assert (Hrun : ∀ req,
            out (if http.url_parses net (http.URL req)
                 then number_run req (http.RoundTrip net req)
                 else mkResult (Panicked NilDereference) tt [])
            = Panicked NilDereference
            <-> http.url_parses net (http.URL req) = false
                ∨ http.resp (http.RoundTrip net req) = None).
  { intros req. destruct (http.url_parses net _).
    - unfold number_run. destruct (http.resp _); cbn.
      + split; [done |]. by intros [? | ?].
      + split; [| done]. intros _. by right.
    - split; [| done]. intros _. by left. }
  split; [| split].
  - destruct (decide (countryCode = "")) as [Hc | Hc].
    { unfold SearchAvailableWithOptions. rewrite (len_leb_empty _ Hc).
      split; [done |]. by intros [? _]. }
    destruct (http.url_parses net
                (http.URL (accept_json "GET"
                   (searchUrl apiRoot c countryCode opts)))) eqn:Hu.
    + rewrite (SearchAvailableWithOptions_run _ _ _ _ _ _ _ Hc Hu).
      destruct (http.resp _); cbn.
      * split; [done |]. by intros (_ & [? | ?]).
      * split; [| done]. intros _. split; [done | by right].
    + unfold SearchAvailableWithOptions, NewRequest.
      simpl in Hu. rewrite (len_leb_nonempty _ Hc), Hu. cbn.
      split; [| done]. intros _. split; [done | by left].
  - destruct (decide (countryCode = "")) as [Hc | Hc].
    { rewrite BuyPhoneNumber_invalid by (by left). split; [done |].
      by intros [? _]. }
    destruct (decide (number = "")) as [Hn | Hn].
    { rewrite BuyPhoneNumber_invalid by (by right). split; [done |].
      by intros (_ & ? & _). }
    rewrite (BuyPhoneNumber_run _ _ _ _ _ Hc Hn), Hrun. tauto.
  - destruct (decide (countryCode = "")) as [Hc | Hc].
    { rewrite CancelPhoneNumber_invalid by (by left). split; [done |].
      by intros [? _]. }
    destruct (decide (number = "")) as [Hn | Hn].
    { rewrite CancelPhoneNumber_invalid by (by right). split; [done |].
      by intros (_ & ? & _). }
    rewrite (CancelPhoneNumber_run _ _ _ _ _ Hc Hn), Hrun. tauto.
Qed.

(** X14.  [SearchAvailable] is the search without filters: an empty
    country code is refused with nothing sent, otherwise the one request
    is a [GET] of the bare search URL, and a search whose options leave a
    filter empty runs exactly like it. *)
Theorem SearchAvailable_unfiltered (apiRoot : string) (net : http.Net)
    (rel : json.Release)
    (pf : string -> option float64) (c : Client.t) (countryCode : string) :
  let r := SearchAvailable apiRoot net rel pf c countryCode tt in
  (countryCode = "" ->
     r = mkResult
           (Returned (NumberSearchResponse.zero,
                      Some (errors.New
                              "Invalid country code field specified")))
           tt [])
  ∧ (countryCode ≠ "" ->
     http.url_parses net (search_base apiRoot c countryCode) = true ->
     requests (trace r)
     = [accept_json "GET" (search_base apiRoot c countryCode)])
  ∧ (∀ opts,
       NumberSearchOptions.Pattern opts = ""
       ∨ NumberSearchOptions.SearchPattern opts = "" ->
       SearchAvailableWithOptions apiRoot net rel pf c countryCode opts tt = r).
Proof.
  cbv zeta. unfold SearchAvailable. split; [| split].
  - intros Hc. unfold SearchAvailableWithOptions.
    by rewrite (len_leb_empty _ Hc).
  - intros Hc Hu.
    rewrite search_request; [done | done |].
    by rewrite searchUrl_not_both by (by left).
  - intros opts Ho. unfold SearchAvailableWithOptions.
    rewrite (searchUrl_not_both _ _ _ opts Ho).
    by rewrite (searchUrl_not_both _ _ _ NumberSearchOptions.zero)
      by (by left).
Qed.

(** X15.  A search does not look at the status code: whatever the
    status of the answer, the result is what [json.Unmarshal] makes of its
    body, response and error together, after one request and one
    closing. *)
Theorem search_ignores_status (apiRoot : string) (net : http.Net)
    (rel : json.Release)
    (pf : string -> option float64) (c : Client.t) (countryCode : string)
    (opts : NumberSearchOptions.t) (rsp : http.Response) :
  let req := accept_json "GET" (searchUrl apiRoot c countryCode opts) in
  countryCode ≠ "" ->
  http.url_parses net (http.URL req) = true ->
  http.RoundTrip net req = http.mkDoResult (Some rsp) None ->
  SearchAvailableWithOptions apiRoot net rel pf c countryCode opts tt
  = mkResult
      (Returned (json.Unmarshal (NumberSearchResponse.decode rel pf)
                   (http.Body rsp) NumberSearchResponse.zero))
      tt [EvDo req; EvClose].
Proof.
  cbv zeta. intros Hc Hu Hrt.
  by rewrite (SearchAvailableWithOptions_run _ _ _ _ _ _ _ Hc Hu), Hrt.
Qed.

Lemma search_ignores_status_witness :
  SearchAvailableWithOptions example_root (answering_net 500 "null")
      lenient_release
    no_float example_client "US" NumberSearchOptions.zero tt
  = mkResult
      (Returned (json.Unmarshal (NumberSearchResponse.decode
          lenient_release no_float)
                   "null" NumberSearchResponse.zero))
      tt
      [EvDo (accept_json "GET"
               (searchUrl example_root example_client "US"
                  NumberSearchOptions.zero));
       EvClose].
Proof.
  refine (search_ignores_status example_root (answering_net 500 "null")
      lenient_release
            no_float example_client "US" NumberSearchOptions.zero
            (http.mkResponse 500 "null") _ _ _).
  - discriminate.
  - reflexivity.
  - reflexivity.
Defined.

(** ** Decoding a search answer *)

Lemma dec_elems_strings (fs : list string) :
  json.dec_elems "" json.dec_string (json.Str <$> fs) = (fs, None).
Proof.
  apply dec_elems_ordered. induction fs; constructor; done.
Qed.

(** X16.  Whatever the release of the library, a search answer in the
    documented layout is decoded although no field carries a tag, its
    lower-case keys matching the field names up to case: [count] is read
    from a JSON number and the numbers in the order of the array, and a
    number's [cost] is read from a JSON string and its features in order.
    A [count] given as a JSON string is a type error, which is the error
    reported unless the decoder stops at a later member; a [cost] given
    as a JSON number is refused with an error. *)
Theorem NumberSearchResponse_decoding (rel : json.Release)
    (pf : string -> option float64) :
  (∀ (lit : string) (n : Z) (os : list json.value)
     (ms : list AvailableNumber.t),
     strconv.ParseInt lit = Some n ->
     Forall2 (fun o m =>
                AvailableNumber.decode rel pf o AvailableNumber.zero
                = (m, None))
       os ms ->
     NumberSearchResponse.decode rel pf
       (json.Object [("count", json.Number lit);
                     ("numbers", json.Array os)])
       NumberSearchResponse.zero
     = (NumberSearchResponse.mk n ms, None))
  ∧ (∀ (s : string) (rest : list (string * json.value)),
       let failure :=
         (NumberSearchResponse.decode rel pf
            (json.Object (("count", json.Str s) :: rest))
            NumberSearchResponse.zero).2 in
       failure
       = Some (json.Saved (jsonError (UnmarshalTypeError "string" "int64")))
       ∨ ∃ e, failure = Some (json.Stopped e))
  ∧ (∀ (country msisdn ty cost : string) (features : list string)
       (x : float64),
       json.starts_number cost = true -> pf cost = Some x ->
       AvailableNumber.decode rel pf
         (json.Object [("country", json.Str country);
                       ("msisdn", json.Str msisdn);
                       ("type", json.Str ty);
                       ("features", json.Array (json.Str <$> features));
                       ("cost", json.Str cost)])
         AvailableNumber.zero
       = (AvailableNumber.mk country msisdn ty features x, None))
  ∧ (∀ (lit : string) (rest : list (string * json.value)),
       ∃ f : json.failure,
         (AvailableNumber.decode rel pf
            (json.Object (("cost", json.Number lit) :: rest))
            AvailableNumber.zero).2
         = Some f).
Proof.
  split; [| split; [| split]].
  - intros lit n os ms Hn Hos.
    unfold NumberSearchResponse.decode, json.dec_struct.
    rewrite (dec_members_stored (NumberSearchResponse.fields rel pf) "count"
               _ _ _ (NumberSearchResponse.mk n []) _ eq_refl).
    + rewrite (dec_members_stored (NumberSearchResponse.fields rel pf)
                 "numbers" _ _ _ (NumberSearchResponse.mk n ms) _ eq_refl);
        [done |].
      cbn [json.store json.field_of json.dec_slice
             NumberSearchResponse.Numbers].
      by rewrite (dec_elems_ordered _ _ _ _ Hos).
    + cbn [json.store json.field_of]. unfold json.dec_int. by rewrite Hn.
  - intros s rest. cbv zeta.
    unfold NumberSearchResponse.decode, json.dec_struct.
    by apply (dec_members_failed (NumberSearchResponse.fields rel pf)
                "count" (json.Str s) rest NumberSearchResponse.zero
                NumberSearchResponse.zero _ _ eq_refl eq_refl).
  - intros country msisdn ty cost features x Hs Hx.
    unfold AvailableNumber.decode, json.dec_struct.
    rewrite (dec_members_stored (AvailableNumber.fields rel pf) "country"
               _ _ _ (AvailableNumber.mk country "" "" [] (S754_zero false))
               _ eq_refl) by reflexivity.
    rewrite (dec_members_stored (AvailableNumber.fields rel pf) "msisdn"
               _ _ _ (AvailableNumber.mk country msisdn "" []
                        (S754_zero false))
               _ eq_refl) by reflexivity.
    rewrite (dec_members_stored (AvailableNumber.fields rel pf) "type"
               _ _ _ (AvailableNumber.mk country msisdn ty []
                        (S754_zero false))
               _ eq_refl) by reflexivity.
    rewrite (dec_members_stored (AvailableNumber.fields rel pf) "features"
               _ _ _ (AvailableNumber.mk country msisdn ty features
                        (S754_zero false))
               _ eq_refl).
    + rewrite (dec_members_stored (AvailableNumber.fields rel pf) "cost"
                 _ _ _ (AvailableNumber.mk country msisdn ty features x)
                 _ eq_refl); [done |].
      cbn [json.store json.field_of].
      by rewrite (dec_quoted_reads _ _ _ _ x _ Hs Hx).
    + cbn [json.store json.field_of json.dec_slice].
      by rewrite dec_elems_strings.
  - intros lit rest. unfold AvailableNumber.decode, json.dec_struct.
    by apply (dec_members_fails (AvailableNumber.fields rel pf)
                "cost" (json.Number lit) rest AvailableNumber.zero
                AvailableNumber.zero _ _ eq_refl eq_refl).
Qed.

Lemma NumberSearchResponse_decoding_witness :
  json.Unmarshal (NumberSearchResponse.decode lenient_release reads_half)
    search_body NumberSearchResponse.zero
  = (NumberSearchResponse.mk 1
       [AvailableNumber.mk "US" "15005550006" "mobile-lvn" ["SMS"; "VOICE"]
          half],
     None).
Proof.
  assert (Hp : json.parse search_body
               = Some (json.Object
                   [("count", json.Number "1");
                    ("numbers", json.Array
                       [json.Object
                          [("country", json.Str "US");
                           ("msisdn", json.Str "15005550006");
                           ("type", json.Str "mobile-lvn");
                           ("features",
                            json.Array (json.Str <$> ["SMS"; "VOICE"]));
                           ("cost", json.Str "0.50")]])]))
    by (vm_compute; reflexivity).
  unfold json.Unmarshal. rewrite Hp.
  destruct (NumberSearchResponse_decoding lenient_release reads_half)
    as (Hr & _ & Hn & _).
  rewrite (Hr "1" 1 _
             [AvailableNumber.mk "US" "15005550006" "mobile-lvn"
                ["SMS"; "VOICE"] half] eq_refl).
  - reflexivity.
  - constructor; [| constructor].
    exact (Hn "US" "15005550006" "mobile-lvn" "0.50" ["SMS"; "VOICE"] half
             eq_refl eq_refl).
Defined.

(** X17.  A search answer that fits only in part is returned in
    part: when [numbers] holds a JSON string, the search returns the
    response with the count that was read and no numbers, together with
    the type error. *)
Theorem search_keeps_partial_response (apiRoot : string) (net : http.Net)
    (rel : json.Release)
    (pf : string -> option float64) (c : Client.t) (countryCode : string)
    (opts : NumberSearchOptions.t) (rsp : http.Response)
    (lit s : string) (n : Z) :
  let req := accept_json "GET" (searchUrl apiRoot c countryCode opts) in
  countryCode ≠ "" ->
  http.url_parses net (http.URL req) = true ->
  http.RoundTrip net req = http.mkDoResult (Some rsp) None ->
  json.parse (http.Body rsp)
  = Some (json.Object [("count", json.Number lit);
                       ("numbers", json.Str s)]) ->
  strconv.ParseInt lit = Some n ->
  out (SearchAvailableWithOptions apiRoot net rel pf c countryCode opts tt)
  = Returned (NumberSearchResponse.mk n [],
              Some (jsonError (UnmarshalTypeError "string"
                                 "[]nexmo.AvailableNumber"))).
Proof.
  cbv zeta. intros Hc Hu Hrt Hp Hn.
  rewrite (SearchAvailableWithOptions_run _ _ _ _ _ _ _ Hc Hu), Hrt.
  cbn [out http.resp http.err]. unfold json.Unmarshal. rewrite Hp.
  unfold NumberSearchResponse.decode, json.dec_struct.
  rewrite (dec_members_stored (NumberSearchResponse.fields rel pf) "count"
             _ _ _ (NumberSearchResponse.mk n []) _ eq_refl);
    [reflexivity |].
  cbn [json.store json.field_of]. unfold json.dec_int. by rewrite Hn.
Qed.

Lemma search_keeps_partial_response_witness :
  out (SearchAvailableWithOptions example_root (answering_net 200 partial_body)
      lenient_release
         no_float example_client "US" NumberSearchOptions.zero tt)
  = Returned (NumberSearchResponse.mk 2 [],
              Some (jsonError (UnmarshalTypeError "string"
                                 "[]nexmo.AvailableNumber"))).
Proof.
  refine (search_keeps_partial_response example_root
            (answering_net 200 partial_body)
                lenient_release no_float example_client "US"
            NumberSearchOptions.zero (http.mkResponse 200 partial_body)
            "2" "none" 2 _ _ _ _ _).
  - discriminate.
  - reflexivity.
  - reflexivity.
  - vm_compute. reflexivity.
  - reflexivity.
Defined.

(** ** The names of codes and classes *)

Lemma responseCodeMap_named (c : Z) (s : string) :
  responseCodeMap !! c = Some s -> 0 <= c <= 17.
Proof.
  unfold responseCodeMap. intros H%elem_of_list_to_map_2.
  apply list_elem_of_In in H. simpl in H.
  repeat (destruct H as [[= <- _] | H]; [done |]). done.
Qed.

Lemma ResponseCode_String_range (c : Z) :
  ResponseCode_String c ≠ "" <-> 0 <= c <= 17.
Proof.
  split.
  - unfold ResponseCode_String, ResponseCode.
    destruct (responseCodeMap !! c) as [s |] eqn:E; intros H;
      [| by destruct H].
    by eapply responseCodeMap_named.
  - intros H.
    assert (Hc : c ∈ seqZ 0 18) by (apply elem_of_seqZ; lia).
    apply list_elem_of_In in Hc. vm_compute in Hc.
    repeat (destruct Hc as [<- | Hc]; [vm_compute; discriminate |]).
    destruct Hc.
Qed.

(** X18.  [ResponseCode.String] gives a name, that is a text that is
    not empty, exactly for the eighteen codes from [ResponseSuccess] to
    [ResponseInvalidMessageClass], and no two codes share a name; every
    other code reads as the empty text. *)
Theorem ResponseCode_String_names (c c' : ResponseCode) :
  (ResponseCode_String c ≠ "" <-> ResponseSuccess <= c
                                  ∧ c <= ResponseInvalidMessageClass)
  ∧ (ResponseCode_String c ≠ "" ->
     ResponseCode_String c = ResponseCode_String c' -> c = c').
Proof.
  split; [apply ResponseCode_String_range |].
  intros Hc Heq.
  assert (Hc' : ResponseCode_String c' ≠ "") by by rewrite <- Heq.
  apply ResponseCode_String_range in Hc, Hc'.
  assert (H : c ∈ seqZ 0 18) by (apply elem_of_seqZ; lia).
  assert (H' : c' ∈ seqZ 0 18) by (apply elem_of_seqZ; lia).
  apply list_elem_of_In in H, H'. vm_compute in H, H'.
  repeat (destruct H as [<- | H]; [| ]); try done;
    repeat (destruct H' as [<- | H']; [| ]); try done;
    vm_compute in Heq; discriminate Heq.
Qed.

(** X19.  [MessageClass.String] gives a name exactly for the four
    classes from [Flash] to [Forward], and no two classes share a name;
    every other class reads as the empty text. *)
Theorem MessageClass_String_names (m m' : MessageClass) :
  (MessageClass_String m ≠ "" <-> Flash <= m ∧ m <= Forward)
  ∧ (MessageClass_String m ≠ "" ->
     MessageClass_String m = MessageClass_String m' -> m = m').
Proof.
  assert (Hrange : ∀ k, MessageClass_String k ≠ "" <-> 0 <= k <= 3).
  { intros k. split.
    - unfold MessageClass_String, messageClassMap, Flash, Standard, SIMData,
        Forward, MessageClass. intros H.
      destruct (decide (k = 0)); [lia |]. destruct (decide (k = 1)); [lia |].
      destruct (decide (k = 2)); [lia |]. destruct (decide (k = 3)); [lia |].
      rewrite !lookup_insert_ne, lookup_empty in H by done. done.
    - intros H.
      assert (Hk : k = 0 ∨ k = 1 ∨ k = 2 ∨ k = 3) by lia.
      destruct Hk as [-> | [-> | [-> | ->]]]; vm_compute; discriminate. }
  split; [apply Hrange |].
  intros Hm Heq.
  assert (Hm' : MessageClass_String m' ≠ "") by by rewrite <- Heq.
  apply Hrange in Hm, Hm'.
  assert (H : m = 0 ∨ m = 1 ∨ m = 2 ∨ m = 3) by lia.
  assert (H' : m' = 0 ∨ m' = 1 ∨ m' = 2 ∨ m' = 3) by lia.
  destruct H as [-> | [-> | [-> | ->]]];
    destruct H' as [-> | [-> | [-> | ->]]]; try done;
    vm_compute in Heq; discriminate Heq.
Qed.

(** ** Escaped values *)






